(** * DirectWriter: a streaming worksheet encoder

    A shallow embedding of the [DirectWriter] of package [excelize]
    (file [direct.go] and its revisions) together with the properties of its
    buffering, numbering, flushing and replay behaviour.

    Conventions of the embedding:
    - Go [[]byte] is [list byte]; a Go [string] is [string]; [B] converts a
      string to its bytes, as [append(dst, s...)] does.
    - Go [int] and [int64] are [Z] with the 64-bit two's complement
      wrap-around written out ([wrapInt]); [len] is never wrapped, a slice
      cannot be longer than the address space.
    - [error] values are an inductive type, [nil] is [None].
    - the mutex embedded in the writer is a boolean; a [Lock] on a held mutex
      never returns, which a call reports as [Blocked].
    - collaborators that live outside the streaming encoder (value encoder,
      row attribute marshaller, XML escaping, worksheet field serialiser,
      workbook registry) are the fields of the class [Collaborators]: every
      theorem holds for all of them.
    - a sink is any instance of the class [Writer]; a write may accept any
      number of bytes and may fail. *)

From Stdlib Require Import ZArith List String Ascii Bool Lia.
From Stdlib.Strings Require Import Byte.
From Stdlib Require Import DecimalString DecimalZ.
Import ListNotations.

Open Scope Z_scope.
Open Scope list_scope.

(** ** Bytes, strings and integers *)

Definition B (s : string) : list byte := list_byte_of_string s.

(** The double quote character. *)
Definition Q : byte := x22.

Definition len {A : Type} (l : list A) : Z := Z.of_nat (List.length l).

Definition nonempty (s : string) : bool :=
  match s with
  | EmptyString => false
  | String _ _ => true
  end.

Definition intBits : Z := 64.
Definition maxInt : Z := 2 ^ (intBits - 1) - 1.
Definition minInt : Z := - 2 ^ (intBits - 1).

(** Two's complement wrap-around of Go's [int] and [int64]. *)
Definition wrapInt (z : Z) : Z :=
  (z + 2 ^ (intBits - 1)) mod 2 ^ intBits - 2 ^ (intBits - 1).

(** [strconv.Itoa] / the [%d] verb. *)
Definition Itoa (i : Z) : string := NilZero.string_of_int (Z.to_int i).

(** [strconv.AppendInt(dst, i, 10)]. *)
Definition AppendInt (dst : list byte) (i : Z) : list byte := dst ++ B (Itoa i).

Lemma B_app (s t : string) : B (s ++ t) = B s ++ B t.
Proof.
  unfold B, list_byte_of_string.
  induction s as [|a s IH]; cbn; [reflexivity|].
  now rewrite IH.
Qed.

Lemma String_length_app (s t : string) :
  String.length (s ++ t) = (String.length s + String.length t)%nat.
Proof. induction s as [|a s IH]; cbn; [reflexivity|now rewrite IH]. Qed.

Lemma len_B (s : string) : len (B s) = Z.of_nat (String.length s).
Proof.
  unfold len, B, list_byte_of_string. rewrite length_map. f_equal.
  induction s as [|a s IH]; cbn; [reflexivity|now rewrite IH].
Qed.

Lemma len_app {A : Type} (l m : list A) : len (l ++ m) = len l + len m.
Proof. unfold len. rewrite length_app. lia. Qed.

Lemma len_nonneg {A : Type} (l : list A) : 0 <= len l.
Proof. unfold len. lia. Qed.

Lemma wrapInt_small (z : Z) : minInt <= z <= maxInt -> wrapInt z = z.
Proof.
  unfold wrapInt, minInt, maxInt, intBits. intros H.
  rewrite Z.mod_small; lia.
Qed.

(** Decimal printing is injective: two rows never share a printed number. *)
Lemma Itoa_inj (i j : Z) : Itoa i = Itoa j -> i = j.
Proof.
  unfold Itoa. intros H.
  assert (E : NilZero.int_of_string (NilZero.string_of_int (Z.to_int i)) =
              NilZero.int_of_string (NilZero.string_of_int (Z.to_int j)))
    by now rewrite H.
  assert (Hn : forall z, Z.to_int z <> Decimal.Pos Decimal.Nil /\
                         Z.to_int z <> Decimal.Neg Decimal.Nil).
  { intros z. destruct z as [|p|p]; cbn; split; try discriminate;
      unfold Pos.to_uint; intros C; injection C as C;
      pose proof (DecimalPos.Unsigned.to_uint_nonnil p) as Hp;
      unfold Pos.to_uint in Hp; contradiction. }
  rewrite !NilZero.isi in E.
  - injection E as E. rewrite <- (DecimalZ.of_to i), <- (DecimalZ.of_to j).
    now rewrite E.
  - apply Hn.
  - apply Hn.
  - apply Hn.
  - apply Hn.
Qed.

(** ** Errors and call outcomes *)

Inductive error : Type :=
| errors_New (msg : string)
| ErrColumnNumber
| ErrColumnWidth.

(** What a call on the writer does: it returns, or it never returns because
    it waits for a mutex nobody releases, or it panics. *)
Inductive outcome (A St : Type) : Type :=
| Ret (a : A) (s : St)
| Blocked (s : St)
| Panicked (s : St).
Arguments Ret {A St} a s.
Arguments Blocked {A St} s.
Arguments Panicked {A St} s.

(** ** The [io.Writer] interface *)

Class Writer (W : Type) : Type :=
  Write : W -> list byte -> W * (Z * option error).

(** [bytes.Buffer]: every write succeeds and appends. *)
Definition bytesBuffer : Type := list byte.
#[export] Instance bytesBuffer_Writer : Writer bytesBuffer :=
  fun w p => (w ++ p, (len p, None)).

(** ** Cell records *)

(** [xml.Name] and [xml.Attr] of package [encoding/xml]. *)
Module xml.
Record name : Type := { Space : string; Local : string }.
Record attr : Type := { Name : name; Value : string }.
End xml.

Record xlsxF : Type := { Content : string }.

(** [xlsxC], restricted to the fields the encoder reads.  The Go fields
    [XMLSpace], [S], [T], [F], [V] carry a [c_] prefix here. *)
Record xlsxC : Type := {
  c_XMLSpace : xml.attr;
  c_S : Z;
  c_T : string;
  c_F : option xlsxF;
  c_V : string
}.

(** The zero value of [xml.Attr]. *)
Definition noAttr : xml.attr :=
  {| xml.Name := {| xml.Space := EmptyString; xml.Local := EmptyString |};
     xml.Value := EmptyString |}.

(** ** The cell encoder, current revision *)

Section CellEncoder.

(** [appendEscapedString] is not among the sources: the text it produces,
    [escape s b], is a parameter. *)
Variable escape : string -> bool -> list byte.

(** Modelled from the spec: [appendEscapedString] is missing from the
    sources; the cell encoder emits the text of a child element XML-escaped
    into the destination buffer, so the helper appends [escape s b]. *)
Definition appendEscapedString (dst : list byte) (s : string) (b : bool) : list byte :=
  dst ++ escape s b.

Definition appendCellNoRef (dst : list byte) (c : xlsxC) : list byte :=
  let dst := dst ++ B "<c" in
  let dst :=
    if nonempty (xml.Value (c_XMLSpace c)) then
      let dst := dst ++ B " xml:" in
      let dst := dst ++ B (xml.Local (xml.Name (c_XMLSpace c))) in
      let dst := dst ++ B "=" ++ [Q] in
      let dst := dst ++ B (xml.Value (c_XMLSpace c)) in
      dst ++ [Q]
    else dst in
  let dst :=
    if negb (c_S c =? 0) then
      let dst := dst ++ B " s=" ++ [Q] in
      let dst := AppendInt dst (c_S c) in
      dst ++ [Q]
    else dst in
  let dst :=
    if nonempty (c_T c) then
      let dst := dst ++ B " t=" ++ [Q] in
      let dst := dst ++ B (c_T c) in
      dst ++ [Q]
    else dst in
  let dst := dst ++ B ">" in
  let dst :=
    match c_F c with
    | Some f =>
        let dst := dst ++ B "<f>" in
        let dst := appendEscapedString dst (Content f) true in
        dst ++ B "</f>"
    | None => dst
    end in
  let dst :=
    if nonempty (c_V c) then
      let dst := dst ++ B "<v>" in
      let dst := appendEscapedString dst (c_V c) true in
      dst ++ B "</v>"
    else dst in
  dst ++ B "</c>".

(** The pieces of a cell element, in the order they are emitted. *)
Definition spaceAttr (c : xlsxC) : list byte :=
  if nonempty (xml.Value (c_XMLSpace c)) then
    B " xml:" ++ B (xml.Local (xml.Name (c_XMLSpace c))) ++ B "=" ++ [Q]
      ++ B (xml.Value (c_XMLSpace c)) ++ [Q]
  else [].

Definition styleAttr (c : xlsxC) : list byte :=
  if c_S c =? 0 then [] else B " s=" ++ [Q] ++ B (Itoa (c_S c)) ++ [Q].

Definition typeAttr (c : xlsxC) : list byte :=
  if nonempty (c_T c) then B " t=" ++ [Q] ++ B (c_T c) ++ [Q] else [].

Definition formulaChild (c : xlsxC) : list byte :=
  match c_F c with
  | Some f => B "<f>" ++ escape (Content f) true ++ B "</f>"
  | None => []
  end.

Definition valueChild (c : xlsxC) : list byte :=
  if nonempty (c_V c) then B "<v>" ++ escape (c_V c) true ++ B "</v>" else [].

Definition cellBytes (c : xlsxC) : list byte :=
  B "<c" ++ spaceAttr c ++ styleAttr c ++ typeAttr c ++ B ">"
    ++ formulaChild c ++ valueChild c ++ B "</c>".

Lemma appendCellNoRef_cellBytes (dst : list byte) (c : xlsxC) :
  appendCellNoRef dst c = dst ++ cellBytes c.
Proof.
  unfold appendCellNoRef, cellBytes, spaceAttr, styleAttr, typeAttr,
    formulaChild, valueChild, appendEscapedString, AppendInt.
  destruct (nonempty (xml.Value (c_XMLSpace c))), (c_S c =? 0), (nonempty (c_T c)),
    (c_F c), (nonempty (c_V c)); cbn [negb];
    repeat rewrite <- app_assoc; cbn [app]; reflexivity.
Qed.

End CellEncoder.

(** ** The cell encoder, first revision ([direct.go])

    The first revision of the file differs from the current one in two
    places: a quote follows [xml:], and the style attribute is written for
    style numbers above 1 only. *)

Module DirectGo.

Section CellEncoder.

Variable escape : string -> bool -> list byte.

Definition appendCellNoRef (dst : list byte) (c : xlsxC) : list byte :=
  let dst := dst ++ B "<c" in
  let dst :=
    if nonempty (xml.Value (c_XMLSpace c)) then
      let dst := dst ++ B " xml:" ++ [Q] in
      let dst := dst ++ B (xml.Local (xml.Name (c_XMLSpace c))) in
      let dst := dst ++ B "=" ++ [Q] in
      let dst := dst ++ B (xml.Value (c_XMLSpace c)) in
      dst ++ [Q]
    else dst in
  let dst :=
    if 1 <? c_S c then
      let dst := dst ++ B " s=" ++ [Q] in
      let dst := AppendInt dst (c_S c) in
      dst ++ [Q]
    else dst in
  let dst :=
    if nonempty (c_T c) then
      let dst := dst ++ B " t=" ++ [Q] in
      let dst := dst ++ B (c_T c) in
      dst ++ [Q]
    else dst in
  let dst := dst ++ B ">" in
  let dst :=
    match c_F c with
    | Some f =>
        let dst := dst ++ B "<f>" in
        let dst := appendEscapedString escape dst (Content f) true in
        dst ++ B "</f>"
    | None => dst
    end in
  let dst :=
    if nonempty (c_V c) then
      let dst := dst ++ B "<v>" in
      let dst := appendEscapedString escape dst (c_V c) true in
      dst ++ B "</v>"
    else dst in
  dst ++ B "</c>".

End CellEncoder.

End DirectGo.

(** ** The sheet stream *)

Definition dq : string := String "034"%char EmptyString.

(** Update of a slice element in place.  Go panics on an index out of range;
    the encoder only writes below the length it has just grown the slice to
    (see [growMaxColLengths_length] and [setNth_length]). *)
Fixpoint setNth (i : nat) (v : Z) (l : list Z) : list Z :=
  match l, i with
  | [], _ => []
  | _ :: t, O => v :: t
  | h :: t, S j => h :: setNth j v t
  end.

(** *** Collaborators outside the streaming encoder

    None of these is among the sources of the encoder; they are parameters
    of the development. *)

Class Collaborators : Type := {
  (** [appendEscapedString(dst, s, b)] appends [escape s b] to [dst]. *)
  escape : string -> bool -> list byte;

  (** The value encoder: fills [T], [V], [XMLSpace] (and possibly [S]) of the
      cell from a typed value, or fails. *)
  CellValue : Type;
  setCellValFunc : xlsxC -> CellValue -> xlsxC + error;

  RowOpts : Type;
  marshalRowAttrs : list RowOpts -> string + error;

  (** [bulkAppendFields(w, ws, from, to)] writes the XML of the worksheet
      fields [from..to] to [w]; [bulkFields ws from to] is that XML. *)
  xlsxWorksheet : Type;
  bulkFields : xlsxWorksheet -> Z -> Z -> list byte;

  XMLHeader : string;
  templateNamespaceIDMap : string;
  TotalColumns : Z;

  (** Column widths are [float64]; the encoder only compares a width with
      [MaxColumnWidth] and prints it with the [%f] verb. *)
  float64 : Type;
  gtMaxColumnWidth : float64 -> bool;
  fmt_f : float64 -> string;

  (** The workbook: sheet creation and lookup, the list of registered
      streams, and the stores ([Sheet], [checked], [Pkg]) a finished stream
      removes its placeholder from. *)
  File : Type;
  NewSheet : File -> string -> File;
  getSheetID : File -> string -> Z;
  workSheetReader : File -> string -> xlsxWorksheet + error;
  sheetMapPath : File -> string -> string;
  registerDirectWriter : File -> Z -> File;
  deletePlaceholder : File -> string -> File
}.

Section Stream.

Context {env : Collaborators}.

(** The sink. *)
Context {W : Type} {WW : Writer W}.

Record Cell : Type := {
  StyleID : Z;
  Formula : string;
  Value : CellValue
}.

Record DirectWriter : Type := {
  locked : bool;                (* the embedded sync.RWMutex *)
  dwFile : File;
  Sheet : string;
  SheetID : Z;
  cols : string;
  worksheet : xlsxWorksheet;
  sheetPath : string;
  maxBufferSize : Z;
  bytesWritten : Z;
  buf : list byte;
  out : option W;
  done : bool;                  (* true once the channel is closed *)
  rowCount : Z;
  maxColLengths : list Z;
  waitMode : bool
}.

Definition set_locked (dw : DirectWriter) (b : bool) : DirectWriter :=
  {| locked := b; dwFile := dwFile dw; Sheet := Sheet dw; SheetID := SheetID dw;
     cols := cols dw; worksheet := worksheet dw; sheetPath := sheetPath dw;
     maxBufferSize := maxBufferSize dw; bytesWritten := bytesWritten dw;
     buf := buf dw; out := out dw; done := done dw; rowCount := rowCount dw;
     maxColLengths := maxColLengths dw; waitMode := waitMode dw |}.

Definition set_File (dw : DirectWriter) (f : File) : DirectWriter :=
  {| locked := locked dw; dwFile := f; Sheet := Sheet dw; SheetID := SheetID dw;
     cols := cols dw; worksheet := worksheet dw; sheetPath := sheetPath dw;
     maxBufferSize := maxBufferSize dw; bytesWritten := bytesWritten dw;
     buf := buf dw; out := out dw; done := done dw; rowCount := rowCount dw;
     maxColLengths := maxColLengths dw; waitMode := waitMode dw |}.

Definition set_cols (dw : DirectWriter) (c : string) : DirectWriter :=
  {| locked := locked dw; dwFile := dwFile dw; Sheet := Sheet dw; SheetID := SheetID dw;
     cols := c; worksheet := worksheet dw; sheetPath := sheetPath dw;
     maxBufferSize := maxBufferSize dw; bytesWritten := bytesWritten dw;
     buf := buf dw; out := out dw; done := done dw; rowCount := rowCount dw;
     maxColLengths := maxColLengths dw; waitMode := waitMode dw |}.

Definition set_bytesWritten (dw : DirectWriter) (n : Z) : DirectWriter :=
  {| locked := locked dw; dwFile := dwFile dw; Sheet := Sheet dw; SheetID := SheetID dw;
     cols := cols dw; worksheet := worksheet dw; sheetPath := sheetPath dw;
     maxBufferSize := maxBufferSize dw; bytesWritten := n;
     buf := buf dw; out := out dw; done := done dw; rowCount := rowCount dw;
     maxColLengths := maxColLengths dw; waitMode := waitMode dw |}.

Definition set_buf (dw : DirectWriter) (b : list byte) : DirectWriter :=
  {| locked := locked dw; dwFile := dwFile dw; Sheet := Sheet dw; SheetID := SheetID dw;
     cols := cols dw; worksheet := worksheet dw; sheetPath := sheetPath dw;
     maxBufferSize := maxBufferSize dw; bytesWritten := bytesWritten dw;
     buf := b; out := out dw; done := done dw; rowCount := rowCount dw;
     maxColLengths := maxColLengths dw; waitMode := waitMode dw |}.

Definition set_out (dw : DirectWriter) (w : option W) : DirectWriter :=
  {| locked := locked dw; dwFile := dwFile dw; Sheet := Sheet dw; SheetID := SheetID dw;
     cols := cols dw; worksheet := worksheet dw; sheetPath := sheetPath dw;
     maxBufferSize := maxBufferSize dw; bytesWritten := bytesWritten dw;
     buf := buf dw; out := w; done := done dw; rowCount := rowCount dw;
     maxColLengths := maxColLengths dw; waitMode := waitMode dw |}.

Definition set_done (dw : DirectWriter) (b : bool) : DirectWriter :=
  {| locked := locked dw; dwFile := dwFile dw; Sheet := Sheet dw; SheetID := SheetID dw;
     cols := cols dw; worksheet := worksheet dw; sheetPath := sheetPath dw;
     maxBufferSize := maxBufferSize dw; bytesWritten := bytesWritten dw;
     buf := buf dw; out := out dw; done := b; rowCount := rowCount dw;
     maxColLengths := maxColLengths dw; waitMode := waitMode dw |}.

Definition set_rowCount (dw : DirectWriter) (n : Z) : DirectWriter :=
  {| locked := locked dw; dwFile := dwFile dw; Sheet := Sheet dw; SheetID := SheetID dw;
     cols := cols dw; worksheet := worksheet dw; sheetPath := sheetPath dw;
     maxBufferSize := maxBufferSize dw; bytesWritten := bytesWritten dw;
     buf := buf dw; out := out dw; done := done dw; rowCount := n;
     maxColLengths := maxColLengths dw; waitMode := waitMode dw |}.

Definition set_maxColLengths (dw : DirectWriter) (l : list Z) : DirectWriter :=
  {| locked := locked dw; dwFile := dwFile dw; Sheet := Sheet dw; SheetID := SheetID dw;
     cols := cols dw; worksheet := worksheet dw; sheetPath := sheetPath dw;
     maxBufferSize := maxBufferSize dw; bytesWritten := bytesWritten dw;
     buf := buf dw; out := out dw; done := done dw; rowCount := rowCount dw;
     maxColLengths := l; waitMode := waitMode dw |}.

Definition set_waitMode (dw : DirectWriter) (b : bool) : DirectWriter :=
  {| locked := locked dw; dwFile := dwFile dw; Sheet := Sheet dw; SheetID := SheetID dw;
     cols := cols dw; worksheet := worksheet dw; sheetPath := sheetPath dw;
     maxBufferSize := maxBufferSize dw; bytesWritten := bytesWritten dw;
     buf := buf dw; out := out dw; done := done dw; rowCount := rowCount dw;
     maxColLengths := maxColLengths dw; waitMode := b |}.

(** [dw.buf = append(dw.buf, p...)] *)
Definition bufAppend (dw : DirectWriter) (p : list byte) : DirectWriter :=
  set_buf dw (buf dw ++ p).

(** *** NewDirectWriter *)

Definition NewDirectWriter (f : File) (sheet : string) (maxBufferSize : Z)
  : (File * DirectWriter) + error :=
  let f := NewSheet f sheet in
  let sheetID := getSheetID f sheet in
  if sheetID =? -1 then
    inr (errors_New "bug: sheetID not found after call to NewSheet")
  else
    match workSheetReader f sheet with
    | inr err => inr err
    | inl ws =>
        let path := sheetMapPath f sheet in
        let f := registerDirectWriter f sheetID in
        inl (f, {| locked := false; dwFile := f; Sheet := sheet; SheetID := sheetID;
                   cols := EmptyString; worksheet := ws;
                   sheetPath := path;
                   maxBufferSize := maxBufferSize; bytesWritten := 0;
                   buf := []; out := None; done := false; rowCount := 0;
                   maxColLengths := []; waitMode := false |})
    end.

(** *** SetWait *)

Definition SetWait (dw : DirectWriter) (b : bool) : DirectWriter * option error :=
  if b then
    if 0 <? bytesWritten dw then
      (dw, Some (errors_New "Can't enable wait mode since first data already written."))
    else (set_waitMode dw true, None)
  else (set_waitMode dw false, None).

(** *** buildHeader and tryFlush *)

Definition buildHeader (dw : DirectWriter) : list byte :=
  let header := B (XMLHeader ++ "<worksheet" ++ templateNamespaceIDMap) in
  let header := header ++ bulkFields (worksheet dw) 2 5 in
  let header :=
    if 0 <? Z.of_nat (String.length (cols dw)) then
      header ++ B ("<cols>" ++ cols dw ++ "</cols>")
    else header in
  header ++ B "<sheetData>".

Definition tryFlush (dw : DirectWriter) : outcome (option error) DirectWriter :=
  if locked dw then Blocked dw else
  let dw := set_locked dw true in
  match out dw with
  | None => Ret None (set_locked dw false)
  | Some w =>
      let first :=
        if bytesWritten dw =? 0 then
          let '(w1, (n, err)) := Write w (buildHeader dw) in
          match err with
          | Some e => inr (e, set_out dw (Some w1))
          | None =>
              inl (w1, set_bytesWritten (set_out dw (Some w1))
                         (wrapInt (bytesWritten dw + n)))
          end
        else inl (w, dw) in
      match first with
      | inr (e, dw) => Ret (Some e) dw
      | inl (w, dw) =>
          let '(w2, (n, err)) := Write w (buf dw) in
          let dw := set_locked (set_out dw (Some w2)) false in
          match err with
          | Some e => Ret (Some e) dw
          | None =>
              let dw := set_bytesWritten dw (wrapInt (bytesWritten dw + n)) in
              Ret None (set_buf dw [])
          end
      end
  end.

(** *** AddRow *)

Definition growMaxColLengths (l : list Z) (n : nat) : list Z :=
  if (List.length l <? n)%nat then l ++ repeat 0 (n - List.length l) else l.

(** The loop over the cells of a row, from column [i] on.  An error of the
    value encoder ends the loop after the row is closed. *)
Fixpoint AddRow_cells (dw : DirectWriter) (i : nat) (values : list Cell)
  : DirectWriter * option error :=
  match values with
  | [] => (dw, None)
  | val :: rest =>
      let c := {| c_XMLSpace := noAttr; c_S := StyleID val; c_T := EmptyString;
                  c_F := if nonempty (Formula val)
                         then Some {| Content := Formula val |} else None;
                  c_V := EmptyString |} in
      match setCellValFunc c (Value val) with
      | inr err => (bufAppend dw (B "</row>"), Some err)
      | inl c =>
          let l := Z.of_nat (String.length (c_V c)) in
          let dw :=
            if nth i (maxColLengths dw) 0 <? l
            then set_maxColLengths dw (setNth i l (maxColLengths dw))
            else dw in
          let dw := set_buf dw (appendCellNoRef escape (buf dw) c) in
          AddRow_cells dw (S i) rest
      end
  end.

(** Lines 87 to 120 of [AddRow]: everything up to the flush decision.  The
    error, if any, is the one [AddRow] returns at once. *)
Definition AddRow_encode (dw : DirectWriter) (values : list Cell) (opts : list RowOpts)
  : DirectWriter * option error :=
  let dw := set_rowCount dw (wrapInt (rowCount dw + 1)) in
  let dw := bufAppend dw (B "<row r=" ++ [Q]) in
  let dw := set_buf dw (AppendInt (buf dw) (rowCount dw)) in
  let dw := bufAppend dw [Q] in
  let attrs :=
    match opts with
    | [] => inl dw
    | _ :: _ =>
        match marshalRowAttrs opts with
        | inr err => inr err
        | inl attrs => inl (bufAppend dw (B attrs))
        end
    end in
  match attrs with
  | inr err => (dw, Some err)
  | inl dw =>
      let dw := bufAppend dw (B ">") in
      let dw :=
        set_maxColLengths dw (growMaxColLengths (maxColLengths dw) (List.length values)) in
      match AddRow_cells dw 0 values with
      | (dw, Some err) => (dw, Some err)
      | (dw, None) => (bufAppend dw (B "</row>"), None)
      end
  end.

Definition AddRow (dw : DirectWriter) (values : list Cell) (opts : list RowOpts)
  : outcome (Z * option error) DirectWriter :=
  match AddRow_encode dw values opts with
  | (dw, Some err) => Ret (len (buf dw), Some err) dw
  | (dw, None) =>
      if (maxBufferSize dw <? len (buf dw)) && negb (waitMode dw) then
        match tryFlush dw with
        | Ret err dw => Ret (len (buf dw), err) dw
        | Blocked dw => Blocked dw
        | Panicked dw => Panicked dw
        end
      else Ret (len (buf dw), None) dw
  end.

Definition MaxColumnLengths (dw : DirectWriter) : list Z := maxColLengths dw.

(** *** SetColWidth *)

Definition colDirective (min max : Z) (width : float64) : string :=
  ("<col min=" ++ dq ++ Itoa min ++ dq ++ " max=" ++ dq ++ Itoa max ++ dq
     ++ " width=" ++ dq ++ fmt_f width ++ dq
     ++ " customWidth=" ++ dq ++ "1" ++ dq ++ "/>")%string.

Definition SetColWidth (dw : DirectWriter) (min max : Z) (width : float64)
  : DirectWriter * option error :=
  if 0 <? bytesWritten dw then
    (dw, Some (errors_New "Can't set col width since first data already written."))
  else if (TotalColumns <? min) || (TotalColumns <? max) then (dw, Some ErrColumnNumber)
  else if (min <? 1) || (max <? 1) then (dw, Some ErrColumnNumber)
  else if gtMaxColumnWidth width then (dw, Some ErrColumnWidth)
  else
    let '(min, max) := if max <? min then (max, min) else (min, max) in
    (set_cols dw (cols dw ++ colDirective min max width)%string, None).

(** *** Close *)

Definition trailer (dw : DirectWriter) : list byte :=
  B "</sheetData>" ++ bulkFields (worksheet dw) 8 15
    ++ bulkFields (worksheet dw) 17 38 ++ bulkFields (worksheet dw) 40 40
    ++ B "</worksheet>".

Definition Close (dw : DirectWriter) : outcome (option error) DirectWriter :=
  let dw := bufAppend dw (B "</sheetData>") in
  let dw := bufAppend dw (bulkFields (worksheet dw) 8 15) in
  let dw := bufAppend dw (bulkFields (worksheet dw) 17 38) in
  let dw := bufAppend dw (bulkFields (worksheet dw) 40 40) in
  let dw := bufAppend dw (B "</worksheet>") in
  match tryFlush dw with
  | Ret (Some err) dw => Ret (Some err) dw
  | Ret None dw =>
      let dw := set_File dw (deletePlaceholder (dwFile dw) (sheetPath dw)) in
      (* close(dw.done): closing a closed channel panics *)
      if done dw then Panicked dw else Ret None (set_done dw true)
  | Blocked dw => Blocked dw
  | Panicked dw => Panicked dw
  end.

(** *** WriteTo *)

(** A call of [WriteTo] either replays and returns at once (the stream is
    done), or registers the sink and parks on the [done] channel, or never
    gets the mutex. *)
Inductive WriteToResult : Type :=
| Replayed (n : Z) (err : option error) (w : W)
| Waiting (dw : DirectWriter)
| LockBlocked.

Definition WriteTo (dw : DirectWriter) (w : W) : WriteToResult :=
  if done dw then
    if 0 <? bytesWritten dw then
      Replayed 0
        (Some (errors_New
           "Cant't write to new writer w since part of the data already been written and flushed."))
        w
    else
      let '(w1, (n, err)) := Write w (buildHeader dw) in
      match err with
      | Some e => Replayed n (Some e) w1
      | None =>
          let '(w2, (n2, err2)) := Write w1 (buf dw) in
          Replayed (wrapInt (n + n2)) err2 w2
      end
  else if locked dw then LockBlocked
  else Waiting (set_out dw (Some w)).

(** What a parked [WriteTo] returns once [Close] has closed the channel. *)
Definition WriteTo_wake (dw : DirectWriter) : Z * option error :=
  (bytesWritten dw, None).

(** [Write] makes the stream itself an [io.Writer]. *)
Definition DirectWriter_Write (dw : DirectWriter) (p : list byte)
  : DirectWriter * (Z * option error) :=
  (bufAppend dw p, (len p, None)).

(** *** Schedules

    The producer thread calls [SetColWidth], [SetWait], [AddRow] and [Close];
    a consumer thread may call [WriteTo] at any moment.  A schedule is one
    interleaving of those calls; the mutex makes the registration of the sink
    atomic with respect to a flush. *)

Inductive Call : Type :=
| CSetColWidth (min max : Z) (width : float64)
| CSetWait (b : bool)
| CAddRow (values : list Cell) (opts : list RowOpts)
| CClose.

Inductive Event : Type :=
| EvCall (c : Call)
| EvWriteTo (w : W).

(** The state a producer call leaves when it returns, whatever it returns;
    [None] when it does not return. *)
Definition call (c : Call) (dw : DirectWriter) : option DirectWriter :=
  match c with
  | CSetColWidth min max width => Some (fst (SetColWidth dw min max width))
  | CSetWait b => Some (fst (SetWait dw b))
  | CAddRow values opts =>
      match AddRow dw values opts with
      | Ret _ dw => Some dw
      | _ => None
      end
  | CClose =>
      match Close dw with
      | Ret _ dw => Some dw
      | _ => None
      end
  end.

Fixpoint runCalls (cs : list Call) (dw : DirectWriter) : option DirectWriter :=
  match cs with
  | [] => Some dw
  | c :: cs =>
      match call c dw with
      | Some dw => runCalls cs dw
      | None => None
      end
  end.

(** [WriteTo] on a stream that is not done: the sink is registered and the
    consumer parks, the producer goes on. *)
Definition attach (w : W) (dw : DirectWriter) : option DirectWriter :=
  match WriteTo dw w with
  | Waiting dw => Some dw
  | _ => None
  end.

Definition step (e : Event) (dw : DirectWriter) : option DirectWriter :=
  match e with
  | EvCall c => call c dw
  | EvWriteTo w =>
      match WriteTo dw w with
      | Replayed _ _ _ => Some dw
      | Waiting dw => Some dw
      | LockBlocked => Some dw     (* the consumer is stuck, the producer is not *)
      end
  end.

Fixpoint runEvents (es : list Event) (dw : DirectWriter) : option DirectWriter :=
  match es with
  | [] => Some dw
  | e :: es =>
      match step e dw with
      | Some dw => runEvents es dw
      | None => None
      end
  end.

(** One entry per [AddRow] call of a schedule, in call order: the buffer when
    the call starts, [rowCount] once the call has incremented it, and the
    buffer when the call reaches its flush decision or returns early. *)
Fixpoint rowEmissions (es : list Event) (dw : DirectWriter)
  : list (list byte * Z * list byte) :=
  match es with
  | [] => []
  | e :: es =>
      let here :=
        match e with
        | EvCall (CAddRow values opts) =>
            let dw1 := fst (AddRow_encode dw values opts) in
            [(buf dw, rowCount dw1, buf dw1)]
        | _ => []
        end in
      here ++ match step e dw with
              | Some dw => rowEmissions es dw
              | None => []
              end
  end.

Fixpoint countAddRow (es : list Event) : nat :=
  match es with
  | [] => O
  | EvCall (CAddRow _ _) :: es => S (countAddRow es)
  | _ :: es => countAddRow es
  end.

(** *** What a row contributes to the buffer *)

(** The cell record [AddRow] hands to the value encoder. *)
Definition cellOf (val : Cell) : xlsxC :=
  {| c_XMLSpace := noAttr; c_S := StyleID val; c_T := EmptyString;
     c_F := if nonempty (Formula val) then Some {| Content := Formula val |} else None;
     c_V := EmptyString |}.

(** Bytes of the cells up to the first value-encoding error, the closing tag
    of the row included in that case. *)
Fixpoint cellsBytes (values : list Cell) : list byte * option error :=
  match values with
  | [] => ([], None)
  | val :: rest =>
      match setCellValFunc (cellOf val) (Value val) with
      | inr err => (B "</row>", Some err)
      | inl c =>
          let '(bs, e) := cellsBytes rest in
          (cellBytes escape c ++ bs, e)
      end
  end.

Fixpoint cellsLens (i : nat) (values : list Cell) (l : list Z) : list Z :=
  match values with
  | [] => l
  | val :: rest =>
      match setCellValFunc (cellOf val) (Value val) with
      | inr _ => l
      | inl c =>
          let n := Z.of_nat (String.length (c_V c)) in
          cellsLens (S i) rest (if nth i l 0 <? n then setNth i n l else l)
      end
  end.

Definition rowOpen (n : Z) : list byte := B "<row r=" ++ [Q] ++ B (Itoa n) ++ [Q].

(** Bytes a call of [AddRow] appends when it writes row number [n]. *)
Definition rowBytes (n : Z) (values : list Cell) (opts : list RowOpts)
  : list byte * option error :=
  match opts with
  | [] =>
      let '(bs, e) := cellsBytes values in
      (rowOpen n ++ B ">" ++ bs ++ match e with Some _ => [] | None => B "</row>" end, e)
  | _ :: _ =>
      match marshalRowAttrs opts with
      | inr err => (rowOpen n, Some err)
      | inl attrs =>
          let '(bs, e) := cellsBytes values in
          (rowOpen n ++ B attrs ++ B ">" ++ bs
             ++ match e with Some _ => [] | None => B "</row>" end, e)
      end
  end.

Definition rowLens (values : list Cell) (opts : list RowOpts) (l : list Z) : list Z :=
  match opts, marshalRowAttrs opts with
  | _ :: _, inr _ => l
  | _, _ => cellsLens 0 values (growMaxColLengths l (List.length values))
  end.

(** Bytes a producer call appends to the buffer. *)
Definition delta (c : Call) (dw : DirectWriter) : list byte :=
  match c with
  | CAddRow values opts => fst (rowBytes (wrapInt (rowCount dw + 1)) values opts)
  | CClose => trailer dw
  | _ => []
  end.

(** Bytes a sequence of producer calls appends, from row counter [n] on; the
    worksheet of [dw] gives the trailer. *)
Fixpoint bodyOf (cs : list Call) (dw : DirectWriter) (n : Z) : list byte :=
  match cs with
  | [] => []
  | CAddRow values opts :: cs =>
      fst (rowBytes (wrapInt (n + 1)) values opts) ++ bodyOf cs dw (wrapInt (n + 1))
  | CClose :: cs => trailer dw ++ bodyOf cs dw n
  | _ :: cs => bodyOf cs dw n
  end.

(** Calls that only change settings. *)
Definition isSetting (c : Call) : bool :=
  match c with
  | CSetColWidth _ _ _ | CSetWait _ => true
  | _ => false
  end.

(** Calls of the row phase: rows, and switches of the wait mode. *)
Definition isRowPhase (c : Call) : bool :=
  match c with
  | CAddRow _ _ | CSetWait _ => true
  | _ => false
  end.

(** A sink that accepts every write in full and whose content [delivered]
    grows by exactly the bytes written, as [bytes.Buffer] does. *)
Definition reliable (delivered : W -> list byte) : Prop :=
  forall (w : W) (p : list byte),
    exists w', Write w p = (w', (len p, None)) /\ delivered w' = delivered w ++ p.

(** The state of a stream whose sink is registered, against the bytes
    [body] appended so far and the content [d0] the sink started with:
    either nothing was delivered, or the header and a prefix of the body
    were, the rest of the body being the buffer. *)
Definition Attached (delivered : W -> list byte) (dw : DirectWriter)
  (d0 body : list byte) : Prop :=
  locked dw = false /\
  exists w, out dw = Some w /\
    ((bytesWritten dw = 0 /\ delivered w = d0 /\ buf dw = body)
     \/ (exists sent,
           bytesWritten dw = len (buildHeader dw ++ sent)
           /\ delivered w = d0 ++ buildHeader dw ++ sent
           /\ body = sent ++ buf dw)).

(** The state of a stream no sink was ever registered with. *)
Definition NoSink (dw : DirectWriter) (body : list byte) : Prop :=
  locked dw = false /\ out dw = None /\ bytesWritten dw = 0 /\ buf dw = body.

(** *** The encoding phase of AddRow, characterised *)

Arguments B : simpl never.
Arguments Itoa : simpl never.
Arguments wrapInt : simpl never.
Arguments len : simpl never.
Arguments cellBytes : simpl never.
Arguments growMaxColLengths : simpl never.

(** Projections of updated records, reduced lazily. *)
Ltac dw_norm :=
  cbn [bufAppend set_locked set_File set_cols set_bytesWritten set_buf
       set_out set_done set_rowCount set_maxColLengths set_waitMode
       locked dwFile Sheet SheetID cols worksheet sheetPath maxBufferSize
       bytesWritten buf out done rowCount maxColLengths waitMode fst snd] in *.

(** Updated records in full, once the record is a constructor. *)
Ltac dw_cbv :=
  cbv [bufAppend set_locked set_File set_cols set_bytesWritten set_buf
       set_out set_done set_rowCount set_maxColLengths set_waitMode
       locked dwFile Sheet SheetID cols worksheet sheetPath maxBufferSize
       bytesWritten buf out done rowCount maxColLengths waitMode fst snd].

Ltac app_norm := repeat rewrite <- app_assoc; cbn [app]; rewrite ?app_nil_r.

Lemma AddRow_cells_spec (values : list Cell) :
  forall (dw : DirectWriter) (i : nat),
    AddRow_cells dw i values =
      (set_maxColLengths (set_buf dw (buf dw ++ fst (cellsBytes values)))
         (cellsLens i values (maxColLengths dw)),
       snd (cellsBytes values)).
Proof.
  induction values as [|val rest IH]; intros dw i; cbn [AddRow_cells cellsBytes cellsLens].
  - destruct dw; dw_cbv. now rewrite app_nil_r.
  - fold (cellOf val).
    destruct (setCellValFunc (cellOf val) (Value val)) as [c|err].
    + rewrite IH. destruct (cellsBytes rest) as [bs e].
      rewrite appendCellNoRef_cellBytes.
      destruct (nth i (maxColLengths dw) 0 <? Z.of_nat (String.length (c_V c)));
        destruct dw; dw_cbv; app_norm; reflexivity.
    + destruct dw; reflexivity.
Qed.

Lemma AddRow_encode_spec (dw : DirectWriter) (values : list Cell) (opts : list RowOpts) :
  let n := wrapInt (rowCount dw + 1) in
  AddRow_encode dw values opts =
    (set_maxColLengths
       (set_rowCount (set_buf dw (buf dw ++ fst (rowBytes n values opts))) n)
       (rowLens values opts (maxColLengths dw)),
     snd (rowBytes n values opts)).
Proof.
  unfold AddRow_encode, rowBytes, rowLens, rowOpen, AppendInt.
  destruct opts as [|o opts].
  - rewrite AddRow_cells_spec. destruct (cellsBytes values) as [bs [e|]];
      destruct dw; dw_cbv; app_norm; reflexivity.
  - destruct (marshalRowAttrs (o :: opts)) as [attrs|err].
    + rewrite AddRow_cells_spec. destruct (cellsBytes values) as [bs [e|]];
        destruct dw; dw_cbv; app_norm; reflexivity.
    + destruct dw; dw_cbv; app_norm; reflexivity.
Qed.

Lemma setNth_length (i : nat) (v : Z) (l : list Z) :
  List.length (setNth i v l) = List.length l.
Proof.
  revert i. induction l as [|h t IH]; intros i; destruct i; cbn [setNth List.length];
    try reflexivity.
  now rewrite IH.
Qed.

Lemma growMaxColLengths_length (l : list Z) (n : nat) :
  (n <= List.length (growMaxColLengths l n))%nat.
Proof.
  unfold growMaxColLengths. destruct (List.length l <? n)%nat eqn:E.
  - apply Nat.ltb_lt in E. rewrite length_app, repeat_length. lia.
  - apply Nat.ltb_ge in E. exact E.
Qed.

Lemma rowBytes_open (n : Z) (values : list Cell) (opts : list RowOpts) :
  exists rest, fst (rowBytes n values opts) = rowOpen n ++ rest.
Proof.
  unfold rowBytes. destruct opts as [|o opts].
  - destruct (cellsBytes values) as [bs e]. cbn [fst]. eauto.
  - destruct (marshalRowAttrs (o :: opts)) as [attrs|err].
    + destruct (cellsBytes values) as [bs e]. cbn [fst]. eauto.
    + exists []. cbn [fst]. now rewrite app_nil_r.
Qed.

Lemma AddRow_encode_buf (dw : DirectWriter) (values : list Cell) (opts : list RowOpts) :
  buf (fst (AddRow_encode dw values opts)) =
    buf dw ++ fst (rowBytes (wrapInt (rowCount dw + 1)) values opts).
Proof. rewrite AddRow_encode_spec. reflexivity. Qed.

Lemma AddRow_encode_rowCount (dw : DirectWriter) (values : list Cell) (opts : list RowOpts) :
  rowCount (fst (AddRow_encode dw values opts)) = wrapInt (rowCount dw + 1).
Proof. rewrite AddRow_encode_spec. reflexivity. Qed.

(** *** Frame properties: what a call leaves alone *)

Definition stateOf {A : Type} (o : outcome A DirectWriter) : DirectWriter :=
  match o with
  | Ret _ dw => dw
  | Blocked dw => dw
  | Panicked dw => dw
  end.

(** The settings of a stream that neither encoding nor flushing touches. *)
Definition sameSettings (dw dw' : DirectWriter) : Prop :=
  rowCount dw' = rowCount dw /\ cols dw' = cols dw /\ worksheet dw' = worksheet dw
  /\ maxBufferSize dw' = maxBufferSize dw /\ waitMode dw' = waitMode dw
  /\ done dw' = done dw /\ maxColLengths dw' = maxColLengths dw
  /\ sheetPath dw' = sheetPath dw.

Lemma buildHeader_ext (dw dw' : DirectWriter) :
  cols dw' = cols dw -> worksheet dw' = worksheet dw -> buildHeader dw' = buildHeader dw.
Proof. unfold buildHeader. now intros -> ->. Qed.

(** [tryFlush] with the bookkeeping of the mutex folded away. *)
Lemma tryFlush_eq (dw : DirectWriter) :
  locked dw = false ->
  tryFlush dw =
    match out dw with
    | None => Ret None dw
    | Some w =>
        if bytesWritten dw =? 0 then
          let '(w1, (n, err)) := Write w (buildHeader dw) in
          match err with
          | Some e => Ret (Some e) (set_out (set_locked dw true) (Some w1))
          | None =>
              let '(w2, (n2, err2)) := Write w1 (buf dw) in
              let dw1 := set_bytesWritten (set_out dw (Some w2))
                           (wrapInt (bytesWritten dw + n)) in
              match err2 with
              | Some e => Ret (Some e) dw1
              | None =>
                  Ret None (set_buf (set_bytesWritten dw1
                                       (wrapInt (bytesWritten dw1 + n2))) [])
              end
          end
        else
          let '(w2, (n2, err2)) := Write w (buf dw) in
          match err2 with
          | Some e => Ret (Some e) (set_out dw (Some w2))
          | None =>
              Ret None (set_buf (set_bytesWritten (set_out dw (Some w2))
                                   (wrapInt (bytesWritten dw + n2))) [])
          end
    end.
Proof.
  intros Hl. unfold tryFlush. rewrite Hl.
  destruct dw as [lk fl sh sid cl ws sp mx bw bf ot dn rc mcl wm].
  cbn [locked] in Hl. subst lk. dw_cbv. unfold buildHeader. dw_cbv.
  destruct ot as [w|]; [|reflexivity].
  destruct (bw =? 0).
  - destruct (Write w _) as [w1 [n [e|]]]; [reflexivity|].
    destruct (Write w1 bf) as [w2 [n2 [e|]]]; reflexivity.
  - destruct (Write w bf) as [w2 [n2 [e|]]]; reflexivity.
Qed.

Lemma tryFlush_locked (dw : DirectWriter) : locked dw = true -> tryFlush dw = Blocked dw.
Proof. intros Hl. unfold tryFlush. now rewrite Hl. Qed.

Lemma tryFlush_frame (dw : DirectWriter) : sameSettings dw (stateOf (tryFlush dw)).
Proof.
  unfold sameSettings.
  destruct (locked dw) eqn:Hl.
  - rewrite tryFlush_locked by assumption. cbn [stateOf]. tauto.
  - rewrite tryFlush_eq by assumption.
    destruct (out dw) as [w|]; [|cbn [stateOf]; tauto].
    destruct (bytesWritten dw =? 0).
    + destruct (Write w (buildHeader dw)) as [w1 [n [e|]]];
        [cbn [stateOf]; dw_norm; tauto|].
      destruct (Write w1 (buf dw)) as [w2 [n2 [e|]]]; cbn [stateOf]; dw_norm; tauto.
    + destruct (Write w (buf dw)) as [w2 [n2 [e|]]]; cbn [stateOf]; dw_norm; tauto.
Qed.

Lemma tryFlush_rowCount (dw : DirectWriter) :
  rowCount (stateOf (tryFlush dw)) = rowCount dw.
Proof. apply tryFlush_frame. Qed.

Lemma AddRow_rowCount (dw : DirectWriter) (values : list Cell) (opts : list RowOpts) :
  rowCount (stateOf (AddRow dw values opts)) = wrapInt (rowCount dw + 1).
Proof.
  unfold AddRow.
  pose proof (AddRow_encode_rowCount dw values opts) as H.
  destruct (AddRow_encode dw values opts) as [dw1 [e|]]; cbn [fst] in H; [exact H|].
  destruct ((maxBufferSize dw1 <? len (buf dw1)) && negb (waitMode dw1)); [|exact H].
  pose proof (tryFlush_rowCount dw1) as H1.
  destruct (tryFlush dw1); cbn [stateOf] in *; congruence.
Qed.

Lemma SetColWidth_rowCount (dw : DirectWriter) (min max : Z) (width : float64) :
  rowCount (fst (SetColWidth dw min max width)) = rowCount dw.
Proof.
  unfold SetColWidth.
  destruct (0 <? bytesWritten dw); [reflexivity|].
  destruct ((TotalColumns <? min) || (TotalColumns <? max)); [reflexivity|].
  destruct ((min <? 1) || (max <? 1)); [reflexivity|].
  destruct (gtMaxColumnWidth width); [reflexivity|].
  destruct (max <? min); reflexivity.
Qed.

Lemma SetWait_rowCount (dw : DirectWriter) (b : bool) :
  rowCount (fst (SetWait dw b)) = rowCount dw.
Proof.
  unfold SetWait. destruct b; [destruct (0 <? bytesWritten dw)|]; reflexivity.
Qed.

Lemma Close_rowCount (dw : DirectWriter) : rowCount (stateOf (Close dw)) = rowCount dw.
Proof.
  unfold Close.
  match goal with |- context [tryFlush ?d] =>
    pose proof (tryFlush_rowCount d) as H; destruct (tryFlush d) as [[e|] d'|d'|d'] end;
    cbn [stateOf] in *; try exact H.
  match goal with |- context [if ?c then _ else _] => destruct c end;
    cbn [stateOf]; dw_norm; exact H.
Qed.

Lemma step_rowCount (e : Event) (dw dw' : DirectWriter) :
  step e dw = Some dw' ->
  rowCount dw' =
    match e with
    | EvCall (CAddRow _ _) => wrapInt (rowCount dw + 1)
    | _ => rowCount dw
    end.
Proof.
  destruct e as [[min max width|b|values opts|]|w]; cbn [step call].
  - intros [= <-]. apply SetColWidth_rowCount.
  - intros [= <-]. apply SetWait_rowCount.
  - pose proof (AddRow_rowCount dw values opts) as H.
    destruct (AddRow dw values opts); intros [= <-]; exact H.
  - pose proof (Close_rowCount dw) as H.
    destruct (Close dw); intros [= <-]; exact H.
  - unfold WriteTo. destruct (done dw).
    + destruct (0 <? bytesWritten dw); [now intros [= <-]|].
      destruct (Write w (buildHeader dw)) as [w1 [n [e|]]]; [now intros [= <-]|].
      destruct (Write w1 (buf dw)) as [w2 [n2 e2]]. now intros [= <-].
    + destruct (locked dw); now intros [= <-].
Qed.

(** *** Row numbering *)

Lemma rowEmissions_numbered (es : list Event) :
  forall (dw : DirectWriter) (i : nat) (b a : list byte) (n : Z),
    0 <= rowCount dw ->
    nth_error (rowEmissions es dw) i = Some (b, n, a) ->
    rowCount dw + Z.of_nat (S i) <= maxInt ->
    n = rowCount dw + Z.of_nat (S i) /\ exists rest, a = b ++ rowOpen n ++ rest.
Proof.
  induction es as [|e es IH]; intros dw i b a n H0 Hnth Hmax.
  - destruct i; discriminate.
  - assert (Hmin : minInt <= 0) by (unfold minInt, intBits; lia).
    assert (Hother :
      forall dw', step e dw = Some dw' -> rowCount dw' = rowCount dw ->
        nth_error (rowEmissions es dw') i = Some (b, n, a) ->
        n = rowCount dw + Z.of_nat (S i) /\ exists rest, a = b ++ rowOpen n ++ rest).
    { intros dw' _ Hrc Hn. rewrite <- Hrc. apply IH; rewrite ?Hrc; auto. }
    cbn [rowEmissions] in Hnth.
    destruct e as [[min max width|bw|values opts|]|w].
    + cbn [app] in Hnth. destruct (step _ dw) as [dw'|] eqn:Hs;
        [|destruct i; discriminate].
      eapply Hother; eauto. now rewrite (step_rowCount _ _ _ Hs).
    + cbn [app] in Hnth. destruct (step _ dw) as [dw'|] eqn:Hs;
        [|destruct i; discriminate].
      eapply Hother; eauto. now rewrite (step_rowCount _ _ _ Hs).
    + destruct i as [|j].
      * cbn in Hnth. injection Hnth as <- <- <-.
        rewrite AddRow_encode_rowCount, AddRow_encode_buf.
        rewrite wrapInt_small by lia. split; [lia|].
        destruct (rowBytes_open (rowCount dw + 1) values opts) as [rest ->].
        exists rest. rewrite <- ?app_assoc. reflexivity.
      * cbn [app nth_error] in Hnth.
        destruct (step _ dw) as [dw'|] eqn:Hs; [|destruct j; discriminate].
        pose proof (step_rowCount _ _ _ Hs) as Hrc. cbn in Hrc.
        rewrite wrapInt_small in Hrc by lia.
        destruct (IH dw' j b a n) as [-> Hrest]; auto; try lia.
        split; [lia|exact Hrest].
    + cbn [app] in Hnth. destruct (step _ dw) as [dw'|] eqn:Hs;
        [|destruct i; discriminate].
      eapply Hother; eauto. now rewrite (step_rowCount _ _ _ Hs).
    + cbn [app] in Hnth. destruct (step _ dw) as [dw'|] eqn:Hs;
        [|destruct i; discriminate].
      eapply Hother; eauto. now rewrite (step_rowCount _ _ _ Hs).
Qed.

Lemma rowEmissions_complete (es : list Event) :
  forall (dw dwN : DirectWriter),
    runEvents es dw = Some dwN ->
    List.length (rowEmissions es dw) = countAddRow es.
Proof.
  induction es as [|e es IH]; intros dw dwN Hrun; [reflexivity|].
  cbn [runEvents] in Hrun. cbn [rowEmissions countAddRow].
  destruct (step e dw) as [dw'|]; [|discriminate].
  rewrite length_app, (IH _ _ Hrun).
  destruct e as [[min max width|bw|values opts|]|w]; reflexivity.
Qed.

Lemma runEvents_rowCount (es : list Event) :
  forall (dw dwN : DirectWriter),
    runEvents es dw = Some dwN ->
    0 <= rowCount dw ->
    rowCount dw + Z.of_nat (countAddRow es) <= maxInt ->
    rowCount dwN = rowCount dw + Z.of_nat (countAddRow es).
Proof.
  induction es as [|e es IH]; intros dw dwN Hrun H0 Hmax.
  - injection Hrun as <-. cbn. lia.
  - cbn [runEvents] in Hrun. destruct (step e dw) as [dw'|] eqn:Hs; [|discriminate].
    pose proof (step_rowCount _ _ _ Hs) as Hrc.
    assert (Hmin : minInt <= 0) by (unfold minInt, intBits; lia).
    destruct e as [[min max width|bw|values opts|]|w]; cbn [countAddRow] in *;
      try (rewrite (IH _ _ Hrun); rewrite ?Hrc; lia).
    rewrite wrapInt_small in Hrc by lia.
    rewrite (IH _ _ Hrun); rewrite ?Hrc; lia.
Qed.

(** C1. On a fresh writer, whatever the schedule (sink attached or not, at
    any moment; wait mode toggled; flushes succeeding or failing), the i-th
    call of AddRow (counted from 1, within the range of Go's int) appends to
    the buffer a fragment that opens with the row tag carrying r = i, and i
    is the value of rowCount when that row is written.  When every call
    returns there is one fragment per call and rowCount ends at their
    number: no gap and no reuse. *)
Theorem rows_numbered_in_call_order
  (f f' : File) (sheet : string) (maxBuf : Z) (dw0 : DirectWriter) (es : list Event) :
  NewDirectWriter f sheet maxBuf = inl (f', dw0) ->
  (forall (i : nat) (b a : list byte) (n : Z),
      nth_error (rowEmissions es dw0) i = Some (b, n, a) ->
      Z.of_nat (S i) <= maxInt ->
      n = Z.of_nat (S i) /\
      exists rest, a = b ++ B "<row r=" ++ [Q] ++ B (Itoa (Z.of_nat (S i))) ++ [Q] ++ rest)
  /\ (forall dwN : DirectWriter,
         runEvents es dw0 = Some dwN ->
         Z.of_nat (countAddRow es) <= maxInt ->
         List.length (rowEmissions es dw0) = countAddRow es /\
         rowCount dwN = Z.of_nat (countAddRow es)).
Proof.
  intros Hnew.
  assert (Hrc : rowCount dw0 = 0).
  { unfold NewDirectWriter in Hnew.
    destruct (getSheetID _ _ =? -1); [discriminate|].
    destruct (workSheetReader _ _); [|discriminate].
    now injection Hnew as _ <-. }
  split.
  - intros i b a n Hnth Hmax.
    destruct (rowEmissions_numbered es dw0 i b a n) as [Hn [rest Hrest]];
      rewrite ?Hrc; auto; try lia.
    rewrite Hrc in Hn. cbn [Z.add] in Hn. subst n. split; [reflexivity|].
    exists rest. rewrite Hrest. unfold rowOpen. now app_norm.
  - intros dwN Hrun Hmax. split.
    + eapply rowEmissions_complete; eauto.
    + rewrite (runEvents_rowCount es dw0 dwN Hrun); rewrite ?Hrc; lia.
Qed.

(** *** Errors while a row is encoded *)

Lemma cellsBytes_fail (pre post : list Cell) (bad : Cell) (cs : list xlsxC) (err : error) :
  Forall2 (fun val c => setCellValFunc (cellOf val) (Value val) = inl c) pre cs ->
  setCellValFunc (cellOf bad) (Value bad) = inr err ->
  cellsBytes (pre ++ bad :: post) =
    (List.concat (map (cellBytes escape) cs) ++ B "</row>", Some err).
Proof.
  intros Hpre Hbad. induction Hpre as [|val c pre cs Hval _ IH]; cbn [app cellsBytes].
  - now rewrite Hbad.
  - rewrite Hval, IH. cbn [map List.concat]. now rewrite <- app_assoc.
Qed.

(** The bytes of the row attributes: nothing without options. *)
Definition attrsBytes (opts : list RowOpts) : list byte :=
  match opts with
  | [] => []
  | _ :: _ =>
      match marshalRowAttrs opts with
      | inl attrs => B attrs
      | inr _ => []
      end
  end.

Definition attrsOk (opts : list RowOpts) : Prop :=
  opts = [] \/ exists attrs, marshalRowAttrs opts = inl attrs.

(** C8. When the value encoder fails on a cell, AddRow still appends the
    closing tag of the row before it returns the error: the buffer then holds
    what it held, the opening tag with the row number and attributes, the
    cells before the failing one, and the closing tag; the failing cell
    contributes no byte, no flush is attempted, and the count returned is the
    length of that buffer. *)
Theorem AddRow_value_error_closes_row
  (dw : DirectWriter) (pre post : list Cell) (bad : Cell) (cs : list xlsxC)
  (opts : list RowOpts) (err : error) :
  attrsOk opts ->
  Forall2 (fun val c => setCellValFunc (cellOf val) (Value val) = inl c) pre cs ->
  setCellValFunc (cellOf bad) (Value bad) = inr err ->
  exists dw',
    AddRow dw (pre ++ bad :: post) opts = Ret (len (buf dw'), Some err) dw'
    /\ buf dw' =
         buf dw ++ rowOpen (wrapInt (rowCount dw + 1)) ++ attrsBytes opts ++ B ">"
           ++ List.concat (map (cellBytes escape) cs) ++ B "</row>"
    /\ out dw' = out dw /\ bytesWritten dw' = bytesWritten dw
    /\ locked dw' = locked dw.
Proof.
  intros Hopts Hpre Hbad. unfold AddRow.
  rewrite AddRow_encode_spec. cbv zeta.
  assert (Hrow : rowBytes (wrapInt (rowCount dw + 1)) (pre ++ bad :: post) opts =
                 (rowOpen (wrapInt (rowCount dw + 1)) ++ attrsBytes opts ++ B ">"
                    ++ List.concat (map (cellBytes escape) cs) ++ B "</row>", Some err)).
  { unfold rowBytes, attrsBytes.
    rewrite (cellsBytes_fail pre post bad cs err Hpre Hbad).
    destruct Hopts as [-> | [attrs Hattrs]].
    - cbn [app]. now rewrite app_nil_r.
    - destruct opts as [|o opts].
      + cbn [app]. now rewrite app_nil_r.
      + rewrite Hattrs. now rewrite app_nil_r. }
  rewrite Hrow. cbn [fst snd].
  eexists. split; [reflexivity|]. dw_norm. auto.
Qed.

(** C10. When the row options are rejected, AddRow returns the error right
    after the opening fragment of the row: rowCount is already incremented,
    the buffer has grown by exactly the unclosed fragment (its last byte is
    the quote that ends the row number), nothing else of the writer changes
    and no flush is attempted. *)
Theorem AddRow_attrs_error_leaves_open_tag
  (dw : DirectWriter) (values : list Cell) (opts : list RowOpts) (err : error) :
  opts <> [] ->
  marshalRowAttrs opts = inr err ->
  let n := wrapInt (rowCount dw + 1) in
  let dw' := set_rowCount (set_buf dw (buf dw ++ B "<row r=" ++ [Q] ++ B (Itoa n) ++ [Q])) n in
  AddRow dw values opts = Ret (len (buf dw'), Some err) dw'
  /\ rowCount dw' = n
  /\ last (buf dw') Q = Q
  /\ (forall l, buf dw' <> l ++ B ">")
  /\ (forall l, buf dw' <> l ++ B "</row>").
Proof.
  intros Hne Herr n dw'. unfold AddRow.
  rewrite AddRow_encode_spec. cbv zeta. fold n.
  assert (Hrow : rowBytes n values opts = (rowOpen n, Some err)).
  { unfold rowBytes. destruct opts as [|o opts]; [contradiction|]. now rewrite Herr. }
  assert (Hlens : rowLens values opts (maxColLengths dw) = maxColLengths dw).
  { unfold rowLens. destruct opts as [|o opts]; [contradiction|]. now rewrite Herr. }
  rewrite Hrow, Hlens. cbn [fst snd].
  assert (Hdw : set_maxColLengths (set_rowCount (set_buf dw (buf dw ++ rowOpen n)) n)
                  (maxColLengths dw) = dw').
  { subst dw'. unfold rowOpen. destruct dw; reflexivity. }
  rewrite Hdw.
  assert (Hbuf : buf dw' = (buf dw ++ B "<row r=" ++ [Q] ++ B (Itoa n)) ++ [Q]).
  { subst dw'. dw_norm. now app_norm. }
  assert (Hlast : forall l, buf dw' = l -> last l Q = Q).
  { intros l <-. rewrite Hbuf. apply last_last. }
  repeat split.
  - now apply Hlast.
  - intros l Hl. specialize (Hlast _ Hl). change (B ">") with [x3e] in Hlast.
    rewrite last_last in Hlast. discriminate.
  - intros l Hl. specialize (Hlast _ Hl).
    change (B "</row>") with ([x3c; x2f; x72; x6f; x77] ++ [x3e]) in Hlast.
    rewrite app_assoc, last_last in Hlast. discriminate.
Qed.

(** *** Flushing *)


(** The sink accepts every write of the flush. *)
Definition sinkAccepts (dw : DirectWriter) (w w' : W) : Prop :=
  (bytesWritten dw = 0 /\ exists w1 n1 n,
     Write w (buildHeader dw) = (w1, (n1, None)) /\
     Write w1 (buf dw) = (w', (n, None)))
  \/ (bytesWritten dw <> 0 /\ exists n, Write w (buf dw) = (w', (n, None))).

(** The five appends that open [Close]. *)
Lemma Close_unfold (dw : DirectWriter) :
  Close dw =
    match tryFlush (bufAppend dw (trailer dw)) with
    | Ret (Some err) dw => Ret (Some err) dw
    | Ret None dw =>
        let dw := set_File dw (deletePlaceholder (dwFile dw) (sheetPath dw)) in
        if done dw then Panicked dw else Ret None (set_done dw true)
    | Blocked dw => Blocked dw
    | Panicked dw => Panicked dw
    end.
Proof.
  unfold Close, trailer.
  replace (bufAppend (bufAppend (bufAppend (bufAppend (bufAppend dw _) _) _) _) _)
    with (bufAppend dw (B "</sheetData>" ++ bulkFields (worksheet dw) 8 15
            ++ bulkFields (worksheet dw) 17 38 ++ bulkFields (worksheet dw) 40 40
            ++ B "</worksheet>")); [reflexivity|].
  destruct dw; dw_cbv; app_norm; reflexivity.
Qed.





Lemma tryFlush_accepts (dw : DirectWriter) (w w' : W) :
  locked dw = false -> out dw = Some w -> sinkAccepts dw w w' ->
  exists dw',
    tryFlush dw = Ret None dw' /\ buf dw' = [] /\ out dw' = Some w'
    /\ locked dw' = false.
Proof.
  intros Hl Ho Hf. rewrite tryFlush_eq by assumption. rewrite Ho.
  destruct Hf as [[Hb (w1 & n1 & n & Hw1 & Hw)] | [Hb [n Hw]]].
  - rewrite Hb. cbn [Z.eqb]. rewrite Hw1, Hw.
    eexists. split; [reflexivity|]. dw_norm. auto.
  - apply Z.eqb_neq in Hb. rewrite Hb, Hw.
    eexists. split; [reflexivity|]. dw_norm. auto.
Qed.


(** C9. When the header write of a first flush is refused, tryFlush returns
    the error with the mutex still held, bytesWritten still 0 and the buffer
    as it was, so the next flush never gets the mutex; when instead the
    buffer write is refused, the mutex is released before the error is
    returned. *)
Theorem tryFlush_header_error_keeps_mutex
  (dw : DirectWriter) (w w1 : W) (n : Z) (e : error) :
  locked dw = false -> out dw = Some w -> bytesWritten dw = 0 ->
  Write w (buildHeader dw) = (w1, (n, Some e)) ->
  (exists dw',
      tryFlush dw = Ret (Some e) dw'
      /\ locked dw' = true /\ bytesWritten dw' = 0 /\ buf dw' = buf dw
      /\ tryFlush dw' = Blocked dw')
  /\ (forall (d : DirectWriter) (v v' : W) (e' : error),
         locked d = false -> out d = Some v ->
         (bytesWritten d <> 0 /\ exists m, Write v (buf d) = (v', (m, Some e'))) ->
         exists d', tryFlush d = Ret (Some e') d' /\ locked d' = false /\ buf d' = buf d).
Proof.
  intros Hl Ho Hb Hw. split.
  - rewrite tryFlush_eq by assumption. rewrite Ho, Hb. cbn [Z.eqb]. rewrite Hw.
    eexists. split; [reflexivity|]. dw_norm. repeat split; auto.
  - intros d v v' e' Hdl Hdo [Hdb [m Hdw]].
    rewrite tryFlush_eq by assumption. rewrite Hdo.
    apply Z.eqb_neq in Hdb. rewrite Hdb, Hdw.
    eexists. split; [reflexivity|]. dw_norm. auto.
Qed.

(** *** Wait mode *)

Lemma AddRow_waiting (dw : DirectWriter) (values : list Cell) (opts : list RowOpts) :
  waitMode dw = true ->
  let dw' := fst (AddRow_encode dw values opts) in
  AddRow dw values opts = Ret (len (buf dw'), snd (AddRow_encode dw values opts)) dw'.
Proof.
  intros Hw dw'. unfold AddRow. subst dw'.
  pose proof (AddRow_encode_spec dw values opts) as Hs. cbv zeta in Hs.
  destruct (AddRow_encode dw values opts) as [dw1 [e|]]; cbn [fst snd]; [reflexivity|].
  injection Hs as Hs _.
  assert (Hw1 : waitMode dw1 = true) by (rewrite Hs; dw_norm; exact Hw).
  rewrite Hw1. cbn [negb]. now rewrite andb_false_r.
Qed.

(** C7. Enabling wait mode fails exactly when bytes have reached the sink,
    disabling it always succeeds.  While wait mode is on, AddRow returns the
    length of the grown buffer, however far above maxBufferSize, and leaves
    the sink and bytesWritten untouched.  Once wait mode is off, an AddRow
    whose row encodes, whose buffer exceeds maxBufferSize and whose sink
    accepts the writes returns 0 with an empty buffer. *)
Theorem wait_mode_gates_flush :
  (forall dw : DirectWriter,
      ((exists e, snd (SetWait dw true) = Some e) <-> 0 < bytesWritten dw)
      /\ (snd (SetWait dw true) = None -> waitMode (fst (SetWait dw true)) = true))
  /\ (forall dw : DirectWriter,
         snd (SetWait dw false) = None /\ waitMode (fst (SetWait dw false)) = false)
  /\ (forall (dw : DirectWriter) (values : list Cell) (opts : list RowOpts),
         waitMode dw = true ->
         exists n e dw',
           AddRow dw values opts = Ret (n, e) dw'
           /\ n = len (buf dw')
           /\ buf dw' = buf dw ++ fst (rowBytes (wrapInt (rowCount dw + 1)) values opts)
           /\ out dw' = out dw /\ bytesWritten dw' = bytesWritten dw)
  /\ (forall (dw : DirectWriter) (values : list Cell) (opts : list RowOpts) (w w' : W),
         let dw1 := fst (SetWait dw false) in
         let dw2 := fst (AddRow_encode dw1 values opts) in
         locked dw = false -> out dw = Some w ->
         snd (AddRow_encode dw1 values opts) = None ->
         maxBufferSize dw < len (buf dw2) ->
         sinkAccepts dw2 w w' ->
         exists dw',
           AddRow dw1 values opts = Ret (0, None) dw'
           /\ buf dw' = [] /\ out dw' = Some w').
Proof.
  split; [|split; [|split]].
  - intros dw. unfold SetWait.
    destruct (0 <? bytesWritten dw) eqn:Hb; cbn [fst snd].
    + apply Z.ltb_lt in Hb. split; [split; eauto|discriminate].
    + apply Z.ltb_ge in Hb. split; [split|reflexivity].
      * intros [e He]. discriminate.
      * lia.
  - intros dw. split; reflexivity.
  - intros dw values opts Hw.
    rewrite (AddRow_waiting dw values opts Hw).
    do 3 eexists. split; [reflexivity|].
    rewrite AddRow_encode_spec. dw_norm. auto.
  - intros dw values opts w w' dw1 dw2 Hl Ho Henc Hmax Hacc.
    assert (H1 : dw1 = set_waitMode dw false) by reflexivity.
    pose proof (AddRow_encode_spec dw1 values opts) as Hs. cbv zeta in Hs.
    assert (Hl2 : locked dw2 = false).
    { subst dw2. rewrite Hs, H1. dw_norm. exact Hl. }
    assert (Ho2 : out dw2 = Some w).
    { subst dw2. rewrite Hs, H1. dw_norm. exact Ho. }
    assert (Hm2 : maxBufferSize dw2 = maxBufferSize dw).
    { subst dw2. rewrite Hs, H1. dw_norm. reflexivity. }
    assert (Hw2 : waitMode dw2 = false).
    { subst dw2. rewrite Hs, H1. dw_norm. reflexivity. }
    destruct (tryFlush_accepts dw2 w w' Hl2 Ho2 Hacc) as (dw' & Hflush & Hbuf & Hout & _).
    exists dw'. unfold AddRow.
    destruct (AddRow_encode dw1 values opts) as [d [e|]] eqn:Hd; [discriminate|].
    cbn [fst] in dw2. subst dw2.
    rewrite Hm2, Hw2. apply Z.ltb_lt in Hmax. rewrite Hmax. cbn [andb negb].
    rewrite Hflush, Hbuf. auto.
Qed.

(** *** Streams with a reliable sink *)

Section ReliableSink.

Variable delivered : W -> list byte.
Hypothesis Hrel : reliable delivered.

Lemma buildHeader_pos (dw : DirectWriter) : 0 < len (buildHeader dw).
Proof.
  unfold buildHeader.
  destruct (0 <? Z.of_nat (String.length (cols dw)));
    rewrite len_app; change (len (B "<sheetData>")) with 11;
    match goal with |- 0 < len ?l + _ => pose proof (len_nonneg l) end; lia.
Qed.

Lemma minInt_neg : minInt <= 0.
Proof. unfold minInt, intBits. lia. Qed.

Lemma tryFlush_NoSink (dw : DirectWriter) (body : list byte) :
  NoSink dw body -> tryFlush dw = Ret None dw.
Proof.
  intros (Hl & Ho & _). rewrite tryFlush_eq by assumption. now rewrite Ho.
Qed.

Lemma Attached_ext (dw dw1 : DirectWriter) (d0 body x : list byte) :
  locked dw1 = locked dw -> out dw1 = out dw -> bytesWritten dw1 = bytesWritten dw ->
  cols dw1 = cols dw -> worksheet dw1 = worksheet dw -> buf dw1 = buf dw ++ x ->
  Attached delivered dw d0 body -> Attached delivered dw1 d0 (body ++ x).
Proof.
  intros Hl Ho Hb Hc Hws Hbuf (Hlk & w & Hw & Hcase).
  split; [congruence|]. exists w. split; [congruence|].
  rewrite Hb, Hbuf, (buildHeader_ext dw dw1 Hc Hws).
  destruct Hcase as [(H0 & Hd & Hbody) | (sent & Hn & Hd & Hbody)].
  - left. subst body. repeat split; assumption.
  - right. exists sent. subst body. repeat split; try assumption.
    now rewrite app_assoc.
Qed.

Lemma Attached_same (dw dw1 : DirectWriter) (d0 body : list byte) :
  locked dw1 = locked dw -> out dw1 = out dw -> bytesWritten dw1 = bytesWritten dw ->
  cols dw1 = cols dw -> worksheet dw1 = worksheet dw -> buf dw1 = buf dw ->
  Attached delivered dw d0 body -> Attached delivered dw1 d0 body.
Proof.
  intros Hl Ho Hb Hc Hws Hbuf H.
  rewrite <- (app_nil_r body). eapply Attached_ext; eauto. now rewrite app_nil_r.
Qed.

(** A flush on a registered reliable sink delivers the header, if it is the
    first, and the whole buffer. *)
Lemma tryFlush_Attached (dw : DirectWriter) (d0 body : list byte) :
  Attached delivered dw d0 body ->
  len (buildHeader dw ++ body) <= maxInt ->
  exists dw' w',
    tryFlush dw = Ret None dw'
    /\ Attached delivered dw' d0 body
    /\ buf dw' = [] /\ out dw' = Some w'
    /\ delivered w' = d0 ++ buildHeader dw ++ body
    /\ bytesWritten dw' = len (buildHeader dw ++ body)
    /\ sameSettings dw dw'.
Proof.
  intros (Hl & w & Hw & Hcase) Hmax.
  pose proof (buildHeader_pos dw) as Hpos. pose proof minInt_neg as Hmin.
  pose proof (len_nonneg body) as Hbody0.
  rewrite len_app in Hmax.
  rewrite tryFlush_eq by assumption. rewrite Hw.
  assert (Hh : forall d, cols d = cols dw -> worksheet d = worksheet dw ->
                         buildHeader d = buildHeader dw)
    by (intros; now apply buildHeader_ext).
  destruct Hcase as [(H0 & Hd & Hbody) | (sent & Hn & Hd & Hbody)].
  - rewrite H0. cbn [Z.eqb].
    destruct (Hrel w (buildHeader dw)) as (w1 & Hw1 & Hd1). rewrite Hw1.
    destruct (Hrel w1 (buf dw)) as (w2 & Hw2 & Hd2). rewrite Hw2.
    rewrite Hbody in *. cbv zeta. dw_norm.
    rewrite (wrapInt_small (0 + _)) by lia. rewrite wrapInt_small by lia.
    assert (Hdel : delivered w2 = d0 ++ buildHeader dw ++ body).
    { rewrite Hd2, Hd1, Hd. now rewrite <- app_assoc. }
    assert (Hcnt : 0 + len (buildHeader dw) + len body = len (buildHeader dw ++ body)).
    { rewrite len_app. lia. }
    do 2 eexists. split; [reflexivity|]. dw_norm.
    split; [|split; [reflexivity|split; [reflexivity|split; [exact Hdel|split;
      [exact Hcnt|unfold sameSettings; dw_norm; tauto]]]]].
    split; [exact Hl|]. exists w2. dw_norm. split; [reflexivity|].
    right. exists body.
    match goal with |- context [buildHeader (set_buf ?a ?b)] =>
      rewrite (Hh (set_buf a b) eq_refl eq_refl) end.
    rewrite app_nil_r. auto.
  - assert (Hne : (bytesWritten dw =? 0) = false).
    { apply Z.eqb_neq. rewrite Hn, len_app. pose proof (len_nonneg sent). lia. }
    rewrite Hne.
    destruct (Hrel w (buf dw)) as (w2 & Hw2 & Hd2). rewrite Hw2.
    assert (Hlen : len body = len sent + len (buf dw)) by (rewrite Hbody; apply len_app).
    pose proof (len_nonneg sent). pose proof (len_nonneg (buf dw)).
    assert (Hdel : delivered w2 = d0 ++ buildHeader dw ++ body).
    { rewrite Hd2, Hd, Hbody. now repeat rewrite <- app_assoc. }
    assert (Hcnt : bytesWritten dw + len (buf dw) = len (buildHeader dw ++ body)).
    { rewrite Hn, !len_app. lia. }
    rewrite len_app in Hn.
    rewrite wrapInt_small by lia.
    do 2 eexists. split; [reflexivity|]. dw_norm.
    split; [|split; [reflexivity|split; [reflexivity|split; [exact Hdel|split;
      [exact Hcnt|unfold sameSettings; dw_norm; tauto]]]]].
    split; [exact Hl|]. exists w2. dw_norm. split; [reflexivity|].
    right. exists body.
    match goal with |- context [buildHeader (set_buf ?a ?b)] =>
      rewrite (Hh (set_buf a b) eq_refl eq_refl) end.
    rewrite app_nil_r. auto.
Qed.

(** The row counter a call leaves. *)
Definition nextCount (c : Call) (dw : DirectWriter) : Z :=
  match c with
  | CAddRow _ _ => wrapInt (rowCount dw + 1)
  | _ => rowCount dw
  end.

Definition isSetColWidth (c : Call) : bool :=
  match c with
  | CSetColWidth _ _ _ => true
  | _ => false
  end.

Definition isClose (c : Call) : bool :=
  match c with
  | CClose => true
  | _ => false
  end.

(** What every returning call guarantees, whatever the state of the sink. *)
Definition stepFacts (c : Call) (dw dw' : DirectWriter) : Prop :=
  rowCount dw' = nextCount c dw
  /\ worksheet dw' = worksheet dw
  /\ (exists s, cols dw' = (cols dw ++ s)%string)
  /\ (isSetColWidth c = false -> cols dw' = cols dw)
  /\ done dw' = (isClose c || done dw)%bool
  /\ (isClose c = true -> done dw = false).

Lemma string_app_nil_r (s : string) : (s ++ EmptyString)%string = s.
Proof. induction s as [|a s IH]; cbn; [reflexivity|now rewrite IH]. Qed.

Lemma SetColWidth_cases (dw : DirectWriter) (min max : Z) (width : float64) :
  SetColWidth dw min max width = (dw, snd (SetColWidth dw min max width))
  \/ (bytesWritten dw <= 0 /\
      exists s, SetColWidth dw min max width = (set_cols dw (cols dw ++ s)%string, None)).
Proof.
  unfold SetColWidth.
  destruct (0 <? bytesWritten dw) eqn:Hb; [left; reflexivity|].
  apply Z.ltb_ge in Hb.
  destruct ((TotalColumns <? min) || (TotalColumns <? max)); [left; reflexivity|].
  destruct ((min <? 1) || (max <? 1)); [left; reflexivity|].
  destruct (gtMaxColumnWidth width); [left; reflexivity|].
  right. split; [exact Hb|]. destruct (max <? min); eauto.
Qed.

Lemma SetWait_cases (dw : DirectWriter) (b : bool) :
  exists b', fst (SetWait dw b) = set_waitMode dw b'.
Proof.
  unfold SetWait. destruct b; [destruct (0 <? bytesWritten dw)|]; cbn [fst]; eauto.
  exists (waitMode dw). destruct dw; reflexivity.
Qed.

Lemma AddRow_Attached (dw : DirectWriter) (d0 body : list byte)
  (values : list Cell) (opts : list RowOpts) :
  Attached delivered dw d0 body ->
  len (buildHeader dw ++ body ++ delta (CAddRow values opts) dw) <= maxInt ->
  exists r dw',
    AddRow dw values opts = Ret r dw'
    /\ Attached delivered dw' d0 (body ++ delta (CAddRow values opts) dw)
    /\ stepFacts (CAddRow values opts) dw dw'.
Proof.
  intros Hatt Hmax. cbn [delta] in *.
  set (row := fst (rowBytes (wrapInt (rowCount dw + 1)) values opts)) in *.
  unfold AddRow. rewrite AddRow_encode_spec. cbv zeta. fold row.
  set (dw1 := set_maxColLengths _ _).
  assert (Hatt1 : Attached delivered dw1 d0 (body ++ row))
    by (apply (Attached_ext dw dw1); auto; reflexivity).
  assert (Hfacts : forall d, sameSettings dw1 d ->
                     stepFacts (CAddRow values opts) dw d).
  { intros d (Hrc & Hc & Hws & _ & _ & Hdn & _). unfold stepFacts. cbn [nextCount isSetColWidth isClose orb].
    rewrite Hrc, Hc, Hws, Hdn. subst dw1. dw_norm.
    repeat split; auto; try discriminate.
    exists EmptyString. now rewrite string_app_nil_r. }
  assert (Hself : sameSettings dw1 dw1) by (unfold sameSettings; tauto).
  destruct (snd (rowBytes _ values opts)) as [e|].
  - do 2 eexists. split; [reflexivity|]. auto.
  - destruct ((maxBufferSize dw1 <? len (buf dw1)) && negb (waitMode dw1)).
    + destruct (tryFlush_Attached dw1 d0 (body ++ row) Hatt1)
        as (dw' & w' & Hflush & Hatt' & _ & _ & _ & _ & Hsame).
      { rewrite (buildHeader_ext dw dw1) by reflexivity. exact Hmax. }
      rewrite Hflush. do 2 eexists. split; [reflexivity|]. auto.
    + do 2 eexists. split; [reflexivity|]. auto.
Qed.

Lemma Close_Attached (dw : DirectWriter) (d0 body : list byte) :
  Attached delivered dw d0 body ->
  len (buildHeader dw ++ body ++ trailer dw) <= maxInt ->
  if done dw then Close dw = Panicked (stateOf (Close dw))
  else
    exists dw' w',
      Close dw = Ret None dw'
      /\ Attached delivered dw' d0 (body ++ trailer dw)
      /\ stepFacts CClose dw dw'
      /\ buf dw' = [] /\ out dw' = Some w'
      /\ delivered w' = d0 ++ buildHeader dw ++ body ++ trailer dw.
Proof.
  intros Hatt Hmax. rewrite Close_unfold.
  set (dw1 := bufAppend dw (trailer dw)).
  assert (Hatt1 : Attached delivered dw1 d0 (body ++ trailer dw))
    by (apply (Attached_ext dw dw1); auto; reflexivity).
  destruct (tryFlush_Attached dw1 d0 (body ++ trailer dw) Hatt1)
    as (dw' & w' & Hflush & Hatt' & Hbuf & Hout & Hdel & _ & Hsame).
  { rewrite (buildHeader_ext dw dw1) by reflexivity. exact Hmax. }
  rewrite Hflush. cbv zeta.
  destruct Hsame as (Hrc & Hc & Hws & _ & _ & Hdn & _).
  replace (done (set_File dw' _)) with (done dw)
    by (cbn [done set_File]; rewrite Hdn; reflexivity).
  destruct (done dw) eqn:Hd; [reflexivity|].
  do 2 eexists. split; [reflexivity|].
  split; [|split; [|split; [|split]]].
  - eapply Attached_same; [..|exact Hatt']; reflexivity.
  - unfold stepFacts. cbn [nextCount isSetColWidth isClose orb]. dw_norm.
    rewrite Hrc, Hc, Hws. repeat split; auto.
    exists EmptyString. now rewrite string_app_nil_r.
  - dw_norm. exact Hbuf.
  - dw_norm. exact Hout.
  - rewrite Hdel. rewrite (buildHeader_ext dw dw1) by reflexivity. reflexivity.
Qed.

Lemma call_Attached (c : Call) (dw : DirectWriter) (d0 body : list byte) :
  Attached delivered dw d0 body ->
  (isSetting c = false -> len (buildHeader dw ++ body ++ delta c dw) <= maxInt) ->
  match call c dw with
  | Some dw' => Attached delivered dw' d0 (body ++ delta c dw) /\ stepFacts c dw dw'
  | None => c = CClose /\ done dw = true
  end.
Proof.
  intros Hatt Hmax. destruct c as [min max width|b|values opts|]; cbn [call].
  - cbn [delta]. rewrite app_nil_r.
    destruct (SetColWidth_cases dw min max width) as [H | [Hb [s H]]]; rewrite H; cbn [fst].
    + split; [exact Hatt|]. unfold stepFacts. cbn. repeat split; auto; try discriminate.
      exists EmptyString. now rewrite string_app_nil_r.
    + split.
      * destruct Hatt as (Hl & w & Hw & Hcase). split; [exact Hl|].
        exists w. split; [exact Hw|]. left.
        destruct Hcase as [Hc | (sent & Hn & _)]; [exact Hc|].
        exfalso. pose proof (buildHeader_pos dw). pose proof (len_nonneg sent).
        rewrite len_app in Hn. dw_norm. lia.
      * unfold stepFacts. cbn. repeat split; eauto; discriminate.
  - cbn [delta]. rewrite app_nil_r.
    destruct (SetWait_cases dw b) as [b' ->].
    split; [eapply Attached_same; [..|exact Hatt]; reflexivity|].
    unfold stepFacts. cbn. repeat split; auto; try discriminate.
    exists EmptyString. now rewrite string_app_nil_r.
  - destruct (AddRow_Attached dw d0 body values opts Hatt (Hmax eq_refl))
      as (r & dw' & -> & H1 & H2). auto.
  - pose proof (Close_Attached dw d0 body Hatt (Hmax eq_refl)) as H.
    destruct (done dw).
    + rewrite H. auto.
    + destruct H as (dw' & w' & -> & H1 & H2 & _). auto.
Qed.

Lemma NoSink_ext (dw dw1 : DirectWriter) (body x : list byte) :
  locked dw1 = locked dw -> out dw1 = out dw -> bytesWritten dw1 = bytesWritten dw ->
  buf dw1 = buf dw ++ x -> NoSink dw body -> NoSink dw1 (body ++ x).
Proof.
  intros Hl Ho Hb Hbuf (H1 & H2 & H3 & H4).
  unfold NoSink. rewrite Hl, Ho, Hb, Hbuf, H4. auto.
Qed.

Lemma call_NoSink (c : Call) (dw : DirectWriter) (body : list byte) :
  NoSink dw body ->
  match call c dw with
  | Some dw' => NoSink dw' (body ++ delta c dw) /\ stepFacts c dw dw'
  | None => c = CClose /\ done dw = true
  end.
Proof.
  intros Hns. destruct c as [min max width|b|values opts|]; cbn [call].
  - cbn [delta]. rewrite app_nil_r.
    destruct (SetColWidth_cases dw min max width) as [H | [Hb [s H]]]; rewrite H; cbn [fst].
    + split; [exact Hns|]. unfold stepFacts. cbn. repeat split; auto; try discriminate.
      exists EmptyString. now rewrite string_app_nil_r.
    + split; [exact Hns|]. unfold stepFacts. cbn. repeat split; eauto; discriminate.
  - cbn [delta]. rewrite app_nil_r.
    destruct (SetWait_cases dw b) as [b' ->].
    split; [exact Hns|].
    unfold stepFacts. cbn. repeat split; auto; try discriminate.
    exists EmptyString. now rewrite string_app_nil_r.
  - cbn [delta]. unfold AddRow. rewrite AddRow_encode_spec. cbv zeta.
    set (row := fst (rowBytes _ values opts)). set (dw1 := set_maxColLengths _ _).
    assert (Hns1 : NoSink dw1 (body ++ row))
      by (apply (NoSink_ext dw dw1); auto; reflexivity).
    assert (Hf : stepFacts (CAddRow values opts) dw dw1).
    { unfold stepFacts. subst dw1. cbn. repeat split; auto; try discriminate.
      exists EmptyString. now rewrite string_app_nil_r. }
    destruct (snd (rowBytes _ values opts)) as [e|]; [auto|].
    destruct ((maxBufferSize dw1 <? len (buf dw1)) && negb (waitMode dw1)); [|auto].
    rewrite (tryFlush_NoSink dw1 _ Hns1). auto.
  - cbn [delta]. rewrite Close_unfold.
    set (dw1 := bufAppend dw (trailer dw)).
    assert (Hns1 : NoSink dw1 (body ++ trailer dw))
      by (apply (NoSink_ext dw dw1); auto; reflexivity).
    rewrite (tryFlush_NoSink dw1 _ Hns1). cbv zeta.
    replace (done (set_File dw1 _)) with (done dw) by reflexivity.
    destruct (done dw) eqn:Hd; [auto|].
    split; [exact Hns1|].
    unfold stepFacts. cbn. repeat split; auto.
    exists EmptyString. now rewrite string_app_nil_r.
Qed.

(** Facts of a returning call that need no invariant. *)
Lemma call_frame (c : Call) (dw dw' : DirectWriter) :
  call c dw = Some dw' ->
  worksheet dw' = worksheet dw /\ exists s, cols dw' = (cols dw ++ s)%string.
Proof.
  assert (Hnil : exists s, cols dw = (cols dw ++ s)%string)
    by (exists EmptyString; now rewrite string_app_nil_r).
  destruct c as [min max width|b|values opts|]; cbn [call].
  - intros [= <-].
    destruct (SetColWidth_cases dw min max width) as [H | [Hb [s H]]]; rewrite H; cbn; eauto.
  - intros [= <-]. destruct (SetWait_cases dw b) as [b' ->]. cbn. auto.
  - unfold AddRow. rewrite AddRow_encode_spec. cbv zeta.
    set (dw1 := set_maxColLengths _ _).
    destruct (snd (rowBytes _ values opts)) as [e|]; [intros [= <-]; cbn; auto|].
    destruct ((maxBufferSize dw1 <? len (buf dw1)) && negb (waitMode dw1));
      [|intros [= <-]; cbn; auto].
    pose proof (tryFlush_frame dw1) as (_ & Hc & Hws & _).
    destruct (tryFlush dw1) as [r d|d|d]; [|discriminate..].
    intros [= <-]. cbn [stateOf] in *. rewrite Hc, Hws. cbn. auto.
  - rewrite Close_unfold. set (dw1 := bufAppend dw (trailer dw)).
    pose proof (tryFlush_frame dw1) as (_ & Hc & Hws & _).
    destruct (tryFlush dw1) as [[e|] d|d|d]; [| |discriminate..]; cbn [stateOf] in *.
    + intros [= <-]. rewrite Hc, Hws. cbn. auto.
    + cbv zeta. destruct (done (set_File d _)); [discriminate|].
      intros [= <-]. cbn. rewrite Hc, Hws. cbn. auto.
Qed.

Lemma buildHeader_mono (dw dw' : DirectWriter) :
  worksheet dw' = worksheet dw -> (exists s, cols dw' = (cols dw ++ s)%string) ->
  len (buildHeader dw) <= len (buildHeader dw').
Proof.
  intros Hws [s Hc]. unfold buildHeader. rewrite Hws, Hc.
  rewrite String_length_app.
  destruct (0 <? Z.of_nat (String.length (cols dw))) eqn:H1.
  - apply Z.ltb_lt in H1.
    replace (0 <? Z.of_nat (String.length (cols dw) + String.length s)) with true
      by (symmetry; apply Z.ltb_lt; lia).
    rewrite !len_app, !len_B. cbn [String.length]. rewrite !String_length_app.
    cbn [String.length]. lia.
  - destruct (0 <? Z.of_nat (String.length (cols dw) + String.length s)).
    + rewrite !len_app. match goal with |- _ <= _ + len ?x + _ => pose proof (len_nonneg x) end.
      lia.
    + lia.
Qed.

Lemma trailer_ext (dw dw' : DirectWriter) :
  worksheet dw' = worksheet dw -> trailer dw' = trailer dw.
Proof. unfold trailer. now intros ->. Qed.

Lemma bodyOf_ext (cs : list Call) (dw dw' : DirectWriter) :
  worksheet dw' = worksheet dw -> forall n, bodyOf cs dw' n = bodyOf cs dw n.
Proof.
  intros Hws. induction cs as [|c cs IH]; intros n; [reflexivity|].
  destruct c; cbn [bodyOf]; rewrite ?IH, ?(trailer_ext dw dw' Hws); reflexivity.
Qed.

Lemma bodyOf_cons (c : Call) (cs : list Call) (dw : DirectWriter) :
  bodyOf (c :: cs) dw (rowCount dw) = delta c dw ++ bodyOf cs dw (nextCount c dw).
Proof. destruct c; reflexivity. Qed.

(** The row counter after a sequence of calls. *)
Fixpoint countAfter (cs : list Call) (n : Z) : Z :=
  match cs with
  | [] => n
  | CAddRow _ _ :: cs => countAfter cs (wrapInt (n + 1))
  | _ :: cs => countAfter cs n
  end.

Lemma bodyOf_app (cs1 cs2 : list Call) (dw : DirectWriter) :
  forall n, bodyOf (cs1 ++ cs2) dw n = bodyOf cs1 dw n ++ bodyOf cs2 dw (countAfter cs1 n).
Proof.
  induction cs1 as [|c cs1 IH]; intros n; [reflexivity|].
  destruct c; cbn [app bodyOf countAfter]; rewrite IH, <- ?app_assoc; reflexivity.
Qed.

Lemma runCalls_app (cs1 cs2 : list Call) :
  forall dw,
    runCalls (cs1 ++ cs2) dw =
      match runCalls cs1 dw with
      | Some d => runCalls cs2 d
      | None => None
      end.
Proof.
  induction cs1 as [|c cs1 IH]; intros dw; [reflexivity|].
  cbn [app runCalls]. destruct (call c dw); [apply IH|reflexivity].
Qed.

Lemma runCalls_frame (cs : list Call) :
  forall dw dwN,
    runCalls cs dw = Some dwN ->
    worksheet dwN = worksheet dw /\ exists s, cols dwN = (cols dw ++ s)%string.
Proof.
  induction cs as [|c cs IH]; intros dw dwN Hrun.
  - injection Hrun as <-. split; [reflexivity|].
    exists EmptyString. now rewrite string_app_nil_r.
  - cbn [runCalls] in Hrun. destruct (call c dw) as [d|] eqn:Hc; [|discriminate].
    destruct (call_frame c dw d Hc) as (Hws & s1 & Hc1).
    destruct (IH d dwN Hrun) as (Hws2 & s2 & Hc2).
    split; [congruence|]. exists (s1 ++ s2)%string.
    rewrite Hc2, Hc1. clear. induction (cols dw) as [|a t IHt]; cbn; [reflexivity|].
    now rewrite IHt.
Qed.

(** The invariant of a registered reliable sink along any sequence of
    producer calls that return. *)
Lemma runCalls_Attached (cs : list Call) :
  forall (dw dwN : DirectWriter) (d0 body : list byte),
    Attached delivered dw d0 body ->
    runCalls cs dw = Some dwN ->
    len (buildHeader dwN ++ body ++ bodyOf cs dw (rowCount dw)) <= maxInt ->
    Attached delivered dwN d0 (body ++ bodyOf cs dw (rowCount dw)).
Proof.
  induction cs as [|c cs IH]; intros dw dwN d0 body Hatt Hrun Hmax.
  - injection Hrun as <-. cbn [bodyOf]. rewrite app_nil_r. exact Hatt.
  - pose proof (runCalls_frame _ _ _ Hrun) as (HwsN & HcN).
    pose proof (buildHeader_mono dw dwN HwsN HcN) as Hmono.
    cbn [runCalls] in Hrun.
    rewrite bodyOf_cons in *. rewrite !len_app in Hmax.
    pose proof (call_Attached c dw d0 body Hatt) as Hc.
    destruct (call c dw) as [d|]; [|discriminate].
    destruct Hc as (Hatt' & Hrc & Hws & _).
    { intros _. rewrite !len_app.
      pose proof (len_nonneg (bodyOf cs dw (nextCount c dw))). lia. }
    rewrite app_assoc, <- Hrc, <- (bodyOf_ext cs dw d Hws).
    apply IH; auto.
    rewrite (bodyOf_ext cs dw d Hws), Hrc, !len_app. lia.
Qed.

Lemma runCalls_NoSink (cs : list Call) :
  forall (dw dwN : DirectWriter) (body : list byte),
    NoSink dw body ->
    runCalls cs dw = Some dwN ->
    NoSink dwN (body ++ bodyOf cs dw (rowCount dw))
    /\ rowCount dwN = countAfter cs (rowCount dw)
    /\ worksheet dwN = worksheet dw.
Proof.
  induction cs as [|c cs IH]; intros dw dwN body Hns Hrun.
  - injection Hrun as <-. cbn [bodyOf countAfter]. now rewrite app_nil_r.
  - cbn [runCalls] in Hrun. rewrite bodyOf_cons.
    pose proof (call_NoSink c dw body Hns) as Hc.
    destruct (call c dw) as [d|]; [|discriminate].
    destruct Hc as (Hns' & Hrc & Hws & _).
    destruct (IH d dwN _ Hns' Hrun) as (HnsN & HrcN & HwsN).
    rewrite app_assoc, <- Hrc, <- (bodyOf_ext cs dw d Hws).
    split; [exact HnsN|]. split; [|congruence].
    rewrite HrcN, Hrc. now destruct c.
Qed.

(** Calls other than Close always return on a sinkless stream. *)
Lemma runCalls_NoSink_total (cs : list Call) :
  forallb (fun c => negb (isClose c)) cs = true ->
  forall (dw : DirectWriter) (body : list byte),
    NoSink dw body ->
    exists dwN,
      runCalls cs dw = Some dwN
      /\ NoSink dwN (body ++ bodyOf cs dw (rowCount dw))
      /\ worksheet dwN = worksheet dw /\ done dwN = done dw
      /\ rowCount dwN = countAfter cs (rowCount dw)
      /\ (forallb isRowPhase cs = true -> cols dwN = cols dw).
Proof.
  induction cs as [|c cs IH]; intros Hnc dw body Hns.
  - exists dw. cbn [bodyOf]. rewrite app_nil_r.
    split; [reflexivity|]. split; [exact Hns|]. repeat split; reflexivity.
  - cbn [forallb] in Hnc. apply andb_prop in Hnc as [Hc1 Hcs].
    cbn [runCalls]. rewrite bodyOf_cons.
    pose proof (call_NoSink c dw body Hns) as Hc.
    destruct (call c dw) as [d|];
      [|destruct Hc as [-> _]; discriminate].
    destruct Hc as (Hns' & Hrc & Hws & _ & Hcols & Hdn & _).
    destruct (IH Hcs d _ Hns') as (dwN & Hrun & HnsN & HwsN & HdnN & HrcN & HcolsN).
    exists dwN. split; [exact Hrun|].
    rewrite app_assoc, <- Hrc, <- (bodyOf_ext cs dw d Hws).
    split; [exact HnsN|]. split; [congruence|].
    split; [rewrite HdnN, Hdn; destruct c; cbn in *; congruence|].
    split.
    + rewrite HrcN, Hrc. now destruct c.
    + cbn [forallb]. intros Hrp. apply andb_prop in Hrp as [Hr1 Hr2].
      rewrite (HcolsN Hr2). apply Hcols. now destruct c.
Qed.

(** Rows and wait-mode switches always return on a registered reliable
    sink, as long as the byte count fits. *)
Lemma runRows_Attached (cs : list Call) :
  forallb isRowPhase cs = true ->
  forall (dw : DirectWriter) (d0 body : list byte),
    Attached delivered dw d0 body ->
    len (buildHeader dw ++ body ++ bodyOf cs dw (rowCount dw)) <= maxInt ->
    exists dwN,
      runCalls cs dw = Some dwN
      /\ Attached delivered dwN d0 (body ++ bodyOf cs dw (rowCount dw))
      /\ worksheet dwN = worksheet dw /\ done dwN = done dw
      /\ rowCount dwN = countAfter cs (rowCount dw)
      /\ cols dwN = cols dw.
Proof.
  induction cs as [|c cs IH]; intros Hrp dw d0 body Hatt Hmax.
  - exists dw. cbn [bodyOf]. rewrite app_nil_r.
    split; [reflexivity|]. split; [exact Hatt|]. repeat split; reflexivity.
  - cbn [forallb] in Hrp. apply andb_prop in Hrp as [Hr1 Hr2].
    cbn [runCalls]. rewrite bodyOf_cons in *. rewrite !len_app in Hmax.
    pose proof (call_Attached c dw d0 body Hatt) as Hc.
    destruct (call c dw) as [d|].
    + destruct Hc as (Hatt' & Hrc & Hws & _ & Hcols & Hdn & _).
      { intros _. rewrite !len_app.
        pose proof (len_nonneg (bodyOf cs dw (nextCount c dw))). lia. }
      assert (Hcol : cols d = cols dw) by (apply Hcols; now destruct c).
      destruct (IH Hr2 d d0 _ Hatt') as (dwN & Hrun & HattN & HwsN & HdnN & HrcN & HcolsN).
      { rewrite (buildHeader_ext dw d Hcol Hws), (bodyOf_ext cs dw d Hws), Hrc, !len_app. lia. }
      exists dwN. split; [exact Hrun|].
      rewrite app_assoc, <- Hrc, <- (bodyOf_ext cs dw d Hws).
      split; [exact HattN|]. split; [congruence|].
      split; [rewrite HdnN, Hdn; destruct c; cbn in *; congruence|].
      split; [rewrite HrcN, Hrc; now destruct c|congruence].
    + destruct Hc as [-> _]; [|discriminate].
      intros _. rewrite !len_app.
      pose proof (len_nonneg (bodyOf cs dw (nextCount c dw))). lia.
Qed.

(** *** Registering the sink early or replaying after Close *)

Lemma call_setting_set_out (c : Call) (dw : DirectWriter) (o : option W) :
  isSetting c = true ->
  call c (set_out dw o) = option_map (fun d => set_out d o) (call c dw).
Proof.
  destruct c as [min max width|b|values opts|]; try discriminate; intros _; cbn [call option_map].
  - f_equal. unfold SetColWidth.
    replace (bytesWritten (set_out dw o)) with (bytesWritten dw) by reflexivity.
    destruct (0 <? bytesWritten dw); [reflexivity|].
    destruct ((TotalColumns <? min) || (TotalColumns <? max)); [reflexivity|].
    destruct ((min <? 1) || (max <? 1)); [reflexivity|].
    destruct (gtMaxColumnWidth width); [reflexivity|].
    destruct (max <? min); reflexivity.
  - f_equal. unfold SetWait.
    replace (bytesWritten (set_out dw o)) with (bytesWritten dw) by reflexivity.
    destruct b; [destruct (0 <? bytesWritten dw)|]; reflexivity.
Qed.

Lemma runSettings_set_out (cs : list Call) (o : option W) :
  forallb isSetting cs = true ->
  forall dw,
    runCalls cs (set_out dw o) = option_map (fun d => set_out d o) (runCalls cs dw).
Proof.
  induction cs as [|c cs IH]; intros Hs dw; [reflexivity|].
  cbn [forallb] in Hs. apply andb_prop in Hs as [Hc Hcs].
  cbn [runCalls]. rewrite (call_setting_set_out c dw o Hc).
  destruct (call c dw) as [d|]; cbn [option_map]; [apply IH; exact Hcs|reflexivity].
Qed.

Lemma settings_noClose (cs : list Call) :
  forallb isSetting cs = true -> forallb (fun c => negb (isClose c)) cs = true.
Proof.
  induction cs as [|c cs IH]; [reflexivity|]. cbn [forallb].
  intros H. apply andb_prop in H as [Hc Hcs]. rewrite (IH Hcs). now destruct c.
Qed.

Lemma rows_noClose (cs : list Call) :
  forallb isRowPhase cs = true -> forallb (fun c => negb (isClose c)) cs = true.
Proof.
  induction cs as [|c cs IH]; [reflexivity|]. cbn [forallb].
  intros H. apply andb_prop in H as [Hc Hcs]. rewrite (IH Hcs). now destruct c.
Qed.

Lemma settings_body (cs : list Call) (dw : DirectWriter) :
  forallb isSetting cs = true ->
  forall n, bodyOf cs dw n = [] /\ countAfter cs n = n.
Proof.
  induction cs as [|c cs IH]; intros H n; [split; reflexivity|].
  cbn [forallb] in H. apply andb_prop in H as [Hc Hcs].
  destruct c; try discriminate; cbn [bodyOf countAfter]; now apply IH.
Qed.

Lemma NewDirectWriter_fresh (f f' : File) (sheet : string) (maxBuf : Z)
  (dw0 : DirectWriter) :
  NewDirectWriter f sheet maxBuf = inl (f', dw0) ->
  NoSink dw0 [] /\ done dw0 = false /\ rowCount dw0 = 0 /\ cols dw0 = EmptyString
  /\ waitMode dw0 = false /\ maxBufferSize dw0 = maxBuf.
Proof.
  unfold NewDirectWriter.
  destruct (getSheetID _ _ =? -1); [discriminate|].
  destruct (workSheetReader _ _); [|discriminate].
  intros [= _ <-]. unfold NoSink. cbn. tauto.
Qed.

Lemma WriteTo_replay (dw : DirectWriter) (body : list byte) (w : W) :
  NoSink dw body -> done dw = true ->
  exists n w',
    WriteTo dw w = Replayed n None w'
    /\ delivered w' = delivered w ++ buildHeader dw ++ body.
Proof.
  intros (_ & _ & Hb & Hbuf) Hd. unfold WriteTo. rewrite Hd, Hb. cbn [Z.ltb Z.compare].
  destruct (Hrel w (buildHeader dw)) as (w1 & Hw1 & Hd1). rewrite Hw1.
  destruct (Hrel w1 (buf dw)) as (w2 & Hw2 & Hd2). rewrite Hw2.
  do 2 eexists. split; [reflexivity|].
  rewrite Hd2, Hd1, Hbuf. now rewrite <- app_assoc.
Qed.

(** C2. On a fresh writer take any settings (column widths, wait mode),
    then any rows (with wait mode switched at will), then Close, with a sink
    that accepts every write and a total byte count within int64.  Whether
    the sink is registered by WriteTo somewhere among the settings, before
    the first row, or handed to WriteTo only after Close has returned, every
    call returns and the sink ends with the same bytes. *)
Theorem replay_equals_streaming
  (f f' : File) (sheet : string) (maxBuf : Z) (dw0 : DirectWriter)
  (settings1 settings2 rows : list Call) (w0 : W) :
  NewDirectWriter f sheet maxBuf = inl (f', dw0) ->
  forallb isSetting settings1 = true ->
  forallb isSetting settings2 = true ->
  forallb isRowPhase rows = true ->
  (forall dB,
      runCalls (settings1 ++ settings2 ++ rows ++ [CClose]) dw0 = Some dB ->
      len (buildHeader dB ++ buf dB) <= maxInt) ->
  exists d1 d2 dA wA dB wB n,
    runCalls settings1 dw0 = Some d1
    /\ attach w0 d1 = Some d2
    /\ runCalls (settings2 ++ rows ++ [CClose]) d2 = Some dA
    /\ out dA = Some wA
    /\ runCalls (settings1 ++ settings2 ++ rows ++ [CClose]) dw0 = Some dB
    /\ WriteTo dB w0 = Replayed n None wB
    /\ delivered wA = delivered wB.
Proof.
  intros Hnew Hs1 Hs2 Hrows Hmax.
  destruct (NewDirectWriter_fresh _ _ _ _ _ Hnew) as (Hns0 & Hd0 & Hrc0 & _).
  (* the settings, without a sink *)
  destruct (runCalls_NoSink_total settings1 (settings_noClose _ Hs1) dw0 [] Hns0)
    as (d1 & Hrun1 & Hns1 & Hws1 & Hdn1 & Hrc1 & _).
  destruct (settings_body settings1 dw0 Hs1 (rowCount dw0)) as [Hb1 Hc1].
  rewrite Hb1 in Hns1. rewrite Hc1 in Hrc1. cbn [app] in Hns1.
  destruct (runCalls_NoSink_total settings2 (settings_noClose _ Hs2) d1 [] Hns1)
    as (dS & Hrun2 & HnsS & HwsS & HdnS & HrcS & _).
  destruct (settings_body settings2 d1 Hs2 (rowCount d1)) as [Hb2 Hc2].
  rewrite Hb2 in HnsS. rewrite Hc2 in HrcS. cbn [app] in HnsS.
  (* the rows and Close, without a sink *)
  destruct (runCalls_NoSink_total rows (rows_noClose _ Hrows) dS [] HnsS)
    as (dR & Hrun3 & HnsR & HwsR & HdnR & HrcR & HcolR).
  specialize (HcolR Hrows). cbn [app] in HnsR.
  pose proof (call_NoSink CClose dR _ HnsR) as Hclose.
  destruct (call CClose dR) as [dB|] eqn:HcB;
    [|destruct Hclose as [_ Hdone]; congruence].
  destruct Hclose as (HnsB & _ & HwsB & _ & HcolB & HdnB & _).
  specialize (HcolB eq_refl). cbn [delta isClose orb] in *.
  assert (HrunB : runCalls (settings1 ++ settings2 ++ rows ++ [CClose]) dw0 = Some dB).
  { rewrite runCalls_app, Hrun1, runCalls_app, Hrun2, runCalls_app, Hrun3.
    cbn [runCalls]. now rewrite HcB. }
  specialize (Hmax dB HrunB).
  destruct HnsB as (HlB & HoB & HbB & HbufB).
  assert (HnsB : NoSink dB (bodyOf rows dS (rowCount dS) ++ trailer dR))
    by (unfold NoSink; auto).
  destruct (WriteTo_replay dB _ w0 HnsB HdnB) as (n & wB & Hreplay & HdelB).
  (* the same calls with the sink registered after the first settings *)
  assert (Hatt1 : attach w0 d1 = Some (set_out d1 (Some w0))).
  { unfold attach, WriteTo. destruct Hns1 as (Hl1 & _).
    now rewrite Hdn1, Hd0, Hl1. }
  pose proof (runSettings_set_out settings2 (Some w0) Hs2 d1) as HrunA2.
  rewrite Hrun2 in HrunA2. cbn [option_map] in HrunA2.
  set (dA2 := set_out dS (Some w0)) in *.
  assert (HattA2 : Attached delivered dA2 (delivered w0) []).
  { destruct HnsS as (Hl & _ & Hb & Hbuf). split; [exact Hl|].
    exists w0. split; [reflexivity|]. left. auto. }
  assert (HhdrB : buildHeader dB = buildHeader dA2).
  { apply buildHeader_ext; [rewrite HcolB, HcolR|rewrite HwsB, HwsR]; reflexivity. }
  assert (HtrB : trailer dR = trailer dA2).
  { apply trailer_ext. rewrite HwsR. reflexivity. }
  rewrite HbufB, HhdrB, HtrB in Hmax.
  rewrite <- (bodyOf_ext rows dS dA2 eq_refl) in Hmax.
  change (rowCount dS) with (rowCount dA2) in Hmax.
  rewrite !len_app in Hmax.
  destruct (runRows_Attached rows Hrows dA2 (delivered w0) [] HattA2)
    as (dAR & HrunA3 & HattAR & HwsAR & HdnAR & HrcAR & HcolAR).
  { cbn [app]. rewrite !len_app. pose proof (len_nonneg (trailer dA2)). lia. }
  cbn [app] in HattAR.
  pose proof (Close_Attached dAR (delivered w0) _ HattAR) as HcloseA.
  assert (HdAR : done dAR = false) by (rewrite HdnAR; cbn; congruence).
  rewrite HdAR in HcloseA.
  destruct HcloseA as (dA & wA & HcA & _ & _ & _ & HoutA & HdelA).
  { rewrite (buildHeader_ext dA2 dAR HcolAR HwsAR), (trailer_ext dA2 dAR HwsAR).
    rewrite !len_app. lia. }
  exists d1, (set_out d1 (Some w0)), dA, wA, dB, wB, n.
  split; [exact Hrun1|]. split; [exact Hatt1|].
  split.
  { rewrite runCalls_app, HrunA2, runCalls_app, HrunA3. cbn [runCalls call].
    now rewrite HcA. }
  split; [exact HoutA|]. split; [exact HrunB|]. split; [exact Hreplay|].
  rewrite HdelA, HdelB, HhdrB, HtrB.
  rewrite (buildHeader_ext dA2 dAR HcolAR HwsAR), (trailer_ext dA2 dAR HwsAR).
  rewrite (bodyOf_ext rows dS dA2 eq_refl). reflexivity.
Qed.

(** *** The header *)

Lemma attach_inv (w : W) (d1 d2 : DirectWriter) :
  attach w d1 = Some d2 ->
  done d1 = false /\ locked d1 = false /\ d2 = set_out d1 (Some w).
Proof.
  unfold attach, WriteTo. destruct (done d1).
  - destruct (0 <? bytesWritten d1); [discriminate|].
    destruct (Write w (buildHeader d1)) as [w1 [n [e|]]]; [discriminate|].
    destruct (Write w1 (buf d1)) as [w2 [n2 e2]]. discriminate.
  - destruct (locked d1); [discriminate|]. now intros [= <-].
Qed.

Lemma runCalls_countAfter (cs : list Call) :
  forall dA dZ : DirectWriter,
    runCalls cs dA = Some dZ -> rowCount dZ = countAfter cs (rowCount dA).
Proof.
  induction cs as [|c cs IH]; intros dA dZ Hrun.
  - now injection Hrun as <-.
  - cbn [runCalls] in Hrun. destruct (call c dA) as [dM|] eqn:Hc; [|discriminate].
    rewrite (IH dM dZ Hrun).
    assert (HrM : rowCount dM = nextCount c dA).
    { destruct c as [min max width|b|values opts|]; cbn [call] in Hc.
      - injection Hc as <-. apply SetColWidth_rowCount.
      - injection Hc as <-. apply SetWait_rowCount.
      - pose proof (AddRow_rowCount dA values opts) as H.
        destruct (AddRow dA values opts); try discriminate. now injection Hc as <-.
      - pose proof (Close_rowCount dA) as H.
        destruct (Close dA); try discriminate. now injection Hc as <-. }
    rewrite HrM. now destruct c.
Qed.

Lemma countAfter_app (cs1 cs2 : list Call) :
  forall n, countAfter (cs1 ++ cs2) n = countAfter cs2 (countAfter cs1 n).
Proof.
  induction cs1 as [|c cs1 IH]; intros n; [reflexivity|].
  destruct c; cbn [app countAfter]; apply IH.
Qed.

(** The header for a worksheet and the column directives registered so far,
    piece by piece as [buildHeader] writes it: the prolog and the opening
    tag of the worksheet, the leading worksheet fields, the [<cols>] block
    when there is a directive, the opening tag of the sheet data. *)
Definition headerFor (ws : xlsxWorksheet) (registered : string) : list byte :=
  B (XMLHeader ++ "<worksheet" ++ templateNamespaceIDMap) ++ bulkFields ws 2 5
    ++ (if nonempty registered then B ("<cols>" ++ registered ++ "</cols>") else [])
    ++ B "<sheetData>".

(** The checks [SetColWidth] makes on its arguments. *)
Definition widthOk (min max : Z) (width : float64) : bool :=
  negb ((TotalColumns <? min) || (TotalColumns <? max))
  && negb ((min <? 1) || (max <? 1))
  && negb (gtMaxColumnWidth width).

(** The directives of the column widths among [cs] whose arguments pass the
    checks, in call order. *)
Fixpoint directives (cs : list Call) : string :=
  match cs with
  | [] => EmptyString
  | CSetColWidth min max width :: cs =>
      ((if widthOk min max width
        then colDirective (Z.min min max) (Z.max min max) width
        else EmptyString) ++ directives cs)%string
  | _ :: cs => directives cs
  end.

(** The calls that run a flush on [dw]: Close, and an AddRow whose row
    encodes and takes the buffer over the threshold outside wait mode. *)
Definition flushes (c : Call) (dw : DirectWriter) : Prop :=
  match c with
  | CClose => True
  | CAddRow values opts =>
      snd (rowBytes (wrapInt (rowCount dw + 1)) values opts) = None
      /\ maxBufferSize dw
         < len (buf dw ++ fst (rowBytes (wrapInt (rowCount dw + 1)) values opts))
      /\ waitMode dw = false
  | _ => False
  end.

Lemma buildHeader_headerFor (dw : DirectWriter) :
  buildHeader dw = headerFor (worksheet dw) (cols dw).
Proof.
  unfold buildHeader, headerFor.
  destruct (cols dw) as [|a s]; cbn [String.length nonempty].
  - change (0 <? Z.of_nat 0) with false. cbn [app]. now rewrite <- app_assoc.
  - replace (0 <? Z.of_nat (S (String.length s))) with true
      by (symmetry; apply Z.ltb_lt; lia).
    now rewrite <- !app_assoc.
Qed.

Lemma string_app_assoc (s t u : string) : ((s ++ t) ++ u)%string = (s ++ t ++ u)%string.
Proof. induction s as [|a s IH]; cbn; [reflexivity|now rewrite IH]. Qed.

Lemma directives_app (cs1 cs2 : list Call) :
  directives (cs1 ++ cs2) = (directives cs1 ++ directives cs2)%string.
Proof.
  induction cs1 as [|c cs1 IH]; [reflexivity|].
  destruct c; cbn [app directives]; rewrite IH; [|reflexivity..].
  now rewrite string_app_assoc.
Qed.

Lemma SetColWidth_bytesWritten (dw : DirectWriter) (min max : Z) (width : float64) :
  bytesWritten (fst (SetColWidth dw min max width)) = bytesWritten dw.
Proof.
  destruct (SetColWidth_cases dw min max width) as [H | [_ [s H]]]; rewrite H; reflexivity.
Qed.

Lemma SetColWidth_cols (dw : DirectWriter) (min max : Z) (width : float64) :
  bytesWritten dw <= 0 ->
  cols (fst (SetColWidth dw min max width)) =
    (cols dw ++ directives [CSetColWidth min max width])%string.
Proof.
  intros Hb. apply Z.ltb_ge in Hb. cbn [directives]. rewrite string_app_nil_r.
  unfold SetColWidth, widthOk. rewrite Hb.
  destruct ((TotalColumns <? min) || (TotalColumns <? max));
    [cbn [negb andb fst]; now rewrite string_app_nil_r|].
  destruct ((min <? 1) || (max <? 1));
    [cbn [negb andb fst]; now rewrite string_app_nil_r|].
  destruct (gtMaxColumnWidth width);
    [cbn [negb andb fst]; now rewrite string_app_nil_r|].
  cbn [negb andb].
  destruct (max <? min) eqn:E; cbn [fst cols set_cols].
  - apply Z.ltb_lt in E. rewrite Z.min_r, Z.max_l by lia. reflexivity.
  - apply Z.ltb_ge in E. rewrite Z.min_l, Z.max_r by lia. reflexivity.
Qed.

(** The directives a returning call adds while nothing has been delivered. *)
Lemma call_cols (c : Call) (dw d : DirectWriter) :
  call c dw = Some d -> bytesWritten dw <= 0 ->
  (isSetColWidth c = false -> cols d = cols dw) ->
  cols d = (cols dw ++ directives [c])%string.
Proof.
  intros Hc Hb Hframe.
  destruct c as [min max width|b|values opts|];
    try (rewrite (Hframe eq_refl); cbn [directives]; now rewrite string_app_nil_r).
  cbn [call] in Hc. injection Hc as <-. now apply SetColWidth_cols.
Qed.

Lemma runCalls_NoSink_cols (cs : list Call) :
  forall (dw dwN : DirectWriter) (body : list byte),
    NoSink dw body ->
    runCalls cs dw = Some dwN ->
    cols dwN = (cols dw ++ directives cs)%string.
Proof.
  induction cs as [|c cs IH]; intros dw dwN body Hns Hrun.
  - injection Hrun as <-. cbn. now rewrite string_app_nil_r.
  - cbn [runCalls] in Hrun.
    pose proof (call_NoSink c dw body Hns) as Hc.
    destruct (call c dw) as [d|] eqn:Hcall; [|discriminate].
    destruct Hc as (Hns' & _ & _ & _ & Hcols & _).
    rewrite (IH d dwN _ Hns' Hrun).
    assert (Hb : bytesWritten dw <= 0) by (destruct Hns as (_ & _ & -> & _); lia).
    rewrite (call_cols c dw d Hcall Hb Hcols).
    change (c :: cs) with ([c] ++ cs). now rewrite directives_app, string_app_assoc.
Qed.

Lemma Attached_bytesWritten (dw : DirectWriter) (d0 body : list byte) :
  Attached delivered dw d0 body -> bytesWritten dw = 0 \/ 0 < bytesWritten dw.
Proof.
  intros (_ & w & _ & [(H & _) | (sent & H & _)]); [left; exact H|right].
  rewrite H, len_app. pose proof (buildHeader_pos dw). pose proof (len_nonneg sent). lia.
Qed.

(** A call that leaves bytesWritten at 0 started from 0 and ran no flush. *)
Lemma call_Attached_zero (c : Call) (dw d : DirectWriter) (d0 body : list byte) :
  Attached delivered dw d0 body ->
  (isSetting c = false -> len (buildHeader dw ++ body ++ delta c dw) <= maxInt) ->
  call c dw = Some d ->
  bytesWritten d = 0 ->
  bytesWritten dw = 0.
Proof.
  intros Hatt Hmax Hc Hz.
  destruct c as [min max width|b|values opts|]; cbn [call] in Hc.
  - injection Hc as <-. now rewrite SetColWidth_bytesWritten in Hz.
  - injection Hc as <-. destruct (SetWait_cases dw b) as [b' Hb]. now rewrite Hb in Hz.
  - specialize (Hmax eq_refl). cbn [delta] in Hmax.
    unfold AddRow in Hc. rewrite AddRow_encode_spec in Hc. cbv zeta in Hc.
    set (row := fst (rowBytes (wrapInt (rowCount dw + 1)) values opts)) in *.
    set (dw1 := set_maxColLengths _ _) in Hc.
    assert (Hatt1 : Attached delivered dw1 d0 (body ++ row))
      by (apply (Attached_ext dw dw1); auto; reflexivity).
    destruct (snd (rowBytes _ values opts)) as [e|]; [injection Hc as <-; exact Hz|].
    destruct ((maxBufferSize dw1 <? len (buf dw1)) && negb (waitMode dw1));
      [|injection Hc as <-; exact Hz].
    destruct (tryFlush_Attached dw1 d0 (body ++ row) Hatt1)
      as (dw' & w' & Hflush & _ & _ & _ & _ & Hbw & _).
    { rewrite (buildHeader_ext dw dw1) by reflexivity. exact Hmax. }
    rewrite Hflush in Hc. injection Hc as <-.
    exfalso. rewrite Hbw, len_app in Hz.
    pose proof (buildHeader_pos dw1). pose proof (len_nonneg (body ++ row)). lia.
  - specialize (Hmax eq_refl). cbn [delta] in Hmax.
    rewrite Close_unfold in Hc. set (dw1 := bufAppend dw (trailer dw)) in Hc.
    assert (Hatt1 : Attached delivered dw1 d0 (body ++ trailer dw))
      by (apply (Attached_ext dw dw1); auto; reflexivity).
    destruct (tryFlush_Attached dw1 d0 (body ++ trailer dw) Hatt1)
      as (dw' & w' & Hflush & _ & _ & _ & _ & Hbw & _).
    { rewrite (buildHeader_ext dw dw1) by reflexivity. exact Hmax. }
    rewrite Hflush in Hc. cbv zeta in Hc.
    destruct (done (set_File dw' _)); [discriminate|]. injection Hc as <-.
    exfalso. cbn [bytesWritten set_done set_File] in Hz. rewrite Hbw, len_app in Hz.
    pose proof (buildHeader_pos dw1). pose proof (len_nonneg (body ++ trailer dw)). lia.
Qed.

(** Along calls that return on a registered reliable sink: while
    bytesWritten is 0 every accepted column width is added to the
    directives; once it is positive it stays positive and the directives do
    not change. *)
Lemma runCalls_Attached_cols (cs : list Call) :
  forall (dw dwN : DirectWriter) (d0 body : list byte),
    Attached delivered dw d0 body ->
    runCalls cs dw = Some dwN ->
    len (buildHeader dwN ++ body ++ bodyOf cs dw (rowCount dw)) <= maxInt ->
    (bytesWritten dwN = 0 ->
       bytesWritten dw = 0 /\ cols dwN = (cols dw ++ directives cs)%string)
    /\ (0 < bytesWritten dw -> 0 < bytesWritten dwN /\ cols dwN = cols dw).
Proof.
  induction cs as [|c cs IH]; intros dw dwN d0 body Hatt Hrun Hmax.
  - injection Hrun as <-. split; [|tauto].
    intros Hz. split; [exact Hz|]. cbn. now rewrite string_app_nil_r.
  - pose proof (runCalls_frame _ _ _ Hrun) as (HwsN & HcN).
    pose proof (buildHeader_mono dw dwN HwsN HcN) as Hmono.
    cbn [runCalls] in Hrun.
    rewrite bodyOf_cons in *. rewrite !len_app in Hmax.
    assert (Hb : isSetting c = false ->
                 len (buildHeader dw ++ body ++ delta c dw) <= maxInt).
    { intros _. rewrite !len_app.
      pose proof (len_nonneg (bodyOf cs dw (nextCount c dw))). lia. }
    pose proof (call_Attached c dw d0 body Hatt Hb) as Hc.
    destruct (call c dw) as [d|] eqn:Hcall; [|discriminate].
    destruct Hc as (Hatt' & Hrc & Hws & _ & Hcols & _).
    destruct (IH d dwN d0 (body ++ delta c dw) Hatt' Hrun) as [IHz IHp].
    { rewrite (bodyOf_ext cs dw d Hws), Hrc, !len_app. lia. }
    pose proof (call_Attached_zero c dw d d0 body Hatt Hb Hcall) as Hzero.
    split.
    + intros Hz. destruct (IHz Hz) as [Hzd HcN'].
      pose proof (Hzero Hzd) as Hz0. split; [exact Hz0|].
      assert (Hle : bytesWritten dw <= 0) by lia.
      rewrite HcN', (call_cols c dw d Hcall Hle Hcols).
      change (c :: cs) with ([c] ++ cs). now rewrite directives_app, string_app_assoc.
    + intros Hp.
      assert (Hpd : 0 < bytesWritten d).
      { destruct (Attached_bytesWritten d d0 _ Hatt') as [H0 | H0]; [|exact H0].
        specialize (Hzero H0). lia. }
      destruct (IHp Hpd) as [HpN HcN']. split; [exact HpN|].
      rewrite HcN'. destruct c as [min max width|b|values opts|];
        try (apply Hcols; reflexivity).
      cbn [call] in Hcall. injection Hcall as <-.
      destruct (SetColWidth_cases dw min max width) as [H | [Hle _]]; [|lia].
      rewrite H. reflexivity.
Qed.

(** A call that runs a flush on a registered reliable sink delivers the
    header, if nothing was delivered before, and everything buffered. *)
Lemma call_flushes_Attached (c : Call) (dw d : DirectWriter) (d0 body : list byte) :
  Attached delivered dw d0 body ->
  len (buildHeader dw ++ body ++ delta c dw) <= maxInt ->
  flushes c dw ->
  call c dw = Some d ->
  exists w',
    out d = Some w'
    /\ delivered w' = d0 ++ buildHeader dw ++ body ++ delta c dw
    /\ buf d = []
    /\ bytesWritten d = len (buildHeader dw ++ body ++ delta c dw).
Proof.
  intros Hatt Hmax Hfl Hc.
  destruct c as [min max width|b|values opts|]; cbn [flushes] in Hfl; try contradiction;
    cbn [call delta] in *.
  - destruct Hfl as (Herr & Hthr & Hwait).
    unfold AddRow in Hc. rewrite AddRow_encode_spec in Hc. cbv zeta in Hc.
    set (row := fst (rowBytes (wrapInt (rowCount dw + 1)) values opts)) in *.
    set (dw1 := set_maxColLengths _ _) in Hc.
    assert (Hatt1 : Attached delivered dw1 d0 (body ++ row))
      by (apply (Attached_ext dw dw1); auto; reflexivity).
    rewrite Herr in Hc.
    replace (maxBufferSize dw1) with (maxBufferSize dw) in Hc by reflexivity.
    replace (buf dw1) with (buf dw ++ row) in Hc by reflexivity.
    replace (waitMode dw1) with (waitMode dw) in Hc by reflexivity.
    apply Z.ltb_lt in Hthr. rewrite Hthr, Hwait in Hc. cbn [andb negb] in Hc.
    destruct (tryFlush_Attached dw1 d0 (body ++ row) Hatt1)
      as (dw' & w' & Hflush & _ & Hbuf & Hout & Hdel & Hbw & _).
    { rewrite (buildHeader_ext dw dw1) by reflexivity. exact Hmax. }
    rewrite Hflush in Hc. injection Hc as <-.
    rewrite (buildHeader_ext dw dw1) in * by reflexivity.
    exists w'. rewrite Hdel, Hbw. auto.
  - rewrite Close_unfold in Hc. set (dw1 := bufAppend dw (trailer dw)) in Hc.
    assert (Hatt1 : Attached delivered dw1 d0 (body ++ trailer dw))
      by (apply (Attached_ext dw dw1); auto; reflexivity).
    destruct (tryFlush_Attached dw1 d0 (body ++ trailer dw) Hatt1)
      as (dw' & w' & Hflush & _ & Hbuf & Hout & Hdel & Hbw & _).
    { rewrite (buildHeader_ext dw dw1) by reflexivity. exact Hmax. }
    rewrite Hflush in Hc. cbv zeta in Hc.
    destruct (done (set_File dw' _)); [discriminate|]. injection Hc as <-.
    rewrite (buildHeader_ext dw dw1) in * by reflexivity.
    exists w'. cbn [out buf bytesWritten set_done set_File].
    rewrite Hdel, Hbw. auto.
Qed.

(** C3. NewDirectWriter builds and delivers nothing: the buffer is empty,
    bytesWritten is 0 and there is no sink.  Take a fresh writer, calls
    [pre], a reliable sink registered by WriteTo, calls [post1] after which
    bytesWritten is still 0, then a call [c] that runs a flush (Close, or an
    AddRow over the threshold outside wait mode), then calls [post2], all of
    them returning and the byte total within int64.  Before [c] the sink
    has received nothing and the buffer holds the rows only.  The flush of
    [c], the first one, delivers the header and then everything buffered,
    and makes bytesWritten positive.  The header is the prolog, the leading
    worksheet fields, the cols block with the directive of every column
    width registered with valid arguments in [pre] and [post1], before or
    after the sink, and the opening tag of the sheet data.  From then on the
    sink holds that same header once, in front, followed by a prefix of the
    rows and trailer whose rest is the buffer: no later flush delivers a
    header and no later column width changes it. *)
Theorem header_delivered_once_at_first_flush
  (f f' : File) (sheet : string) (maxBuf : Z) (dw0 d1 d2 dM dF dwN : DirectWriter)
  (pre post1 post2 : list Call) (c : Call) (w0 : W) :
  NewDirectWriter f sheet maxBuf = inl (f', dw0) ->
  runCalls pre dw0 = Some d1 ->
  attach w0 d1 = Some d2 ->
  runCalls post1 d2 = Some dM ->
  bytesWritten dM = 0 ->
  flushes c dM ->
  call c dM = Some dF ->
  runCalls post2 dF = Some dwN ->
  len (buildHeader dwN ++ bodyOf (pre ++ post1 ++ c :: post2) dw0 0) <= maxInt ->
  let header := headerFor (worksheet dw0) (directives (pre ++ post1)) in
  (buf dw0 = [] /\ bytesWritten dw0 = 0 /\ out dw0 = None)
  /\ (exists wM,
        out dM = Some wM /\ delivered wM = delivered w0
        /\ buf dM = bodyOf (pre ++ post1) dw0 0)
  /\ (exists wF,
        out dF = Some wF
        /\ delivered wF = delivered w0 ++ header ++ bodyOf (pre ++ post1 ++ [c]) dw0 0
        /\ buf dF = []
        /\ bytesWritten dF = len (header ++ bodyOf (pre ++ post1 ++ [c]) dw0 0)
        /\ 0 < bytesWritten dF)
  /\ (exists wN sent,
        out dwN = Some wN
        /\ delivered wN = delivered w0 ++ header ++ sent
        /\ sent ++ buf dwN = bodyOf (pre ++ post1 ++ c :: post2) dw0 0
        /\ buildHeader dwN = header
        /\ 0 < bytesWritten dwN).
Proof.
  intros Hnew Hpre Hatt Hpost1 HzM Hfl Hc Hpost2 Hmax header.
  destruct (NewDirectWriter_fresh _ _ _ _ _ Hnew) as (Hns0 & Hd0 & Hrc0 & Hcols0 & _).
  destruct (runCalls_NoSink pre dw0 d1 [] Hns0 Hpre) as (Hns1 & Hrc1 & Hws1).
  cbn [app] in Hns1. rewrite Hrc0 in *.
  pose proof (runCalls_NoSink_cols pre dw0 d1 [] Hns0 Hpre) as Hcols1.
  rewrite Hcols0 in Hcols1. cbn [append] in Hcols1.
  destruct (attach_inv w0 d1 d2 Hatt) as (Hdn1 & Hl1 & ->).
  set (d2 := set_out d1 (Some w0)) in *.
  assert (Hatt2 : Attached delivered d2 (delivered w0) (bodyOf pre dw0 0)).
  { destruct Hns1 as (Hl & _ & Hb & Hbuf). split; [exact Hl|].
    exists w0. split; [reflexivity|]. left. auto. }
  assert (Hws2 : worksheet d2 = worksheet dw0) by exact Hws1.
  assert (Hrc2 : rowCount d2 = countAfter pre 0) by exact Hrc1.
  (* frames of the three segments *)
  destruct (runCalls_frame post1 d2 dM Hpost1) as (HwsM & sM & HcM).
  pose proof (runCalls_countAfter post1 d2 dM Hpost1) as HrcM.
  assert (HcallF : runCalls [c] dM = Some dF) by (cbn [runCalls]; now rewrite Hc).
  destruct (runCalls_frame [c] dM dF HcallF) as (HwsF & sF & HcF).
  destruct (runCalls_frame post2 dF dwN Hpost2) as (HwsN & sN & HcN).
  (* the body, segment by segment *)
  set (bM := bodyOf pre dw0 0 ++ bodyOf post1 d2 (rowCount d2)).
  assert (EM : bodyOf (pre ++ post1) dw0 0 = bM).
  { subst bM. rewrite bodyOf_app, (bodyOf_ext post1 dw0 d2 Hws2), Hrc2. reflexivity. }
  assert (HwsM0 : worksheet dM = worksheet dw0) by congruence.
  assert (HrcM0 : rowCount dM = countAfter (pre ++ post1) 0)
    by (rewrite countAfter_app, <- Hrc2; exact HrcM).
  assert (EF : bodyOf (pre ++ post1 ++ [c]) dw0 0 = bM ++ delta c dM).
  { rewrite app_assoc, bodyOf_app, EM, <- HrcM0, <- (bodyOf_ext [c] dw0 dM HwsM0).
    rewrite bodyOf_cons. cbn [bodyOf]. now rewrite app_nil_r. }
  assert (Hsteps : len (buildHeader dM ++ bM ++ delta c dM) <= maxInt
                   /\ len (buildHeader dwN ++ (bM ++ delta c dM)
                             ++ bodyOf post2 dF (rowCount dF)) <= maxInt
                   /\ bodyOf (pre ++ post1 ++ c :: post2) dw0 0 =
                        (bM ++ delta c dM) ++ bodyOf post2 dF (rowCount dF)).
  { assert (HwsF0 : worksheet dF = worksheet dw0) by congruence.
    assert (EN : bodyOf (pre ++ post1 ++ c :: post2) dw0 0 =
                 (bM ++ delta c dM) ++ bodyOf post2 dF (rowCount dF)).
    { rewrite app_assoc, bodyOf_app, EM, <- HrcM0, <- (bodyOf_ext (c :: post2) dw0 dM HwsM0).
      rewrite bodyOf_cons, (bodyOf_ext post2 dM dF HwsF), <- app_assoc.
      replace (nextCount c dM) with (rowCount dF); [reflexivity|].
      rewrite (runCalls_countAfter [c] dM dF HcallF). now destruct c. }
    rewrite EN in Hmax.
    assert (Hmono : len (buildHeader dM) <= len (buildHeader dwN)).
    { apply buildHeader_mono; [congruence|].
      exists (sF ++ sN)%string. now rewrite HcN, HcF, string_app_assoc. }
    rewrite !len_app in *.
    pose proof (len_nonneg (bodyOf post2 dF (rowCount dF))).
    repeat split; [lia|lia|exact EN]. }
  destruct Hsteps as (HmaxF & HmaxN & EN).
  assert (HmaxM : len (buildHeader dM ++ bodyOf pre dw0 0 ++ bodyOf post1 d2 (rowCount d2))
                  <= maxInt).
  { fold bM. rewrite !len_app in *. pose proof (len_nonneg (delta c dM)). lia. }
  (* the state before the first flush *)
  pose proof (runCalls_Attached post1 d2 dM _ _ Hatt2 Hpost1 HmaxM) as HattM.
  fold bM in HattM.
  destruct (runCalls_Attached_cols post1 d2 dM _ _ Hatt2 Hpost1 HmaxM) as [HzeroM _].
  destruct (HzeroM HzM) as [_ HcolsM].
  assert (HcolsM0 : cols dM = directives (pre ++ post1)).
  { rewrite HcolsM, directives_app. change (cols d2) with (cols d1). now rewrite Hcols1. }
  assert (HhdrM : buildHeader dM = header).
  { subst header. rewrite buildHeader_headerFor, HwsM0, HcolsM0. reflexivity. }
  (* the first flush *)
  destruct (call_flushes_Attached c dM dF _ _ HattM HmaxF Hfl Hc)
    as (wF & HoutF & HdelF & HbufF & HbwF).
  rewrite HhdrM in HdelF, HbwF.
  assert (HposF : 0 < bytesWritten dF).
  { rewrite HbwF, <- HhdrM, len_app. pose proof (buildHeader_pos dM).
    pose proof (len_nonneg (bM ++ delta c dM)). lia. }
  (* afterwards *)
  assert (HbF : isSetting c = false -> len (buildHeader dM ++ bM ++ delta c dM) <= maxInt)
    by (intros _; exact HmaxF).
  pose proof (call_Attached c dM _ _ HattM HbF) as HattF.
  rewrite Hc in HattF. destruct HattF as (HattF & _ & _ & _ & HcolsF & _).
  assert (HcolsF0 : cols dF = cols dM).
  { apply HcolsF. destruct c; cbn [flushes] in Hfl; try contradiction; reflexivity. }
  pose proof (runCalls_Attached post2 dF dwN _ _ HattF Hpost2 HmaxN) as HattN.
  destruct (runCalls_Attached_cols post2 dF dwN _ _ HattF Hpost2 HmaxN) as [_ HposN].
  destruct (HposN HposF) as [HpN HcolsN].
  assert (HhdrN : buildHeader dwN = header).
  { rewrite <- HhdrM. apply buildHeader_ext; congruence. }
  split; [|split; [|split]].
  - destruct Hns0 as (_ & Ho & Hb & Hbuf). auto.
  - destruct HattM as (_ & wM & HoM & [(_ & HdM & HbM) | (sent & Hn & _)]).
    + exists wM. rewrite EM. auto.
    + exfalso. rewrite HzM, len_app in Hn.
      pose proof (buildHeader_pos dM). pose proof (len_nonneg sent). lia.
  - exists wF. rewrite EF. auto.
  - destruct HattN as (_ & wN & HoN & [(Hz & _) | (sent & _ & HdN & HbN)]); [lia|].
    exists wN, sent. rewrite EN, <- HhdrN. auto.
Qed.

(** *** What the sink has received *)

Lemma streamed_Attached
  (f f' : File) (sheet : string) (maxBuf : Z) (dw0 d1 d2 dwN : DirectWriter)
  (pre post : list Call) (w0 : W) :
  NewDirectWriter f sheet maxBuf = inl (f', dw0) ->
  runCalls pre dw0 = Some d1 ->
  attach w0 d1 = Some d2 ->
  runCalls post d2 = Some dwN ->
  len (buildHeader dwN ++ bodyOf (pre ++ post) dw0 0) <= maxInt ->
  Attached delivered dwN (delivered w0) (bodyOf (pre ++ post) dw0 0)
  /\ worksheet dwN = worksheet dw0
  /\ rowCount dwN = countAfter (pre ++ post) 0.
Proof.
  intros Hnew Hpre Hatt Hpost Hmax.
  destruct (NewDirectWriter_fresh _ _ _ _ _ Hnew) as (Hns0 & Hd0 & Hrc0 & _).
  destruct (runCalls_NoSink pre dw0 d1 [] Hns0 Hpre) as (Hns1 & Hrc1 & Hws1).
  cbn [app] in Hns1. rewrite Hrc0 in *.
  destruct (attach_inv w0 d1 d2 Hatt) as (Hdn1 & Hl1 & ->).
  assert (Hatt2 : Attached delivered (set_out d1 (Some w0)) (delivered w0)
                    (bodyOf pre dw0 0)).
  { destruct Hns1 as (Hl & _ & Hb & Hbuf). split; [exact Hl|].
    exists w0. split; [reflexivity|]. left. auto. }
  assert (Hbody : bodyOf (pre ++ post) dw0 0 =
                  bodyOf pre dw0 0 ++
                  bodyOf post (set_out d1 (Some w0)) (rowCount (set_out d1 (Some w0)))).
  { rewrite bodyOf_app. f_equal. rewrite (bodyOf_ext post dw0 (set_out d1 (Some w0)) Hws1).
    f_equal. symmetry. exact Hrc1. }
  split; [rewrite Hbody in *; exact (runCalls_Attached post _ dwN _ _ Hatt2 Hpost Hmax)|].
  destruct (runCalls_frame post _ dwN Hpost) as (HwsN & _).
  split; [rewrite HwsN; exact Hws1|].
  rewrite (runCalls_countAfter post _ dwN Hpost), countAfter_app.
  f_equal. exact Hrc1.
Qed.

(** The count a parked WriteTo returns once the stream is done,
    bytesWritten, is the number of bytes its sink has received, header
    included: on a fresh writer with a reliable sink registered at any
    moment, after any calls that return, as long as the total fits int64. *)
Theorem WriteTo_returns_delivered_count
  (f f' : File) (sheet : string) (maxBuf : Z) (dw0 d1 d2 dwN : DirectWriter)
  (pre post : list Call) (w0 w : W) :
  NewDirectWriter f sheet maxBuf = inl (f', dw0) ->
  runCalls pre dw0 = Some d1 ->
  attach w0 d1 = Some d2 ->
  runCalls post d2 = Some dwN ->
  len (buildHeader dwN ++ bodyOf (pre ++ post) dw0 0) <= maxInt ->
  out dwN = Some w ->
  WriteTo_wake dwN = (len (delivered w) - len (delivered w0), None).
Proof.
  intros Hnew Hpre Hatt Hpost Hmax Hw.
  destruct (streamed_Attached _ _ _ _ _ _ _ _ _ _ _ Hnew Hpre Hatt Hpost Hmax)
    as ((_ & w' & Hw' & Hcase) & _).
  rewrite Hw in Hw'. injection Hw' as <-.
  unfold WriteTo_wake. f_equal.
  destruct Hcase as [(Hb & Hd & _) | (sent & Hb & Hd & _)]; rewrite Hb, Hd.
  - lia.
  - rewrite !len_app. lia.
Qed.

Lemma trailer_ends (dw : DirectWriter) : exists l, trailer dw = l ++ B "</worksheet>".
Proof.
  unfold trailer. eexists. rewrite !app_assoc. reflexivity.
Qed.

(** When Close returns on a stream whose reliable sink was registered
    before, it has succeeded, the completion signal is raised, the buffer is
    empty, and the sink holds the header, every row fragment in call order
    and the trailer, and nothing else: its last bytes are the closing tag of
    the worksheet. *)
Theorem Close_delivers_everything
  (f f' : File) (sheet : string) (maxBuf : Z) (dw0 d1 d2 dR dwN : DirectWriter)
  (pre post : list Call) (w0 : W) (r : option error) :
  NewDirectWriter f sheet maxBuf = inl (f', dw0) ->
  runCalls pre dw0 = Some d1 ->
  attach w0 d1 = Some d2 ->
  runCalls post d2 = Some dR ->
  Close dR = Ret r dwN ->
  len (buildHeader dR ++ bodyOf (pre ++ post) dw0 0 ++ trailer dR) <= maxInt ->
  r = None /\ done dwN = true /\ buf dwN = []
  /\ exists w,
       out dwN = Some w
       /\ delivered w =
            delivered w0 ++ buildHeader dwN ++ bodyOf (pre ++ post) dw0 0 ++ trailer dw0
       /\ exists l, delivered w = l ++ B "</worksheet>".
Proof.
  intros Hnew Hpre Hatt Hpost Hclose Hmax.
  destruct (streamed_Attached _ _ _ _ _ _ _ _ _ _ _ Hnew Hpre Hatt Hpost)
    as (HattR & HwsR & _).
  { rewrite !len_app in *. pose proof (len_nonneg (trailer dR)). lia. }
  pose proof (Close_Attached dR _ _ HattR Hmax) as H.
  destruct (done dR).
  - rewrite H in Hclose. discriminate.
  - destruct H as (dw' & w' & Hc & _ & Hfacts & Hbuf & Hout & Hdel).
    rewrite Hc in Hclose. injection Hclose as <- <-.
    destruct Hfacts as (_ & Hws & _ & Hcols & Hdn & _).
    split; [reflexivity|]. split; [rewrite Hdn; reflexivity|]. split; [exact Hbuf|].
    exists w'. split; [exact Hout|].
    assert (Hd : delivered w' =
                 delivered w0 ++ buildHeader dw' ++ bodyOf (pre ++ post) dw0 0 ++ trailer dw0).
    { rewrite Hdel, (buildHeader_ext dR dw' (Hcols eq_refl) Hws).
      rewrite (trailer_ext dw0 dR HwsR). reflexivity. }
    split; [exact Hd|].
    destruct (trailer_ends dw0) as [l Hl]. rewrite Hd, Hl.
    eexists. rewrite !app_assoc. reflexivity.
Qed.


End ReliableSink.

(** *** WriteTo on a finished stream *)

(** A flush that returns either found no sink and changed nothing, or has a
    sink and, when it succeeded, emptied the buffer. *)
Lemma tryFlush_returns (dw d : DirectWriter) (r : option error) :
  tryFlush dw = Ret r d ->
  (out dw = None /\ r = None /\ d = dw)
  \/ (out d <> None /\ (r = None -> buf d = [])).
Proof.
  destruct (locked dw) eqn:Hl; [now rewrite tryFlush_locked|].
  rewrite tryFlush_eq by exact Hl.
  destruct (out dw) as [w|]; [|intros [= <- <-]; left; auto].
  intros H. right.
  destruct (bytesWritten dw =? 0).
  - destruct (Write w (buildHeader dw)) as [w1 [n [e|]]].
    + injection H as <- <-. split; discriminate.
    + destruct (Write w1 (buf dw)) as [w2 [n2 [e|]]]; injection H as <- <-;
        split; try discriminate; reflexivity.
  - destruct (Write w (buf dw)) as [w2 [n2 [e|]]]; injection H as <- <-;
      split; try discriminate; reflexivity.
Qed.





(** *** Further properties of the producer calls *)

Lemma tryFlush_error_keeps_buf (dw d : DirectWriter) (e : error) :
  tryFlush dw = Ret (Some e) d -> buf d = buf dw.
Proof.
  destruct (locked dw) eqn:Hl; [now rewrite tryFlush_locked|].
  rewrite tryFlush_eq by exact Hl.
  destruct (out dw) as [w|]; [|discriminate].
  destruct (bytesWritten dw =? 0).
  - destruct (Write w (buildHeader dw)) as [w1 [n [e1|]]]; [now intros [= _ <-]|].
    destruct (Write w1 (buf dw)) as [w2 [n2 [e2|]]]; [now intros [= _ <-]|discriminate].
  - destruct (Write w (buf dw)) as [w2 [n2 [e2|]]]; [now intros [= _ <-]|discriminate].
Qed.

(** The count AddRow returns is the length of the buffer it leaves, on
    every path on which it returns, and that buffer is one of two.  It is
    the old buffer followed by the row fragment whenever an error is
    returned (row options or a value rejected, flush refused), whenever no
    sink is registered, and whenever no flush is due (buffer within the
    threshold, or wait mode).  It is empty, and the count 0, when a flush
    was due, a sink is registered and no error is returned. *)
Theorem AddRow_returns_buffer_length
  (dw dw' : DirectWriter) (values : list Cell) (opts : list RowOpts)
  (n : Z) (e : option error) :
  AddRow dw values opts = Ret (n, e) dw' ->
  let row := rowBytes (wrapInt (rowCount dw + 1)) values opts in
  n = len (buf dw')
  /\ (e <> None -> buf dw' = buf dw ++ fst row)
  /\ (out dw = None -> buf dw' = buf dw ++ fst row /\ e = snd row)
  /\ (snd row <> None \/ len (buf dw ++ fst row) <= maxBufferSize dw \/ waitMode dw = true ->
      buf dw' = buf dw ++ fst row /\ e = snd row)
  /\ (snd row = None -> maxBufferSize dw < len (buf dw ++ fst row) -> waitMode dw = false ->
      out dw <> None -> e = None ->
      buf dw' = [] /\ n = 0).
Proof.
  intros Hadd row. unfold AddRow in Hadd. rewrite AddRow_encode_spec in Hadd.
  cbv zeta in Hadd. fold row in Hadd.
  set (dw1 := set_maxColLengths _ _) in Hadd.
  assert (Hbuf1 : buf dw1 = buf dw ++ fst row) by reflexivity.
  assert (Hout1 : out dw1 = out dw) by reflexivity.
  replace (maxBufferSize dw1) with (maxBufferSize dw) in Hadd by reflexivity.
  replace (waitMode dw1) with (waitMode dw) in Hadd by reflexivity.
  rewrite Hbuf1 in Hadd.
  destruct (snd row) as [err|] eqn:Herr.
  { injection Hadd as <- <- <-. rewrite Hbuf1.
    repeat split; auto; try discriminate. }
  destruct (maxBufferSize dw <? len (buf dw ++ fst row)) eqn:Hthr;
    [destruct (waitMode dw) eqn:Hwait|]; cbn [andb negb] in Hadd.
  - injection Hadd as <- <- <-. rewrite Hbuf1.
    repeat split; auto; try discriminate; try contradiction.
  - apply Z.ltb_lt in Hthr.
    destruct (tryFlush dw1) as [r d|d|d] eqn:Hf; try discriminate.
    injection Hadd as <- <- <-.
    split; [reflexivity|]. split; [|split; [|split]].
    + destruct r as [e1|]; [intros _|intros H; now contradiction H].
      rewrite (tryFlush_error_keeps_buf dw1 d e1 Hf). exact Hbuf1.
    + intros Ho.
      destruct (tryFlush_returns dw1 d r Hf) as [(_ & -> & ->) | (Hn & _)];
        [auto|].
      exfalso. destruct (locked dw1) eqn:Hl; [now rewrite tryFlush_locked in Hf|].
      rewrite tryFlush_eq in Hf by exact Hl. rewrite Hout1, Ho in Hf.
      injection Hf as _ <-. apply Hn. now rewrite Hout1.
    + intros [H | [H | H]]; [now contradiction H|lia|discriminate].
    + intros _ _ _ Ho ->.
      destruct (tryFlush_returns dw1 d None Hf) as [(Ho1 & _) | (_ & Hb)].
      * rewrite Hout1 in Ho1. contradiction.
      * rewrite (Hb eq_refl). auto.
  - apply Z.ltb_ge in Hthr. injection Hadd as <- <- <-. rewrite Hbuf1.
    repeat split; auto; try discriminate; try contradiction; lia.
Qed.

(** **** Column lengths *)

Lemma nth_setNth (l : list Z) :
  forall (i j : nat) (v : Z),
    (i < List.length l)%nat ->
    nth j (setNth i v l) 0 = if (j =? i)%nat then v else nth j l 0.
Proof.
  induction l as [|h t IH]; intros i j v Hi; [cbn in Hi; lia|].
  destruct i as [|i]; destruct j as [|j]; cbn [setNth nth Nat.eqb]; try reflexivity.
  apply IH. cbn in Hi. lia.
Qed.

Lemma nth_growMaxColLengths (l : list Z) (n j : nat) :
  nth j (growMaxColLengths l n) 0 = nth j l 0.
Proof.
  unfold growMaxColLengths. destruct (List.length l <? n)%nat; [|reflexivity].
  destruct (Nat.lt_ge_cases j (List.length l)) as [H|H].
  - now rewrite app_nth1.
  - rewrite app_nth2 by exact H. rewrite (nth_overflow l) by exact H.
    apply nth_repeat.
Qed.

Lemma length_growMaxColLengths (l : list Z) (n : nat) :
  List.length (growMaxColLengths l n) = Nat.max (List.length l) n.
Proof.
  unfold growMaxColLengths. destruct (List.length l <? n)%nat eqn:E.
  - apply Nat.ltb_lt in E. rewrite length_app, repeat_length. lia.
  - apply Nat.ltb_ge in E. lia.
Qed.

(** The cells of [values] that precede the first one the value encoder
    rejects, encoded. *)
Fixpoint encodedPrefix (values : list Cell) : list xlsxC :=
  match values with
  | [] => []
  | val :: rest =>
      match setCellValFunc (cellOf val) (Value val) with
      | inr _ => []
      | inl c => c :: encodedPrefix rest
      end
  end.

Definition valueLength (c : xlsxC) : Z := Z.of_nat (String.length (c_V c)).

Lemma cellsLens_length (values : list Cell) :
  forall (i : nat) (l : list Z), List.length (cellsLens i values l) = List.length l.
Proof.
  induction values as [|val rest IH]; intros i l; cbn [cellsLens]; [reflexivity|].
  destruct (setCellValFunc (cellOf val) (Value val)) as [c|err]; [|reflexivity].
  rewrite IH. destruct (nth i l 0 <? _); [apply setNth_length|reflexivity].
Qed.

Lemma encodedPrefix_length (values : list Cell) :
  (List.length (encodedPrefix values) <= List.length values)%nat.
Proof.
  induction values as [|val rest IH]; cbn [encodedPrefix List.length]; [lia|].
  destruct (setCellValFunc (cellOf val) (Value val)); cbn [List.length]; lia.
Qed.

Lemma cellsLens_nth (values : list Cell) :
  forall (i j : nat) (l : list Z),
    (i + List.length values <= List.length l)%nat ->
    nth j (cellsLens i values l) 0 =
      match (if (j <? i)%nat then None else nth_error (encodedPrefix values) (j - i)) with
      | Some c => Z.max (nth j l 0) (valueLength c)
      | None => nth j l 0
      end.
Proof.
  induction values as [|val rest IH]; intros i j l Hlen; cbn [cellsLens encodedPrefix].
  - destruct (j <? i)%nat; [reflexivity|]. now destruct (j - i)%nat.
  - cbn [List.length] in Hlen.
    destruct (setCellValFunc (cellOf val) (Value val)) as [c|err].
    + fold (valueLength c).
      set (l' := if nth i l 0 <? valueLength c then setNth i (valueLength c) l else l).
      assert (Hl' : List.length l' = List.length l).
      { subst l'. destruct (nth i l 0 <? valueLength c); [apply setNth_length|reflexivity]. }
      assert (Hnth : forall k, nth k l' 0 =
                if (k =? i)%nat then Z.max (nth i l 0) (valueLength c) else nth k l 0).
      { intros k. subst l'. destruct (nth i l 0 <? valueLength c) eqn:E.
        - rewrite nth_setNth by lia. destruct (k =? i)%nat; [|reflexivity].
          apply Z.ltb_lt in E. lia.
        - destruct (k =? i)%nat eqn:Ek; [|reflexivity].
          apply Nat.eqb_eq in Ek. subst k. apply Z.ltb_ge in E. lia. }
      rewrite IH by lia. rewrite Hnth.
      destruct (j <? i)%nat eqn:E1.
      * apply Nat.ltb_lt in E1.
        replace (j <? S i)%nat with true by (symmetry; apply Nat.ltb_lt; lia).
        replace (j =? i)%nat with false by (symmetry; apply Nat.eqb_neq; lia).
        reflexivity.
      * apply Nat.ltb_ge in E1. destruct (j =? i)%nat eqn:E2.
        -- apply Nat.eqb_eq in E2. subst j.
           replace (i <? S i)%nat with true by (symmetry; apply Nat.ltb_lt; lia).
           now rewrite Nat.sub_diag.
        -- apply Nat.eqb_neq in E2.
           replace (j <? S i)%nat with false by (symmetry; apply Nat.ltb_ge; lia).
           replace (j - i)%nat with (S (j - S i)) by lia. reflexivity.
    + destruct (j <? i)%nat; [reflexivity|]. now destruct (j - i)%nat.
Qed.

Lemma AddRow_maxColLengths_state
  (dw : DirectWriter) (values : list Cell) (opts : list RowOpts) :
  maxColLengths (stateOf (AddRow dw values opts)) = rowLens values opts (maxColLengths dw).
Proof.
  unfold AddRow. rewrite AddRow_encode_spec. cbv zeta.
  set (d := set_maxColLengths _ _).
  destruct (snd (rowBytes _ values opts)); [reflexivity|].
  destruct ((maxBufferSize d <? len (buf d)) && negb (waitMode d)); [|reflexivity].
  pose proof (tryFlush_frame d) as (_ & _ & _ & _ & _ & _ & Hm & _).
  destruct (tryFlush d); cbn [stateOf] in *; exact Hm.
Qed.

Lemma rowLens_attrsOk (values : list Cell) (opts : list RowOpts) (l : list Z) :
  attrsOk opts ->
  rowLens values opts l = cellsLens 0 values (growMaxColLengths l (List.length values)).
Proof.
  intros Hopts. unfold rowLens. destruct Hopts as [-> | [attrs Hattrs]]; [reflexivity|].
  destruct opts; [reflexivity|]. now rewrite Hattrs.
Qed.

Lemma cellsLens_grow_mono (values : list Cell) (l : list Z) :
  let l' := cellsLens 0 values (growMaxColLengths l (List.length values)) in
  (List.length l <= List.length l')%nat /\ forall j, nth j l 0 <= nth j l' 0.
Proof.
  intros l'. subst l'. split.
  - rewrite cellsLens_length, length_growMaxColLengths. lia.
  - intros j. rewrite cellsLens_nth by (rewrite length_growMaxColLengths; lia).
    rewrite nth_growMaxColLengths.
    destruct (if (j <? 0)%nat then None else nth_error (encodedPrefix values) (j - 0)); lia.
Qed.

(** MaxColumnLengths after AddRow, whether the call returns or blocks in
    its flush: with row options that marshal, the slice is as long as the
    longer of the old slice and the row, and each column holds the larger of
    its old value and the length of the value text encoded for it; columns
    from the first rejected value on, and columns beyond the row, keep their
    old value. *)
Theorem AddRow_tracks_column_lengths
  (dw : DirectWriter) (values : list Cell) (opts : list RowOpts) :
  attrsOk opts ->
  let dw' := stateOf (AddRow dw values opts) in
  List.length (MaxColumnLengths dw') =
    Nat.max (List.length (MaxColumnLengths dw)) (List.length values)
  /\ forall j : nat,
       nth j (MaxColumnLengths dw') 0 =
         match nth_error (encodedPrefix values) j with
         | Some c => Z.max (nth j (MaxColumnLengths dw) 0) (valueLength c)
         | None => nth j (MaxColumnLengths dw) 0
         end.
Proof.
  intros Hopts dw'. subst dw'. unfold MaxColumnLengths.
  rewrite AddRow_maxColLengths_state, (rowLens_attrsOk _ _ _ Hopts). split.
  - rewrite cellsLens_length. apply length_growMaxColLengths.
  - intros j. rewrite cellsLens_nth.
    + cbn [Nat.ltb Nat.leb]. rewrite Nat.sub_0_r. rewrite !nth_growMaxColLengths.
      reflexivity.
    + rewrite length_growMaxColLengths. lia.
Qed.

Lemma AddRow_maxColLengths_mono (dw : DirectWriter) (values : list Cell)
  (opts : list RowOpts) :
  let dw' := stateOf (AddRow dw values opts) in
  (List.length (maxColLengths dw) <= List.length (maxColLengths dw'))%nat
  /\ forall j, nth j (maxColLengths dw) 0 <= nth j (maxColLengths dw') 0.
Proof.
  intros dw'. subst dw'. rewrite AddRow_maxColLengths_state.
  destruct opts as [|o opts'].
  - rewrite (rowLens_attrsOk values [] _ (or_introl eq_refl)).
    apply cellsLens_grow_mono.
  - destruct (marshalRowAttrs (o :: opts')) as [attrs|err] eqn:Em.
    + rewrite (rowLens_attrsOk values (o :: opts') _ (or_intror (ex_intro _ attrs Em))).
      apply cellsLens_grow_mono.
    + unfold rowLens. rewrite Em. split; [lia|intros j; lia].
Qed.

(** The column lengths only grow: along any sequence of producer calls the
    slice never gets shorter and no column ever gets a smaller value. *)
Theorem MaxColumnLengths_never_decrease (cs : list Call) :
  forall dw dwN : DirectWriter,
    runCalls cs dw = Some dwN ->
    (List.length (MaxColumnLengths dw) <= List.length (MaxColumnLengths dwN))%nat
    /\ forall j, nth j (MaxColumnLengths dw) 0 <= nth j (MaxColumnLengths dwN) 0.
Proof.
  unfold MaxColumnLengths.
  induction cs as [|c cs IH]; intros dw dwN Hrun.
  - injection Hrun as <-. split; [lia|intros j; lia].
  - cbn [runCalls] in Hrun. destruct (call c dw) as [d|] eqn:Hc; [|discriminate].
    destruct (IH d dwN Hrun) as [Hl Hn].
    assert (Hstep : (List.length (maxColLengths dw) <= List.length (maxColLengths d))%nat
                    /\ forall j, nth j (maxColLengths dw) 0 <= nth j (maxColLengths d) 0).
    { destruct c as [min max width|b|values opts|]; cbn [call] in Hc.
      - injection Hc as <-.
        destruct (SetColWidth_cases dw min max width) as [H | [_ [s H]]]; rewrite H;
          cbn; split; try lia; intros j; lia.
      - injection Hc as <-. destruct (SetWait_cases dw b) as [b' ->].
        cbn. split; [lia|intros j; lia].
      - pose proof (AddRow_maxColLengths_mono dw values opts) as H. cbv zeta in H.
        destruct (AddRow dw values opts); try discriminate.
        injection Hc as <-. exact H.
      - rewrite Close_unfold in Hc.
        pose proof (tryFlush_frame (bufAppend dw (trailer dw)))
          as (_ & _ & _ & _ & _ & _ & Hm & _).
        destruct (tryFlush (bufAppend dw (trailer dw))) as [[e|] d1|d1|d1];
          try discriminate; cbn [stateOf] in Hm.
        + injection Hc as <-. rewrite Hm. cbn. split; [lia|intros j; lia].
        + cbv zeta in Hc. destruct (done (set_File d1 _)); [discriminate|].
          injection Hc as <-. cbn. rewrite Hm. cbn. split; [lia|intros j; lia]. }
    destruct Hstep as [Hl1 Hn1]. split; [lia|].
    intros j. specialize (Hn1 j). specialize (Hn j). lia.
Qed.

(** **** Column widths *)

(** SetColWidth does not care in which order the two column numbers come:
    swapping them gives the same result and the same writer, and an accepted
    call registers the directive with the smaller number as min. *)
Theorem SetColWidth_order_insensitive
  (dw : DirectWriter) (a b : Z) (width : float64) :
  SetColWidth dw a b width = SetColWidth dw b a width
  /\ (snd (SetColWidth dw a b width) = None ->
      fst (SetColWidth dw a b width) =
        set_cols dw (cols dw ++ colDirective (Z.min a b) (Z.max a b) width)%string).
Proof.
  unfold SetColWidth.
  destruct (0 <? bytesWritten dw); [split; [reflexivity|discriminate]|].
  rewrite (orb_comm (TotalColumns <? b)), (orb_comm (b <? 1)).
  destruct ((TotalColumns <? a) || (TotalColumns <? b)); [split; [reflexivity|discriminate]|].
  destruct ((a <? 1) || (b <? 1)); [split; [reflexivity|discriminate]|].
  destruct (gtMaxColumnWidth width); [split; [reflexivity|discriminate]|].
  destruct (b <? a) eqn:E1; destruct (a <? b) eqn:E2;
    try apply Z.ltb_lt in E1; try apply Z.ltb_lt in E2;
    try apply Z.ltb_ge in E1; try apply Z.ltb_ge in E2; cbn [fst snd].
  - lia.
  - rewrite Z.min_r, Z.max_l by lia. split; [reflexivity|reflexivity].
  - rewrite Z.min_l, Z.max_r by lia. split; [reflexivity|reflexivity].
  - assert (a = b) by lia. subst b. rewrite Z.min_id, Z.max_id.
    split; reflexivity.
Qed.

(** Before any byte has reached a sink, SetColWidth answers by its
    arguments alone: a column number outside 1..TotalColumns gives
    ErrColumnNumber, otherwise too large a width gives ErrColumnWidth,
    otherwise the call is accepted; and whenever it returns an error the
    writer is left exactly as it was. *)
Theorem SetColWidth_validation
  (dw : DirectWriter) (min max : Z) (width : float64) :
  (snd (SetColWidth dw min max width) <> None -> fst (SetColWidth dw min max width) = dw)
  /\ (bytesWritten dw <= 0 ->
      snd (SetColWidth dw min max width) =
        if negb ((1 <=? min) && (min <=? TotalColumns)
                 && (1 <=? max) && (max <=? TotalColumns))
        then Some ErrColumnNumber
        else if gtMaxColumnWidth width then Some ErrColumnWidth
        else None).
Proof.
  unfold SetColWidth. split.
  - destruct (0 <? bytesWritten dw); [reflexivity|].
    destruct ((TotalColumns <? min) || (TotalColumns <? max)); [reflexivity|].
    destruct ((min <? 1) || (max <? 1)); [reflexivity|].
    destruct (gtMaxColumnWidth width); [reflexivity|].
    destruct (max <? min); cbn [snd]; intros H; now contradiction H.
  - intros Hb. apply Z.ltb_ge in Hb. rewrite Hb.
    rewrite !Z.leb_antisym.
    destruct (TotalColumns <? min), (TotalColumns <? max), (min <? 1), (max <? 1);
      cbn [orb andb negb snd]; try reflexivity;
      destruct (gtMaxColumnWidth width); try reflexivity;
      destruct (max <? min); reflexivity.
Qed.

(** **** Close and WriteTo at the edges *)

(** A Close on a finished stream never succeeds: it panics on the closed
    channel, unless the flush before it blocks or returns an error. *)
Theorem Close_twice_never_succeeds (dw dw' : DirectWriter) (r : option error) :
  done dw = true -> Close dw = Ret r dw' -> r <> None.
Proof.
  intros Hd. rewrite Close_unfold.
  pose proof (tryFlush_frame (bufAppend dw (trailer dw)))
    as (_ & _ & _ & _ & _ & Hdn & _).
  destruct (tryFlush (bufAppend dw (trailer dw))) as [[e|] d|d|d];
    try discriminate; cbn [stateOf] in Hdn.
  - intros [= <- _]. discriminate.
  - cbv zeta. replace (done (set_File d _)) with true
      by (cbn [done set_File]; rewrite Hdn; symmetry; exact Hd).
    discriminate.
Qed.

(** While the mutex is held nothing that needs it gets through: Close
    blocks with the trailer appended and the completion signal not raised,
    an AddRow that decides to flush blocks after it has appended its row,
    and WriteTo on an unfinished stream does not register its sink. *)
Theorem held_mutex_blocks (dw : DirectWriter) :
  locked dw = true ->
  Close dw = Blocked (bufAppend dw (trailer dw))
  /\ (forall (values : list Cell) (opts : list RowOpts),
         let dw1 := fst (AddRow_encode dw values opts) in
         snd (AddRow_encode dw values opts) = None ->
         maxBufferSize dw < len (buf dw1) -> waitMode dw = false ->
         AddRow dw values opts = Blocked dw1)
  /\ (forall w : W, done dw = false -> WriteTo dw w = LockBlocked).
Proof.
  intros Hl. split; [|split].
  - rewrite Close_unfold. now rewrite tryFlush_locked.
  - intros values opts dw1 Herr Hmax Hwait. unfold AddRow. subst dw1.
    pose proof (AddRow_encode_spec dw values opts) as Hs. cbv zeta in Hs.
    destruct (AddRow_encode dw values opts) as [d [e|]]; [discriminate|].
    cbn [fst] in *. injection Hs as Hs _.
    assert (Hm : maxBufferSize d = maxBufferSize dw) by (rewrite Hs; reflexivity).
    assert (Hw : waitMode d = waitMode dw) by (rewrite Hs; reflexivity).
    assert (Hld : locked d = true) by (rewrite Hs; exact Hl).
    rewrite Hm, Hw, Hwait. apply Z.ltb_lt in Hmax. rewrite Hmax. cbn [andb negb].
    now rewrite (tryFlush_locked d Hld).
  - intros w Hd. unfold WriteTo. now rewrite Hd, Hl.
Qed.

(** A flush refused at the buffer write can be tried again: the refused
    flush keeps the buffer and releases the mutex, and the next flush, if
    the sink accepts it, delivers the buffer alone, the header having been
    delivered before, and empties it. *)
Theorem refused_flush_can_be_retried
  (dw : DirectWriter) (w w1 w2 : W) (n1 n2 : Z) (e : error) :
  locked dw = false -> out dw = Some w -> bytesWritten dw <> 0 ->
  Write w (buf dw) = (w1, (n1, Some e)) ->
  Write w1 (buf dw) = (w2, (n2, None)) ->
  exists d1 d2,
    tryFlush dw = Ret (Some e) d1
    /\ tryFlush d1 = Ret None d2
    /\ buf d2 = [] /\ out d2 = Some w2
    /\ bytesWritten d2 = wrapInt (bytesWritten dw + n2).
Proof.
  intros Hl Ho Hb Hw1 Hw2.
  rewrite (tryFlush_eq dw Hl), Ho.
  apply Z.eqb_neq in Hb. rewrite Hb, Hw1.
  eexists. eexists. split; [reflexivity|].
  rewrite tryFlush_eq by exact Hl. dw_norm. rewrite Hb, Hw2.
  repeat split; reflexivity.
Qed.

(** Nothing stops a second WriteTo on an unfinished stream: it replaces the
    registered sink, and when bytes were delivered before, the first sink
    keeps the header and the new one starts with the next flush, which
    carries the buffer only. *)
Theorem second_WriteTo_replaces_sink
  (dw : DirectWriter) (w w' : W) (n : Z) :
  done dw = false -> locked dw = false -> bytesWritten dw <> 0 ->
  Write w (buf dw) = (w', (n, None)) ->
  exists d1 d2,
    WriteTo dw w = Waiting d1
    /\ out d1 = Some w
    /\ tryFlush d1 = Ret None d2
    /\ out d2 = Some w' /\ buf d2 = [].
Proof.
  intros Hd Hl Hb Hw. unfold WriteTo. rewrite Hd, Hl.
  eexists. eexists. split; [reflexivity|]. split; [reflexivity|].
  rewrite tryFlush_eq by exact Hl. dw_norm.
  apply Z.eqb_neq in Hb. rewrite Hb, Hw.
  repeat split; reflexivity.
Qed.

(** **** Wait mode and late column widths *)

Definition isAddRow (c : Call) : bool :=
  match c with
  | CAddRow _ _ => true
  | _ => false
  end.

Lemma AddRow_waiting_frame (dw : DirectWriter) (values : list Cell) (opts : list RowOpts) :
  waitMode dw = true ->
  exists dw',
    call (CAddRow values opts) dw = Some dw'
    /\ waitMode dw' = true /\ bytesWritten dw' = bytesWritten dw
    /\ out dw' = out dw /\ locked dw' = locked dw /\ cols dw' = cols dw.
Proof.
  intros Hw. cbn [call]. rewrite (AddRow_waiting dw values opts Hw).
  eexists. split; [reflexivity|].
  rewrite AddRow_encode_spec. dw_norm. auto.
Qed.

(** In wait mode rows do not commit the header: after any number of rows,
    with or without a sink and whatever the threshold, every AddRow has
    returned, bytesWritten is unchanged and the sink untouched, so a column
    width can still be registered when nothing had been delivered. *)
Theorem wait_mode_keeps_widths_open (rows : list Call) :
  forallb isAddRow rows = true ->
  forall dw : DirectWriter,
    waitMode dw = true ->
    exists dw',
      runCalls rows dw = Some dw'
      /\ waitMode dw' = true /\ bytesWritten dw' = bytesWritten dw
      /\ out dw' = out dw
      /\ (forall (min max : Z) (width : float64),
             bytesWritten dw = 0 -> 1 <= min <= max -> max <= TotalColumns ->
             gtMaxColumnWidth width = false ->
             SetColWidth dw' min max width =
               (set_cols dw' (cols dw' ++ colDirective min max width)%string, None)).
Proof.
  induction rows as [|c rows IH]; intros Hrows dw Hw.
  - exists dw. split; [reflexivity|]. repeat split; try assumption.
    intros min max width Hb Hmm HT Hwd. unfold SetColWidth. rewrite Hb. cbn [Z.ltb Z.compare].
    replace (TotalColumns <? min) with false by (symmetry; apply Z.ltb_ge; lia).
    replace (TotalColumns <? max) with false by (symmetry; apply Z.ltb_ge; lia).
    replace (min <? 1) with false by (symmetry; apply Z.ltb_ge; lia).
    replace (max <? 1) with false by (symmetry; apply Z.ltb_ge; lia).
    cbn [orb]. rewrite Hwd.
    replace (max <? min) with false by (symmetry; apply Z.ltb_ge; lia).
    reflexivity.
  - cbn [forallb] in Hrows. apply andb_prop in Hrows as [Hc Hrows].
    destruct c as [| |values opts|]; try discriminate.
    destruct (AddRow_waiting_frame dw values opts Hw)
      as (d & Hcall & Hwd & Hbd & Hod & _).
    destruct (IH Hrows d Hwd) as (dw' & Hrun & Hw' & Hb' & Ho' & Hset).
    exists dw'. cbn [runCalls]. rewrite Hcall.
    split; [exact Hrun|]. split; [exact Hw'|].
    split; [congruence|]. split; [congruence|].
    intros min max width Hb. apply Hset. congruence.
Qed.

(** A Close that failed cannot be repeated safely: the refused Close keeps
    the trailer in the buffer and does not raise the completion signal, and
    a second Close appends the trailer again, so the sink that accepts it
    receives the closing tags of the worksheet twice. *)
Theorem Close_retry_repeats_trailer
  (dw : DirectWriter) (w w1 w2 : W) (n1 n2 : Z) (e : error) :
  locked dw = false -> done dw = false -> out dw = Some w -> bytesWritten dw <> 0 ->
  Write w (buf dw ++ trailer dw) = (w1, (n1, Some e)) ->
  Write w1 (buf dw ++ trailer dw ++ trailer dw) = (w2, (n2, None)) ->
  exists d1 d2,
    Close dw = Ret (Some e) d1
    /\ done d1 = false /\ buf d1 = buf dw ++ trailer dw
    /\ Close d1 = Ret None d2
    /\ done d2 = true /\ out d2 = Some w2 /\ buf d2 = [].
Proof.
  intros Hl Hd Ho Hb Hw1 Hw2.
  apply Z.eqb_neq in Hb.
  rewrite Close_unfold, tryFlush_eq by exact Hl.
  replace (out (bufAppend dw (trailer dw))) with (Some w) by (symmetry; exact Ho).
  replace (bytesWritten (bufAppend dw (trailer dw))) with (bytesWritten dw) by reflexivity.
  replace (buf (bufAppend dw (trailer dw))) with (buf dw ++ trailer dw) by reflexivity.
  rewrite Hb, Hw1.
  eexists. eexists. split; [reflexivity|].
  split; [exact Hd|]. split; [reflexivity|].
  set (d1 := set_out (bufAppend dw (trailer dw)) (Some w1)).
  assert (Ht : trailer d1 = trailer dw) by reflexivity.
  rewrite Close_unfold, tryFlush_eq by exact Hl.
  replace (out (bufAppend d1 (trailer d1))) with (Some w1) by reflexivity.
  replace (bytesWritten (bufAppend d1 (trailer d1))) with (bytesWritten dw) by reflexivity.
  replace (buf (bufAppend d1 (trailer d1))) with (buf dw ++ trailer dw ++ trailer dw)
    by (cbn [buf bufAppend set_buf set_out d1]; rewrite Ht, <- app_assoc; reflexivity).
  rewrite Hb, Hw2. cbv zeta.
  replace (done (set_File _ _)) with false by (symmetry; exact Hd).
  split; [reflexivity|]. split; [reflexivity|]. split; reflexivity.
Qed.

(** **** AddRow without a sink *)

(** Without a sink AddRow only buffers, whatever the threshold and the wait
    mode: it returns, its error is the error of the encoding and nothing
    else, the row fragment is appended to the buffer, which is never
    emptied, and bytesWritten does not move. *)
Theorem AddRow_without_sink_only_buffers
  (dw : DirectWriter) (values : list Cell) (opts : list RowOpts) :
  locked dw = false -> out dw = None ->
  let row := rowBytes (wrapInt (rowCount dw + 1)) values opts in
  exists dw',
    AddRow dw values opts = Ret (len (buf dw) + len (fst row), snd row) dw'
    /\ buf dw' = buf dw ++ fst row
    /\ bytesWritten dw' = bytesWritten dw /\ out dw' = None /\ locked dw' = false.
Proof.
  intros Hl Ho row. unfold AddRow. rewrite AddRow_encode_spec. cbv zeta. fold row.
  set (d := set_maxColLengths _ _).
  assert (Hlen : len (buf d) = len (buf dw) + len (fst row)) by apply len_app.
  assert (Hflush : tryFlush d = Ret None d).
  { rewrite tryFlush_eq by exact Hl.
    replace (out d) with (out dw) by reflexivity. now rewrite Ho. }
  destruct (snd row) as [e|].
  - exists d. rewrite Hlen. repeat split; auto.
  - destruct ((maxBufferSize d <? len (buf d)) && negb (waitMode d)).
    + rewrite Hflush. exists d. rewrite Hlen. repeat split; auto.
    + exists d. rewrite Hlen. repeat split; auto.
Qed.

End Stream.

(** ** The first revision of the writer ([direct.go])

    The first revision writes the prolog of the worksheet into the buffer
    when the writer is created and the [<cols>] block and the [<sheetData>]
    tag with the first row; it ends the stream with [Flush].  [appendCellNoRef]
    of that revision is [DirectGo.appendCellNoRef]. *)

Module DirectGoWriter.

Section Stream.

Context {env : Collaborators}.
Context {W : Type} {WW : Writer W}.

(** [setCellFormula] and [ErrStreamSetColWidth] are used by this revision
    and are not among the sources: they are parameters. *)
Variable setCellFormula : xlsxC -> string -> xlsxC.
Variable ErrStreamSetColWidth : error.

Record DirectWriter : Type := {
  locked : bool;
  dwFile : File;
  Sheet : string;
  SheetID : Z;
  sheetWritten : bool;
  cols : string;
  worksheet : xlsxWorksheet;
  sheetPath : string;
  maxBufferSize : Z;
  bytesWritten : Z;
  buf : list byte;
  out : option W;
  done : bool
}.

Definition set_locked (dw : DirectWriter) (v : bool) : DirectWriter :=
  {| locked := v; dwFile := dwFile dw; Sheet := Sheet dw; SheetID := SheetID dw;
     sheetWritten := sheetWritten dw; cols := cols dw; worksheet := worksheet dw;
     sheetPath := sheetPath dw; maxBufferSize := maxBufferSize dw;
     bytesWritten := bytesWritten dw; buf := buf dw; out := out dw; done := done dw |}.

Definition set_dwFile (dw : DirectWriter) (v : File) : DirectWriter :=
  {| locked := locked dw; dwFile := v; Sheet := Sheet dw; SheetID := SheetID dw;
     sheetWritten := sheetWritten dw; cols := cols dw; worksheet := worksheet dw;
     sheetPath := sheetPath dw; maxBufferSize := maxBufferSize dw;
     bytesWritten := bytesWritten dw; buf := buf dw; out := out dw; done := done dw |}.

Definition set_sheetWritten (dw : DirectWriter) (v : bool) : DirectWriter :=
  {| locked := locked dw; dwFile := dwFile dw; Sheet := Sheet dw;
     SheetID := SheetID dw; sheetWritten := v; cols := cols dw;
     worksheet := worksheet dw; sheetPath := sheetPath dw;
     maxBufferSize := maxBufferSize dw; bytesWritten := bytesWritten dw; buf := buf dw;
     out := out dw; done := done dw |}.

Definition set_cols (dw : DirectWriter) (v : string) : DirectWriter :=
  {| locked := locked dw; dwFile := dwFile dw; Sheet := Sheet dw;
     SheetID := SheetID dw; sheetWritten := sheetWritten dw; cols := v;
     worksheet := worksheet dw; sheetPath := sheetPath dw;
     maxBufferSize := maxBufferSize dw; bytesWritten := bytesWritten dw; buf := buf dw;
     out := out dw; done := done dw |}.

Definition set_bytesWritten (dw : DirectWriter) (v : Z) : DirectWriter :=
  {| locked := locked dw; dwFile := dwFile dw; Sheet := Sheet dw;
     SheetID := SheetID dw; sheetWritten := sheetWritten dw; cols := cols dw;
     worksheet := worksheet dw; sheetPath := sheetPath dw;
     maxBufferSize := maxBufferSize dw; bytesWritten := v; buf := buf dw;
     out := out dw; done := done dw |}.

Definition set_buf (dw : DirectWriter) (v : list byte) : DirectWriter :=
  {| locked := locked dw; dwFile := dwFile dw; Sheet := Sheet dw;
     SheetID := SheetID dw; sheetWritten := sheetWritten dw; cols := cols dw;
     worksheet := worksheet dw; sheetPath := sheetPath dw;
     maxBufferSize := maxBufferSize dw; bytesWritten := bytesWritten dw; buf := v;
     out := out dw; done := done dw |}.

Definition set_out (dw : DirectWriter) (v : option W) : DirectWriter :=
  {| locked := locked dw; dwFile := dwFile dw; Sheet := Sheet dw;
     SheetID := SheetID dw; sheetWritten := sheetWritten dw; cols := cols dw;
     worksheet := worksheet dw; sheetPath := sheetPath dw;
     maxBufferSize := maxBufferSize dw; bytesWritten := bytesWritten dw; buf := buf dw;
     out := v; done := done dw |}.

Definition set_done (dw : DirectWriter) (v : bool) : DirectWriter :=
  {| locked := locked dw; dwFile := dwFile dw; Sheet := Sheet dw;
     SheetID := SheetID dw; sheetWritten := sheetWritten dw; cols := cols dw;
     worksheet := worksheet dw; sheetPath := sheetPath dw;
     maxBufferSize := maxBufferSize dw; bytesWritten := bytesWritten dw; buf := buf dw;
     out := out dw; done := v |}.

Definition writeString (dw : DirectWriter) (s : string) : DirectWriter :=
  set_buf dw (buf dw ++ B s).

Definition WriteString (dw : DirectWriter) (s : string)
  : DirectWriter * (Z * option error) :=
  (set_buf dw (buf dw ++ B s), (Z.of_nat (String.length s), None)).

Definition DirectWriter_Write (dw : DirectWriter) (p : list byte)
  : DirectWriter * (Z * option error) :=
  (set_buf dw (buf dw ++ p), (len p, None)).

Definition NewDirectWriter (f : File) (sheet : string) (maxBufferSize : Z)
  : (File * DirectWriter) + error :=
  let sheetID := getSheetID f sheet in
  if sheetID =? -1 then
    inr (errors_New ("sheet " ++ sheet ++ " is not exist"))
  else
    match workSheetReader f sheet with
    | inr err => inr err
    | inl ws =>
        let path := sheetMapPath f sheet in
        let f := registerDirectWriter f sheetID in
        let dw := {| locked := false; dwFile := f; Sheet := sheet; SheetID := sheetID;
                     sheetWritten := false; cols := EmptyString; worksheet := ws;
                     sheetPath := path; maxBufferSize := maxBufferSize;
                     bytesWritten := 0; buf := []; out := None; done := false |} in
        let dw := writeString dw (XMLHeader ++ "<worksheet" ++ templateNamespaceIDMap) in
        let dw := set_buf dw (buf dw ++ bulkFields (worksheet dw) 2 5) in
        inl (f, dw)
    end.

Definition flush (dw : DirectWriter) : outcome (option error) DirectWriter :=
  if locked dw then Blocked dw else
  let dw := set_locked dw true in
  match out dw with
  | None => Ret None (set_locked dw false)
  | Some w =>
      let '(w1, (n, err)) := Write w (buf dw) in
      let dw := set_locked (set_out dw (Some w1)) false in
      match err with
      | Some e => Ret (Some e) dw
      | None =>
          let dw := set_bytesWritten dw (wrapInt (bytesWritten dw + n)) in
          Ret None (set_buf dw [])
      end
  end.

(** The loop over the cells of a row. *)
Fixpoint AddRow_cells (dw : DirectWriter) (values : list Cell)
  : DirectWriter * option error :=
  match values with
  | [] => (dw, None)
  | val :: rest =>
      let c := {| c_XMLSpace := noAttr; c_S := StyleID val; c_T := EmptyString;
                  c_F := None; c_V := EmptyString |} in
      let c := setCellFormula c (Formula val) in
      match setCellValFunc c (Value val) with
      | inr err => (writeString dw "</row>", Some err)
      | inl c =>
          let dw := set_buf dw (DirectGo.appendCellNoRef escape (buf dw) c) in
          AddRow_cells dw rest
      end
  end.

(** The first lines of [AddRow]: the first row opens the sheet data. *)
Definition openSheetData (dw : DirectWriter) : DirectWriter :=
  if negb (sheetWritten dw) then
    let dw :=
      if 0 <? Z.of_nat (String.length (cols dw))
      then writeString dw ("<cols>" ++ cols dw ++ "</cols>")
      else dw in
    let dw := writeString dw "<sheetData>" in
    set_sheetWritten dw true
  else dw.

(** In this revision [AddRow] returns the error alone, and drops the error
    of the flush it starts. *)
Definition AddRow (dw : DirectWriter) (values : list Cell) (opts : list RowOpts)
  : outcome (option error) DirectWriter :=
  let dw := openSheetData dw in
  match marshalRowAttrs opts with
  | inr err => Ret (Some err) dw
  | inl attrs =>
      let dw := set_buf dw (buf dw ++ B ("<row" ++ attrs ++ ">")) in
      match AddRow_cells dw values with
      | (dw, Some err) => Ret (Some err) dw
      | (dw, None) =>
          let dw := writeString dw "</row>" in
          if maxBufferSize dw <? len (buf dw) then
            match flush dw with
            | Ret _ dw => Ret None dw
            | Blocked dw => Blocked dw
            | Panicked dw => Panicked dw
            end
          else Ret None dw
      end
  end.

Definition SetColWidth (dw : DirectWriter) (min max : Z) (width : float64)
  : DirectWriter * option error :=
  if sheetWritten dw then (dw, Some ErrStreamSetColWidth)
  else if (TotalColumns <? min) || (TotalColumns <? max) then (dw, Some ErrColumnNumber)
  else if (min <? 1) || (max <? 1) then (dw, Some ErrColumnNumber)
  else if gtMaxColumnWidth width then (dw, Some ErrColumnWidth)
  else
    let '(min, max) := if max <? min then (max, min) else (min, max) in
    (set_cols dw
       (cols dw ++ "<col min=" ++ dq ++ Itoa min ++ dq ++ " max=" ++ dq ++ Itoa max ++ dq
          ++ " width=" ++ dq ++ fmt_f width ++ dq
          ++ " customWidth=" ++ dq ++ "1" ++ dq ++ "/>")%string, None).

(** What [Flush] appends after its flush. *)
Definition closing (dw : DirectWriter) : list byte :=
  (if sheetWritten dw then [] else B "<sheetData>")
    ++ B "</sheetData>" ++ bulkFields (worksheet dw) 8 15
    ++ bulkFields (worksheet dw) 17 38 ++ bulkFields (worksheet dw) 40 40
    ++ B "</worksheet>".

Definition Flush (dw : DirectWriter) : outcome (option error) DirectWriter :=
  match flush dw with
  | Ret (Some err) dw => Ret (Some err) dw
  | Ret None dw =>
      let dw :=
        if negb (sheetWritten dw)
        then set_sheetWritten (fst (WriteString dw "<sheetData>")) true
        else dw in
      let dw := fst (WriteString dw "</sheetData>") in
      let dw := set_buf dw (buf dw ++ bulkFields (worksheet dw) 8 15) in
      let dw := set_buf dw (buf dw ++ bulkFields (worksheet dw) 17 38) in
      let dw := set_buf dw (buf dw ++ bulkFields (worksheet dw) 40 40) in
      let dw := fst (WriteString dw "</worksheet>") in
      let dw := set_dwFile dw (deletePlaceholder (dwFile dw) (sheetPath dw)) in
      if done dw then Panicked dw else Ret None (set_done dw true)
  | Blocked dw => Blocked dw
  | Panicked dw => Panicked dw
  end.

(** [WriteTo] registers the sink and waits for the completion signal: it
    returns at once when the signal is already raised. *)
Inductive WriteToResult : Type :=
| Returned (n : Z) (err : option error) (dw : DirectWriter)
| Waiting (dw : DirectWriter)
| LockBlocked.

Definition WriteTo (dw : DirectWriter) (w : W) : WriteToResult :=
  if locked dw then LockBlocked
  else
    let dw := set_out dw (Some w) in
    if done dw then Returned (bytesWritten dw) None dw else Waiting dw.

(** *** Properties of the first revision *)

Definition stateOf {A : Type} (o : outcome A DirectWriter) : DirectWriter :=
  match o with
  | Ret _ dw => dw
  | Blocked dw => dw
  | Panicked dw => dw
  end.

Lemma AddRow_cells_frame (values : list Cell) :
  forall dw : DirectWriter,
    let d := fst (AddRow_cells dw values) in
    locked d = locked dw /\ out d = out dw /\ sheetWritten d = sheetWritten dw
    /\ maxBufferSize d = maxBufferSize dw.
Proof.
  induction values as [|val rest IH]; intros dw; cbn [AddRow_cells].
  - cbn. auto.
  - destruct (setCellValFunc _ (Value val)) as [c|err].
    + destruct (IH (set_buf dw (DirectGo.appendCellNoRef escape (buf dw) c)))
        as (H1 & H2 & H3 & H4).
      cbv zeta in *. rewrite H1, H2, H3, H4. cbn. auto.
    + cbn. auto.
Qed.

Lemma flush_sheetWritten (dw : DirectWriter) :
  sheetWritten (stateOf (flush dw)) = sheetWritten dw.
Proof.
  unfold flush. destruct (locked dw); [reflexivity|].
  replace (out (set_locked dw true)) with (out dw) by reflexivity.
  destruct (out dw) as [w|]; [|reflexivity].
  destruct (Write w _) as [w1 [n [e|]]]; reflexivity.
Qed.

Lemma openSheetData_sheetWritten (dw : DirectWriter) :
  sheetWritten (openSheetData dw) = true.
Proof.
  unfold openSheetData. destruct (sheetWritten dw) eqn:E; cbn [negb]; [exact E|].
  reflexivity.
Qed.

(** Once AddRow has been called, whatever it returned, even the error of
    rejected row options, and even if its flush blocks, SetColWidth is
    refused with ErrStreamSetColWidth and changes nothing. *)
Theorem SetColWidth_refused_after_AddRow
  (dw : DirectWriter) (values : list Cell) (opts : list RowOpts)
  (min max : Z) (width : float64) :
  let dw' := stateOf (AddRow dw values opts) in
  SetColWidth dw' min max width = (dw', Some ErrStreamSetColWidth).
Proof.
  intros dw'.
  assert (H : sheetWritten dw' = true).
  { subst dw'. unfold AddRow.
    pose proof (openSheetData_sheetWritten dw) as H0.
    destruct (marshalRowAttrs opts) as [attrs|err]; [|exact H0].
    set (d0 := set_buf (openSheetData dw) _).
    pose proof (AddRow_cells_frame values d0) as (_ & _ & H1 & _). cbv zeta in H1.
    destruct (AddRow_cells d0 values) as [d [err|]]; cbn [fst] in H1.
    - cbn [stateOf]. rewrite H1. exact H0.
    - set (d1 := writeString d "</row>").
      assert (H2 : sheetWritten d1 = true) by (cbn; rewrite H1; exact H0).
      destruct (maxBufferSize d1 <? len (buf d1)); [|exact H2].
      pose proof (flush_sheetWritten d1) as H3.
      destruct (flush d1); cbn [stateOf] in *; rewrite H3; exact H2. }
  unfold SetColWidth. now rewrite H.
Qed.

(** AddRow drops the error of its flush: when the row encodes, the buffer
    exceeds the threshold and the sink refuses the write, AddRow returns no
    error; the buffer is kept. *)
Theorem AddRow_drops_flush_error
  (dw d : DirectWriter) (values : list Cell) (opts : list RowOpts)
  (attrs : string) (w w' : W) (n : Z) (e : error) :
  locked dw = false -> out dw = Some w ->
  marshalRowAttrs opts = inl attrs ->
  AddRow_cells (set_buf (openSheetData dw) (buf (openSheetData dw) ++ B ("<row" ++ attrs ++ ">")))
    values = (d, None) ->
  maxBufferSize dw < len (buf d ++ B "</row>") ->
  Write w (buf d ++ B "</row>") = (w', (n, Some e)) ->
  exists dw',
    AddRow dw values opts = Ret None dw'
    /\ buf dw' = buf d ++ B "</row>" /\ out dw' = Some w'
    /\ bytesWritten dw' = bytesWritten d.
Proof.
  intros Hl Ho Hattrs Hcells Hmax Hw. unfold AddRow. rewrite Hattrs.
  set (d0 := set_buf (openSheetData dw) _) in *.
  pose proof (AddRow_cells_frame values d0) as (H1 & H2 & _ & H4). cbv zeta in *.
  rewrite Hcells in *. cbn [fst] in *.
  assert (Hl0 : locked d0 = false).
  { subst d0. unfold openSheetData. destruct (negb (sheetWritten dw)); [|exact Hl].
    destruct (0 <? _); exact Hl. }
  assert (Ho0 : out d0 = Some w).
  { subst d0. unfold openSheetData. destruct (negb (sheetWritten dw)); [|exact Ho].
    destruct (0 <? _); exact Ho. }
  assert (Hm0 : maxBufferSize d0 = maxBufferSize dw).
  { subst d0. unfold openSheetData. destruct (negb (sheetWritten dw)); [|reflexivity].
    destruct (0 <? _); reflexivity. }
  set (d1 := writeString d "</row>").
  replace (maxBufferSize d1) with (maxBufferSize dw) by (cbn; congruence).
  replace (buf d1) with (buf d ++ B "</row>") by reflexivity.
  apply Z.ltb_lt in Hmax. rewrite Hmax.
  unfold flush. replace (locked d1) with false by (cbn; congruence).
  replace (out (set_locked d1 true)) with (Some w) by (cbn; congruence).
  replace (buf (set_locked d1 true)) with (buf d ++ B "</row>") by reflexivity.
  rewrite Hw. eexists. split; [reflexivity|]. cbn. auto.
Qed.

Lemma closing_ends (dw : DirectWriter) : exists l, closing dw = l ++ B "</worksheet>".
Proof. unfold closing. eexists. rewrite !app_assoc. reflexivity. Qed.

(** [Flush] with its appends gathered. *)
Lemma Flush_unfold (dw : DirectWriter) :
  Flush dw =
    match flush dw with
    | Ret (Some err) d => Ret (Some err) d
    | Ret None d =>
        let d' :=
          set_dwFile (set_sheetWritten (set_buf d (buf d ++ closing d)) true)
            (deletePlaceholder (dwFile d) (sheetPath d)) in
        if done d then Panicked d' else Ret None (set_done d' true)
    | Blocked d => Blocked d
    | Panicked d => Panicked d
    end.
Proof.
  unfold Flush, closing.
  destruct (flush dw) as [[e|] d|d|d]; try reflexivity.
  destruct d as [lk fl sh sid sw cl ws sp mx bw bf ot dn].
  destruct sw; cbn; repeat rewrite <- app_assoc; reflexivity.
Qed.

(** Flush flushes first and appends the closing elements afterwards: with
    a sink registered that accepts the write, the sink has received the
    buffer as it was before Flush, while the closing tags of the sheet data
    and of the worksheet are left in the buffer when the completion signal is
    raised, and are not counted in bytesWritten. *)
Theorem Flush_leaves_closing_tags_in_buffer
  (dw : DirectWriter) (w w' : W) (n : Z) :
  locked dw = false -> out dw = Some w -> done dw = false ->
  Write w (buf dw) = (w', (n, None)) ->
  exists dw',
    Flush dw = Ret None dw'
    /\ done dw' = true
    /\ out dw' = Some w'
    /\ buf dw' = closing dw
    /\ (exists l, buf dw' = l ++ B "</worksheet>")
    /\ bytesWritten dw' = wrapInt (bytesWritten dw + n).
Proof.
  intros Hl Ho Hd Hw. rewrite Flush_unfold. unfold flush. rewrite Hl.
  replace (out (set_locked dw true)) with (Some w) by (cbn; congruence).
  replace (buf (set_locked dw true)) with (buf dw) by reflexivity.
  rewrite Hw. cbv zeta.
  set (d := set_buf _ []).
  replace (done d) with false by (cbn; congruence).
  eexists. split; [reflexivity|].
  assert (Hc : closing d = closing dw) by reflexivity.
  cbn [done set_done out buf bytesWritten set_dwFile set_sheetWritten set_buf].
  subst d. cbn [buf set_buf app]. rewrite Hc.
  split; [reflexivity|]. split; [reflexivity|]. split; [reflexivity|].
  split; [apply closing_ends|reflexivity].
Qed.

(** A sink handed to WriteTo after Flush receives nothing: without a sink,
    Flush keeps the whole document in the buffer and raises the completion
    signal, and WriteTo then stores the sink untouched and returns the count
    Flush left, never writing the buffer. *)
Theorem WriteTo_after_Flush_writes_nothing (dw : DirectWriter) (w : W) :
  locked dw = false -> out dw = None -> done dw = false ->
  exists dw',
    Flush dw = Ret None dw'
    /\ buf dw' = buf dw ++ closing dw
    /\ bytesWritten dw' = bytesWritten dw
    /\ WriteTo dw' w = Returned (bytesWritten dw) None (set_out dw' (Some w)).
Proof.
  intros Hl Ho Hd. rewrite Flush_unfold. unfold flush. rewrite Hl.
  replace (out (set_locked dw true)) with (@None W) by (cbn; congruence).
  cbv zeta.
  set (d := set_locked (set_locked dw true) false).
  replace (done d) with false by (cbn; congruence).
  eexists. split; [reflexivity|].
  assert (Hc : closing d = closing dw) by reflexivity.
  split.
  { cbn [buf set_done set_dwFile set_sheetWritten set_buf]. rewrite Hc. reflexivity. }
  split; [reflexivity|].
  unfold WriteTo. cbn [locked done bytesWritten set_done set_dwFile set_sheetWritten
                       set_buf set_out]. subst d. reflexivity.
Qed.

Lemma flush_set_cols (dw : DirectWriter) (c : string) :
  flush (set_cols dw c) =
    match flush dw with
    | Ret r d => Ret r (set_cols d c)
    | Blocked d => Blocked (set_cols d c)
    | Panicked d => Panicked (set_cols d c)
    end.
Proof.
  unfold flush.
  replace (locked (set_cols dw c)) with (locked dw) by reflexivity.
  destruct (locked dw); [reflexivity|].
  replace (out (set_locked (set_cols dw c) true)) with (out dw) by reflexivity.
  replace (out (set_locked dw true)) with (out dw) by reflexivity.
  destruct (out dw) as [w|]; [|reflexivity].
  replace (buf (set_locked (set_cols dw c) true)) with (buf dw) by reflexivity.
  replace (buf (set_locked dw true)) with (buf dw) by reflexivity.
  destruct (Write w (buf dw)) as [w1 [n [e|]]]; reflexivity.
Qed.

(** Column widths registered on a writer that gets no row are lost: only
    AddRow writes the cols element, so Flush after an accepted SetColWidth
    leaves the same bytes in the buffer and hands the same bytes to the sink
    as Flush without it. *)
Theorem Flush_without_rows_drops_widths
  (dw dw1 : DirectWriter) (min max : Z) (width : float64) :
  sheetWritten dw = false ->
  SetColWidth dw min max width = (dw1, None) ->
  cols dw1 <> cols dw
  /\ buf (stateOf (Flush dw1)) = buf (stateOf (Flush dw))
  /\ out (stateOf (Flush dw1)) = out (stateOf (Flush dw)).
Proof.
  intros Hs Hset. unfold SetColWidth in Hset. rewrite Hs in Hset.
  destruct ((TotalColumns <? min) || (TotalColumns <? max)); [discriminate|].
  destruct ((min <? 1) || (max <? 1)); [discriminate|].
  destruct (gtMaxColumnWidth width); [discriminate|].
  destruct (if max <? min then (max, min) else (min, max)) as [lo hi].
  injection Hset as <-.
  split.
  - cbn [cols set_cols]. intros H.
    apply (f_equal String.length) in H. rewrite !String_length_app in H.
    cbn [String.length] in H. lia.
  - rewrite !Flush_unfold, flush_set_cols.
    destruct (flush dw) as [[e|] d|d|d]; cbn [stateOf]; try (split; reflexivity).
    cbv zeta. replace (done (set_cols d _)) with (done d) by reflexivity.
    destruct (done d); cbn [stateOf]; split; reflexivity.
Qed.

End Stream.

End DirectGoWriter.

(** ** A concrete workbook, for running the encoder

    Stand-ins for the collaborators, small enough to evaluate: text is
    escaped as itself, a cell value is a string, an integer or a value the
    encoder rejects, a row option is a height that must not be negative, a
    worksheet has no extra fields, widths are whole numbers, a workbook is
    the list of its sheet names. *)

Module Fixture.

Inductive value : Type :=
| VString (s : string)
| VInt (i : Z)
| VUnsupported.

Definition encodeValue (c : xlsxC) (v : value) : xlsxC + error :=
  match v with
  | VString s =>
      inl {| c_XMLSpace := c_XMLSpace c; c_S := c_S c; c_T := "str";
             c_F := c_F c; c_V := s |}
  | VInt i =>
      inl {| c_XMLSpace := c_XMLSpace c; c_S := c_S c; c_T := c_T c;
             c_F := c_F c; c_V := Itoa i |}
  | VUnsupported => inr (errors_New "unsupported value")
  end.

Definition marshalHeights (opts : list Z) : string + error :=
  match opts with
  | [] => inl EmptyString
  | h :: _ =>
      if h <? 0 then inr (errors_New "invalid row height")
      else inl (" ht=" ++ dq ++ Itoa h ++ dq ++ " customHeight=" ++ dq ++ "1" ++ dq)%string
  end.

Fixpoint sheetIndex (f : list string) (sheet : string) (i : Z) : Z :=
  match f with
  | [] => -1
  | s :: f => if String.eqb s sheet then i else sheetIndex f sheet (i + 1)
  end.

Definition addSheet (f : list string) (sheet : string) : list string :=
  if sheetIndex f sheet 1 =? -1 then f ++ [sheet] else f.

#[export] Instance workbook : Collaborators := {|
  escape := fun s _ => B s;
  CellValue := value;
  setCellValFunc := encodeValue;
  RowOpts := Z;
  marshalRowAttrs := marshalHeights;
  xlsxWorksheet := unit;
  bulkFields := fun _ _ _ => [];
  XMLHeader := ("<?xml version=" ++ dq ++ "1.0" ++ dq ++ "?>")%string;
  templateNamespaceIDMap := (" xmlns=" ++ dq ++ "main" ++ dq ++ ">")%string;
  TotalColumns := 16384;
  float64 := Z;
  gtMaxColumnWidth := fun w => 255 <? w;
  fmt_f := fun w => (Itoa w ++ ".000000")%string;
  File := list string;
  NewSheet := addSheet;
  getSheetID := fun f sheet => sheetIndex f sheet 1;
  workSheetReader := fun _ _ => inl tt;
  sheetMapPath := fun _ sheet => ("xl/worksheets/" ++ sheet ++ ".xml")%string;
  registerDirectWriter := fun f _ => f;
  deletePlaceholder := fun f _ => f
|}.

(** A sink that refuses every write. *)
Inductive brokenPipe : Type := BrokenPipe.

Definition errPipe : error := errors_New "broken pipe".

#[export] Instance brokenPipe_Writer : Writer brokenPipe :=
  fun w _ => (w, (0, Some errPipe)).

Lemma bytesBuffer_reliable : reliable (W := bytesBuffer) (fun w => w).
Proof. intros w p. exists (w ++ p). split; reflexivity. Qed.

(** A fresh writer on sheet [Sheet1] with a threshold of [maxBuf] bytes. *)
Definition fresh (W : Type) (maxBuf : Z) : DirectWriter (W := W) :=
  {| locked := false; dwFile := ["Sheet1"%string]; Sheet := "Sheet1"; SheetID := 1;
     cols := EmptyString; worksheet := tt;
     sheetPath := "xl/worksheets/Sheet1.xml";
     maxBufferSize := maxBuf; bytesWritten := 0; buf := []; out := None;
     done := false; rowCount := 0; maxColLengths := []; waitMode := false |}.

Lemma fresh_is_new (W : Type) (maxBuf : Z) :
  NewDirectWriter [] "Sheet1" maxBuf = inl (["Sheet1"%string], fresh W maxBuf).
Proof. reflexivity. Qed.

Definition cell (v : value) : Cell := {| StyleID := 0; Formula := EmptyString; Value := v |}.

End Fixture.

(** ** The two revisions of the cell encoder *)

Lemma B_cons_not_nil (s : string) (l : list byte) :
  nonempty s = true -> B s ++ l <> [].
Proof. destruct s; [discriminate|]. intros _. unfold B. cbn. discriminate. Qed.

(** The current revision writes its attributes and children in the order
    xml:space, s, t, f, v, each exactly when its field is set. *)
Lemma appendCellNoRef_attributes (escape : string -> bool -> list byte)
  (dst : list byte) (c : xlsxC) :
  appendCellNoRef escape dst c =
    dst ++ B "<c" ++ spaceAttr c ++ styleAttr c ++ typeAttr c ++ B ">"
      ++ formulaChild escape c ++ valueChild escape c ++ B "</c>"
  /\ (spaceAttr c = [] <-> xml.Value (c_XMLSpace c) = EmptyString)
  /\ (styleAttr c = [] <-> c_S c = 0)
  /\ (typeAttr c = [] <-> c_T c = EmptyString)
  /\ (formulaChild escape c = [] <-> c_F c = None)
  /\ (valueChild escape c = [] <-> c_V c = EmptyString).
Proof.
  split; [apply appendCellNoRef_cellBytes|].
  unfold spaceAttr, styleAttr, typeAttr, formulaChild, valueChild.
  repeat split; intros H.
  - destruct (xml.Value (c_XMLSpace c)); [reflexivity|].
    exfalso. revert H. now apply B_cons_not_nil.
  - now rewrite H.
  - destruct (c_S c =? 0) eqn:E; [now apply Z.eqb_eq|].
    exfalso. revert H. now apply B_cons_not_nil.
  - now rewrite H.
  - destruct (c_T c); [reflexivity|].
    exfalso. revert H. now apply B_cons_not_nil.
  - now rewrite H.
  - destruct (c_F c); [|reflexivity].
    exfalso. revert H. now apply B_cons_not_nil.
  - now rewrite H.
  - destruct (c_V c); [reflexivity|].
    exfalso. revert H. now apply B_cons_not_nil.
  - now rewrite H.
Qed.

(** The pieces in which the first revision differs. *)
Definition spaceAttr1 (c : xlsxC) : list byte :=
  if nonempty (xml.Value (c_XMLSpace c)) then
    B " xml:" ++ [Q] ++ B (xml.Local (xml.Name (c_XMLSpace c))) ++ B "=" ++ [Q]
      ++ B (xml.Value (c_XMLSpace c)) ++ [Q]
  else [].

Definition styleAttr1 (c : xlsxC) : list byte :=
  if 1 <? c_S c then B " s=" ++ [Q] ++ B (Itoa (c_S c)) ++ [Q] else [].

Lemma DirectGo_appendCellNoRef_pieces (escape : string -> bool -> list byte)
  (dst : list byte) (c : xlsxC) :
  DirectGo.appendCellNoRef escape dst c =
    dst ++ B "<c" ++ spaceAttr1 c ++ styleAttr1 c ++ typeAttr c ++ B ">"
      ++ formulaChild escape c ++ valueChild escape c ++ B "</c>".
Proof.
  unfold DirectGo.appendCellNoRef, spaceAttr1, styleAttr1, typeAttr,
    formulaChild, valueChild, appendEscapedString, AppendInt.
  destruct (nonempty (xml.Value (c_XMLSpace c))), (1 <? c_S c), (nonempty (c_T c)),
    (c_F c), (nonempty (c_V c));
    repeat rewrite <- app_assoc; cbn [app]; reflexivity.
Qed.

Lemma nonempty_false (s : string) : nonempty s = false <-> s = EmptyString.
Proof. destruct s; cbn; split; congruence. Qed.

(** The two revisions of the cell encoder produce the same bytes exactly
    for the cells that carry no xml:space attribute and whose style number
    is 0 or above 1: the first revision misplaces a quote in every xml:space
    attribute and leaves out the style attribute for style 1 and for negative
    numbers. *)
Theorem revisions_agree_iff (escape : string -> bool -> list byte)
  (dst : list byte) (c : xlsxC) :
  DirectGo.appendCellNoRef escape dst c = appendCellNoRef escape dst c
  <-> xml.Value (c_XMLSpace c) = EmptyString /\ (c_S c = 0 \/ 1 < c_S c).
Proof.
  rewrite DirectGo_appendCellNoRef_pieces, appendCellNoRef_cellBytes.
  unfold cellBytes, spaceAttr1, spaceAttr, styleAttr1, styleAttr.
  rewrite <- nonempty_false.
  split.
  - intros Heq. apply (f_equal (@List.length byte)) in Heq. revert Heq.
    destruct (nonempty (xml.Value (c_XMLSpace c)));
      destruct (Z.ltb_spec 1 (c_S c)); destruct (Z.eqb_spec (c_S c) 0);
      rewrite ?length_app; cbn [List.length B app]; rewrite ?length_app;
      cbn [List.length]; intros Heq; try lia; split; auto; lia.
  - intros [Hx [H0 | H1]]; rewrite Hx.
    + rewrite H0. reflexivity.
    + replace (1 <? c_S c) with true by (symmetry; apply Z.ltb_lt; lia).
      replace (c_S c =? 0) with false by (symmetry; apply Z.eqb_neq; lia).
      reflexivity.
Qed.

(** A string cell with style 1, as the benchmark of the package builds it. *)
Definition styledFoo : xlsxC :=
  {| c_XMLSpace := noAttr; c_S := 1; c_T := "str"%string; c_F := None;
     c_V := "foo"%string |}.

(** A string cell whose text ends in a space, as the test of the package
    builds it. *)
Definition spacedBar : xlsxC :=
  {| c_XMLSpace := {| xml.Name := {| xml.Space := EmptyString; xml.Local := "space"%string |};
                      xml.Value := "preserve"%string |};
     c_S := 0; c_T := "str"%string; c_F := None; c_V := "bar "%string |}.

(** C6. The first revision of appendCellNoRef drops the style attribute of a
    cell whose style is 1 and puts a quote after xml: in the whitespace
    attribute; the current revision writes both attributes. *)
Theorem first_revision_drops_style_one (escape : string -> bool -> list byte) :
  DirectGo.appendCellNoRef escape [] styledFoo =
    B "<c t=" ++ [Q] ++ B "str" ++ [Q] ++ B "><v>" ++ escape "foo"%string true ++ B "</v></c>"
  /\ appendCellNoRef escape [] styledFoo =
       B "<c s=" ++ [Q] ++ B "1" ++ [Q] ++ B " t=" ++ [Q] ++ B "str" ++ [Q]
         ++ B "><v>" ++ escape "foo"%string true ++ B "</v></c>"
  /\ DirectGo.appendCellNoRef escape [] spacedBar =
       B "<c xml:" ++ [Q] ++ B "space=" ++ [Q] ++ B "preserve" ++ [Q]
         ++ B " t=" ++ [Q] ++ B "str" ++ [Q]
         ++ B "><v>" ++ escape "bar "%string true ++ B "</v></c>"
  /\ appendCellNoRef escape [] spacedBar =
       B "<c xml:space=" ++ [Q] ++ B "preserve" ++ [Q]
         ++ B " t=" ++ [Q] ++ B "str" ++ [Q]
         ++ B "><v>" ++ escape "bar "%string true ++ B "</v></c>".
Proof.
  unfold DirectGo.appendCellNoRef, appendCellNoRef, appendEscapedString, AppendInt,
    styledFoo, spacedBar.
  cbn [c_XMLSpace c_S c_T c_F c_V xml.Value xml.Name xml.Local noAttr nonempty
       Z.eqb Z.ltb Z.compare Pos.compare Pos.compare_cont negb].
  repeat split; repeat rewrite <- app_assoc; reflexivity.
Qed.

(** ** The theorems at work on the concrete workbook *)

Section Scenarios.

Import Fixture.

(** The state a sequence of calls leaves, the fresh writer if one of them
    does not return. *)
Definition after {W : Type} {WW : Writer W} (o : option (DirectWriter (W := W)))
  : DirectWriter (W := W) :=
  match o with
  | Some dw => dw
  | None => fresh W 0
  end.

Definition fooRow : Call := CAddRow [cell (VString "foo")] [].
Definition twelveRow : Call := CAddRow [cell (VInt 12)] [].

(** Two rows, the sink arriving between them. *)
Definition twoRows : list (Event (W := bytesBuffer)) :=
  [EvCall fooRow; EvWriteTo []; EvCall twelveRow].

Lemma maxInt_value : maxInt = 9223372036854775807.
Proof. reflexivity. Qed.

Lemma rows_numbered_in_call_order_witness :
  exists b a rest,
    nth_error (rowEmissions twoRows (fresh bytesBuffer 8)) 1 = Some (b, 2, a)
    /\ a = b ++ B "<row r=" ++ [Q] ++ B (Itoa 2) ++ [Q] ++ rest.
Proof.
  set (x := nth 1 (rowEmissions twoRows (fresh bytesBuffer 8)) ([], 0, [])).
  assert (E : nth_error (rowEmissions twoRows (fresh bytesBuffer 8)) 1 =
              Some (fst (fst x), snd (fst x), snd x)) by (vm_compute; reflexivity).
  assert (Hmax : Z.of_nat 2 <= maxInt) by (rewrite maxInt_value; lia).
  pose proof (proj1 (rows_numbered_in_call_order (env := workbook)
                       ([] : list string) ["Sheet1"%string] "Sheet1" 8
                       (fresh bytesBuffer 8) twoRows (fresh_is_new bytesBuffer 8))) as H.
  specialize (H 1%nat _ _ _ E Hmax). destruct H as [Hn [rest Hrest]].
  exists (fst (fst x)), (snd x), rest. split; [|exact Hrest].
  rewrite E. rewrite Hn. reflexivity.
Defined.

(** A column width, wait mode switched off, two rows, Close. *)
Definition widths : list Call := [CSetColWidth 1 2 20].
Definition noWait : list Call := [CSetWait false].
Definition rowsFooTwelve : list Call := [fooRow; twelveRow].

Lemma replay_equals_streaming_witness :
  exists (d1 d2 dA : DirectWriter (W := bytesBuffer)) (wA : bytesBuffer)
         (dB : DirectWriter (W := bytesBuffer)) (wB : bytesBuffer) (n : Z),
    runCalls widths (fresh bytesBuffer 8) = Some d1
    /\ attach [] d1 = Some d2
    /\ runCalls (noWait ++ rowsFooTwelve ++ [CClose]) d2 = Some dA
    /\ out dA = Some wA
    /\ runCalls (widths ++ noWait ++ rowsFooTwelve ++ [CClose]) (fresh bytesBuffer 8) = Some dB
    /\ WriteTo dB [] = Replayed n None wB
    /\ wA = wB.
Proof.
  apply (replay_equals_streaming (env := workbook) (fun w : bytesBuffer => w)
           bytesBuffer_reliable ([] : list string) ["Sheet1"%string] "Sheet1" 8
           (fresh bytesBuffer 8) widths noWait rowsFooTwelve []
           (fresh_is_new bytesBuffer 8) eq_refl eq_refl eq_refl).
  intros dB HdB. vm_compute in HdB. injection HdB as <-.
  apply Z.leb_le. vm_compute. reflexivity.
Defined.

(** The width, then the sink, then the rows. *)
Definition streamed : DirectWriter (W := bytesBuffer) :=
  after (runCalls rowsFooTwelve (set_out (after (runCalls widths (fresh bytesBuffer 8))) (Some []))).

(** The sink first, then a column width, then the rows: the first row takes
    the buffer over the threshold of 8 bytes and runs the first flush. *)
Definition attachedFresh : DirectWriter (W := bytesBuffer) :=
  set_out (fresh bytesBuffer 8) (Some []).

Definition widthSet : DirectWriter (W := bytesBuffer) :=
  after (runCalls widths attachedFresh).

Definition firstFlushed : DirectWriter (W := bytesBuffer) :=
  after (call fooRow widthSet).

Definition thenTwelve : DirectWriter (W := bytesBuffer) :=
  after (runCalls [twelveRow] firstFlushed).

Lemma header_delivered_once_at_first_flush_witness :
  (exists wM : bytesBuffer, out widthSet = Some wM /\ wM = [] /\ buf widthSet = [])
  /\ exists wF : bytesBuffer,
       out firstFlushed = Some wF
       /\ wF = [] ++ headerFor (worksheet (fresh bytesBuffer 8)) (colDirective 1 2 20)
                 ++ bodyOf ([] ++ widths ++ [fooRow]) (fresh bytesBuffer 8) 0
       /\ buf firstFlushed = []
       /\ 0 < bytesWritten firstFlushed.
Proof.
  assert (H1 : runCalls [] (fresh bytesBuffer 8) = Some (fresh bytesBuffer 8))
    by reflexivity.
  assert (H2 : attach ([] : bytesBuffer) (fresh bytesBuffer 8) = Some attachedFresh)
    by reflexivity.
  assert (H3 : runCalls widths attachedFresh = Some widthSet)
    by (vm_compute; reflexivity).
  assert (H4 : bytesWritten widthSet = 0) by (vm_compute; reflexivity).
  assert (H5 : flushes fooRow widthSet).
  { split; [vm_compute; reflexivity|].
    split; [apply Z.ltb_lt; vm_compute; reflexivity|vm_compute; reflexivity]. }
  assert (H6 : call fooRow widthSet = Some firstFlushed) by (vm_compute; reflexivity).
  assert (H7 : runCalls [twelveRow] firstFlushed = Some thenTwelve)
    by (vm_compute; reflexivity).
  assert (H8 : len (buildHeader thenTwelve
                      ++ bodyOf ([] ++ widths ++ fooRow :: [twelveRow]) (fresh bytesBuffer 8) 0)
               <= maxInt)
    by (apply Z.leb_le; vm_compute; reflexivity).
  pose proof (header_delivered_once_at_first_flush (env := workbook)
                (fun w : bytesBuffer => w) bytesBuffer_reliable
                ([] : list string) ["Sheet1"%string] "Sheet1" 8
                (fresh bytesBuffer 8) (fresh bytesBuffer 8) attachedFresh widthSet
                firstFlushed thenTwelve [] widths [twelveRow] fooRow []
                (fresh_is_new bytesBuffer 8) H1 H2 H3 H4 H5 H6 H7 H8) as H.
  cbv zeta in H. destruct H as (_ & (wM & HoM & HdM & HbM) & (wF & HoF & HdF & HbF & _ & HpF) & _).
  split.
  - exists wM. split; [exact HoM|]. split; [exact HdM|]. rewrite HbM. reflexivity.
  - exists wF. split; [exact HoF|]. split; [|split; [exact HbF|exact HpF]].
    rewrite HdF. reflexivity.
Defined.

(** A writer whose sink refuses every write. *)
Definition piped : DirectWriter (W := brokenPipe) :=
  set_out (fresh brokenPipe 8) (Some BrokenPipe).



Lemma tryFlush_header_error_keeps_mutex_witness :
  exists dw' : DirectWriter (W := brokenPipe),
    tryFlush piped = Ret (Some errPipe) dw'
    /\ locked dw' = true /\ bytesWritten dw' = 0 /\ buf dw' = buf piped
    /\ tryFlush dw' = Blocked dw'.
Proof.
  exact (proj1 (tryFlush_header_error_keeps_mutex (env := workbook) piped
                  BrokenPipe BrokenPipe 0 errPipe eq_refl eq_refl eq_refl eq_refl)).
Defined.




Lemma AddRow_value_error_closes_row_witness :
  exists dw' : DirectWriter (W := bytesBuffer),
    AddRow (fresh bytesBuffer 8) ([cell (VString "foo")] ++ cell VUnsupported :: [cell (VInt 1)]) []
      = Ret (len (buf dw'), Some (errors_New "unsupported value")) dw'
    /\ buf dw' =
         B "<row r=" ++ [Q] ++ B "1" ++ [Q] ++ B "><c t=" ++ [Q] ++ B "str" ++ [Q]
           ++ B "><v>foo</v></c></row>".
Proof.
  destruct (AddRow_value_error_closes_row (env := workbook) (fresh bytesBuffer 8)
              [cell (VString "foo")] [cell (VInt 1)] (cell VUnsupported)
              [{| c_XMLSpace := noAttr; c_S := 0; c_T := "str"%string; c_F := None;
                  c_V := "foo"%string |}]
              [] (errors_New "unsupported value")
              (or_introl eq_refl)
              ltac:(constructor; [reflexivity|constructor])
              eq_refl)
    as (dw' & Hadd & Hbuf & _).
  exists dw'. split; [exact Hadd|]. rewrite Hbuf. vm_compute. reflexivity.
Defined.

Lemma AddRow_attrs_error_leaves_open_tag_witness :
  exists dw' : DirectWriter (W := bytesBuffer),
    AddRow (fresh bytesBuffer 8) [cell (VString "foo")] [-1]
      = Ret (len (buf dw'), Some (errors_New "invalid row height")) dw'
    /\ rowCount dw' = 1
    /\ buf dw' = B "<row r=" ++ [Q] ++ B "1" ++ [Q].
Proof.
  pose proof (AddRow_attrs_error_leaves_open_tag (env := workbook) (fresh bytesBuffer 8)
                [cell (VString "foo")] [-1] (errors_New "invalid row height")
                ltac:(discriminate) eq_refl) as H.
  cbv zeta in H. destruct H as (Hadd & Hrc & _).
  eexists. split; [exact Hadd|]. split; [exact Hrc|]. vm_compute. reflexivity.
Defined.

(** Wait mode on with a sink registered: the row stays in the buffer; wait
    mode off: the next row takes the whole buffer to the sink. *)
Definition waiting : DirectWriter (W := bytesBuffer) :=
  fst (SetWait (set_out (fresh bytesBuffer 8) (Some [])) true).

Definition waitingFoo : DirectWriter (W := bytesBuffer) :=
  after (runCalls [fooRow] waiting).

Definition drainedFoo : DirectWriter (W := bytesBuffer) :=
  fst (AddRow_encode (fst (SetWait waitingFoo false)) [cell (VInt 12)] []).

Lemma wait_mode_gates_flush_witness :
  (exists n e (dw' : DirectWriter (W := bytesBuffer)),
      AddRow waiting [cell (VString "foo")] [] = Ret (n, e) dw'
      /\ n = len (buf dw') /\ maxBufferSize dw' < n /\ out dw' = Some [])
  /\ exists (dw' : DirectWriter (W := bytesBuffer)) w',
       AddRow (fst (SetWait waitingFoo false)) [cell (VInt 12)] [] = Ret (0, None) dw'
       /\ buf dw' = [] /\ out dw' = Some w'.
Proof.
  pose proof (wait_mode_gates_flush (env := workbook) (W := bytesBuffer))
    as (_ & _ & Hwait & Hdrain).
  split.
  - destruct (Hwait waiting [cell (VString "foo")] [] eq_refl)
      as (n & e & dw' & Hadd & Hn & Hbuf & Hout & _).
    exists n, e, dw'. split; [exact Hadd|]. split; [exact Hn|]. split; [|exact Hout].
    replace (maxBufferSize dw') with 8.
    + rewrite Hn, Hbuf. apply Z.ltb_lt. vm_compute. reflexivity.
    + vm_compute in Hadd. injection Hadd as _ _ <-. reflexivity.
  - destruct (Hdrain waitingFoo [cell (VInt 12)] [] []
                (([] ++ buildHeader drainedFoo) ++ buf drainedFoo))
      as (dw' & Hadd & Hbuf & Hout).
    + reflexivity.
    + vm_compute. reflexivity.
    + vm_compute. reflexivity.
    + apply Z.ltb_lt. vm_compute. reflexivity.
    + left. split; [vm_compute; reflexivity|].
      do 3 eexists. split; reflexivity.
    + exists dw'. eexists. split; [exact Hadd|]. split; [exact Hbuf|exact Hout].
Defined.

End Scenarios.

(** ** More runs on the concrete workbook *)

(** A sink that refuses its first [failures] writes and accepts the rest. *)
Module Flaky.

Record sink : Type := { content : list byte; failures : nat }.

#[export] Instance sink_Writer : Writer sink :=
  fun w p =>
    match failures w with
    | O => ({| content := content w ++ p; failures := O |}, (len p, None))
    | S k => ({| content := content w; failures := k |}, (0, Some Fixture.errPipe))
    end.

End Flaky.

Section MoreScenarios.

Import Fixture.
Import Flaky.

Definition fooTwelve : list Cell := [cell (VString "foo"); cell (VInt 12)].

Lemma AddRow_returns_buffer_length_witness :
  (exists dw' : DirectWriter (W := bytesBuffer),
      AddRow (fresh bytesBuffer 8) [cell (VString "foo")] [] = Ret (42, None) dw'
      /\ buf dw' = B "<row r=" ++ [Q] ++ B "1" ++ [Q] ++ B "><c t=" ++ [Q] ++ B "str" ++ [Q]
                     ++ B "><v>foo</v></c></row>")
  /\ exists dw' : DirectWriter (W := bytesBuffer),
       AddRow (set_out (fresh bytesBuffer 8) (Some [])) [cell (VString "foo")] []
         = Ret (0, None) dw'
       /\ buf dw' = [].
Proof.
  split.
  - set (r := AddRow (fresh bytesBuffer 8) [cell (VString "foo")] []).
    assert (E : r = Ret (42, None) (stateOf r)) by (vm_compute; reflexivity).
    pose proof (AddRow_returns_buffer_length (env := workbook) (fresh bytesBuffer 8) _
                  [cell (VString "foo")] [] 42 None E) as H.
    cbv zeta in H. destruct H as (_ & _ & Hnone & _).
    destruct (Hnone eq_refl) as [Hb _].
    exists (stateOf r). split; [exact E|]. rewrite Hb. vm_compute. reflexivity.
  - set (r := AddRow (set_out (fresh bytesBuffer 8) (Some [])) [cell (VString "foo")] []).
    assert (E : r = Ret (0, None) (stateOf r)) by (vm_compute; reflexivity).
    pose proof (AddRow_returns_buffer_length (env := workbook)
                  (set_out (fresh bytesBuffer 8) (Some [])) _
                  [cell (VString "foo")] [] 0 None E) as H.
    cbv zeta in H. destruct H as (_ & _ & _ & _ & Hflush).
    destruct Hflush as [Hb _].
    + vm_compute. reflexivity.
    + apply Z.ltb_lt. vm_compute. reflexivity.
    + reflexivity.
    + discriminate.
    + reflexivity.
    + exists (stateOf r). split; [exact E|exact Hb].
Defined.

Lemma AddRow_tracks_column_lengths_witness :
  nth 1 (MaxColumnLengths (stateOf (AddRow (fresh bytesBuffer 8) fooTwelve []))) 0 = 2.
Proof.
  pose proof (proj2 (AddRow_tracks_column_lengths (env := workbook) (fresh bytesBuffer 8)
                       fooTwelve [] (or_introl eq_refl)) 1%nat) as H.
  etransitivity; [exact H|]. vm_compute. reflexivity.
Defined.

Definition afterTwoRows : DirectWriter (W := bytesBuffer) :=
  after (runCalls [CAddRow fooTwelve []; fooRow] (set_out (fresh bytesBuffer 8) (Some []))).

Lemma MaxColumnLengths_never_decrease_witness :
  (List.length (MaxColumnLengths (set_out (fresh bytesBuffer 8) (Some [])))
   <= List.length (MaxColumnLengths afterTwoRows))%nat
  /\ forall j, nth j (MaxColumnLengths (set_out (fresh bytesBuffer 8) (Some []))) 0
               <= nth j (MaxColumnLengths afterTwoRows) 0.
Proof.
  apply (MaxColumnLengths_never_decrease (env := workbook)
           [CAddRow fooTwelve []; fooRow]).
  vm_compute. reflexivity.
Defined.

(** A finished stream whose sink refuses every write. *)
Definition pipedDone : DirectWriter (W := brokenPipe) := set_done piped true.

Lemma Close_twice_never_succeeds_witness :
  exists dw' : DirectWriter (W := brokenPipe),
    Close pipedDone = Ret (Some errPipe) dw' /\ Some errPipe <> None.
Proof.
  exists (stateOf (Close pipedDone)).
  assert (E : Close pipedDone = Ret (Some errPipe) (stateOf (Close pipedDone)))
    by (vm_compute; reflexivity).
  split; [exact E|].
  exact (Close_twice_never_succeeds (env := workbook) pipedDone _ _ eq_refl E).
Defined.

Definition heldMutex : DirectWriter (W := bytesBuffer) :=
  set_locked (set_out (fresh bytesBuffer 8) (Some [])) true.

Lemma held_mutex_blocks_witness :
  Close heldMutex = Blocked (bufAppend heldMutex (trailer heldMutex))
  /\ AddRow heldMutex [cell (VString "foo")] []
     = Blocked (fst (AddRow_encode heldMutex [cell (VString "foo")] []))
  /\ WriteTo heldMutex [] = LockBlocked.
Proof.
  destruct (held_mutex_blocks (env := workbook) heldMutex eq_refl) as (H1 & H2 & H3).
  split; [exact H1|]. split.
  - apply H2.
    + vm_compute. reflexivity.
    + apply Z.ltb_lt. vm_compute. reflexivity.
    + reflexivity.
  - apply H3. reflexivity.
Defined.

(** A stream that has delivered its header, with a row in the buffer and a
    sink that refuses one write. *)
Definition flakyStream : DirectWriter (W := Flaky.sink) :=
  {| locked := false; dwFile := ["Sheet1"%string]; Sheet := "Sheet1"; SheetID := 1;
     cols := EmptyString; worksheet := tt; sheetPath := "xl/worksheets/Sheet1.xml";
     maxBufferSize := 8; bytesWritten := 40; buf := B "<row></row>";
     out := Some {| Flaky.content := []; Flaky.failures := 1 |};
     done := false; rowCount := 1; maxColLengths := []; waitMode := false |}.

Lemma refused_flush_can_be_retried_witness :
  exists d1 d2 : DirectWriter (W := Flaky.sink),
    tryFlush flakyStream = Ret (Some errPipe) d1
    /\ tryFlush d1 = Ret None d2
    /\ buf d2 = []
    /\ out d2 = Some {| Flaky.content := B "<row></row>"; Flaky.failures := 0 |}
    /\ bytesWritten d2 = wrapInt (40 + 11).
Proof.
  exact (refused_flush_can_be_retried (env := workbook) flakyStream
           {| Flaky.content := []; Flaky.failures := 1 |}
           {| Flaky.content := []; Flaky.failures := 0 |}
           {| Flaky.content := B "<row></row>"; Flaky.failures := 0 |}
           0 11 errPipe eq_refl eq_refl ltac:(discriminate) eq_refl eq_refl).
Defined.

Lemma Close_retry_repeats_trailer_witness :
  exists d1 d2 : DirectWriter (W := Flaky.sink),
    Close flakyStream = Ret (Some errPipe) d1
    /\ done d1 = false /\ buf d1 = buf flakyStream ++ trailer flakyStream
    /\ Close d1 = Ret None d2
    /\ done d2 = true
    /\ out d2 = Some {| Flaky.content :=
                          buf flakyStream ++ trailer flakyStream ++ trailer flakyStream;
                        Flaky.failures := 0 |}
    /\ buf d2 = [].
Proof.
  exact (Close_retry_repeats_trailer (env := workbook) flakyStream
           {| Flaky.content := []; Flaky.failures := 1 |}
           {| Flaky.content := []; Flaky.failures := 0 |}
           {| Flaky.content := buf flakyStream ++ trailer flakyStream ++ trailer flakyStream;
              Flaky.failures := 0 |}
           0 (len (buf flakyStream ++ trailer flakyStream ++ trailer flakyStream)) errPipe
           eq_refl eq_refl eq_refl ltac:(discriminate) eq_refl eq_refl).
Defined.

(** Three rows against a threshold of 50 bytes: the second is flushed with
    the first, the third waits in the buffer. *)
Definition thirdRowWaiting : DirectWriter (W := bytesBuffer) :=
  after (runCalls [fooRow; fooRow; fooRow] (set_out (fresh bytesBuffer 50) (Some []))).

Lemma second_WriteTo_replaces_sink_witness :
  exists d1 d2 : DirectWriter (W := bytesBuffer),
    WriteTo thirdRowWaiting [] = Waiting d1
    /\ out d1 = Some []
    /\ tryFlush d1 = Ret None d2
    /\ out d2 = Some ([] ++ buf thirdRowWaiting) /\ buf d2 = [].
Proof.
  apply (second_WriteTo_replaces_sink (env := workbook) thirdRowWaiting []
           ([] ++ buf thirdRowWaiting) (len (buf thirdRowWaiting))).
  - vm_compute. reflexivity.
  - vm_compute. reflexivity.
  - vm_compute. discriminate.
  - reflexivity.
Defined.

Lemma wait_mode_keeps_widths_open_witness :
  exists dw' : DirectWriter (W := bytesBuffer),
    runCalls [fooRow; twelveRow] waiting = Some dw'
    /\ bytesWritten dw' = 0 /\ out dw' = Some []
    /\ SetColWidth dw' 1 2 20 =
         (set_cols dw' (cols dw' ++ colDirective 1 2 20)%string, None).
Proof.
  destruct (wait_mode_keeps_widths_open (env := workbook) [fooRow; twelveRow] eq_refl
              waiting eq_refl) as (dw' & Hrun & _ & Hb & Ho & Hset).
  exists dw'. split; [exact Hrun|]. split; [exact Hb|]. split; [exact Ho|].
  apply Hset.
  - reflexivity.
  - lia.
  - vm_compute. discriminate.
  - reflexivity.
Defined.

Lemma AddRow_without_sink_only_buffers_witness :
  exists dw' : DirectWriter (W := bytesBuffer),
    AddRow (fresh bytesBuffer 8) [cell VUnsupported] []
      = Ret (17, Some (errors_New "unsupported value")) dw'
    /\ bytesWritten dw' = 0 /\ out dw' = None.
Proof.
  destruct (AddRow_without_sink_only_buffers (env := workbook) (fresh bytesBuffer 8)
              [cell VUnsupported] [] eq_refl eq_refl)
    as (dw' & Hadd & _ & Hb & Ho & _).
  exists dw'. split; [|split; [exact Hb|exact Ho]].
  rewrite Hadd. f_equal.
Defined.

(** What the sink holds after the streamed run. *)
Definition streamedSink : bytesBuffer :=
  match out streamed with Some w => w | None => [] end.

Lemma WriteTo_returns_delivered_count_witness :
  out streamed = Some streamedSink
  /\ WriteTo_wake streamed = (len streamedSink - len ([] : bytesBuffer), None).
Proof.
  assert (E : out streamed = Some streamedSink) by (vm_compute; reflexivity).
  split; [exact E|].
  assert (H1 : runCalls widths (fresh bytesBuffer 8)
               = Some (after (runCalls widths (fresh bytesBuffer 8))))
    by (vm_compute; reflexivity).
  assert (H2 : attach ([] : bytesBuffer) (after (runCalls widths (fresh bytesBuffer 8)))
               = Some (set_out (after (runCalls widths (fresh bytesBuffer 8))) (Some [])))
    by (vm_compute; reflexivity).
  assert (H3 : runCalls rowsFooTwelve
                 (set_out (after (runCalls widths (fresh bytesBuffer 8))) (Some []))
               = Some streamed)
    by (vm_compute; reflexivity).
  assert (H4 : len (buildHeader streamed ++ bodyOf (widths ++ rowsFooTwelve) (fresh bytesBuffer 8) 0)
               <= maxInt)
    by (apply Z.leb_le; vm_compute; reflexivity).
  exact (WriteTo_returns_delivered_count (env := workbook) (fun w : bytesBuffer => w)
            bytesBuffer_reliable ([] : list string) ["Sheet1"%string] "Sheet1" 8
            (fresh bytesBuffer 8) (after (runCalls widths (fresh bytesBuffer 8)))
            (set_out (after (runCalls widths (fresh bytesBuffer 8))) (Some []))
            streamed widths rowsFooTwelve [] streamedSink
            (fresh_is_new bytesBuffer 8) H1 H2 H3 H4 E).
Defined.
Definition streamedClosed : DirectWriter (W := bytesBuffer) :=
  stateOf (Close streamed).

Lemma Close_delivers_everything_witness :
  done streamedClosed = true /\ buf streamedClosed = []
  /\ exists w : bytesBuffer,
       out streamedClosed = Some w
       /\ w = [] ++ buildHeader streamedClosed
                ++ bodyOf (widths ++ rowsFooTwelve) (fresh bytesBuffer 8) 0
                ++ trailer (fresh bytesBuffer 8)
       /\ exists l, w = l ++ B "</worksheet>".
Proof.
  refine (proj2 (Close_delivers_everything (env := workbook) (fun w : bytesBuffer => w)
            bytesBuffer_reliable ([] : list string) ["Sheet1"%string] "Sheet1" 8
            (fresh bytesBuffer 8) (after (runCalls widths (fresh bytesBuffer 8)))
            (set_out (after (runCalls widths (fresh bytesBuffer 8))) (Some []))
            streamed streamedClosed widths rowsFooTwelve [] None
            (fresh_is_new bytesBuffer 8) _ _ _ _ _)).
  - vm_compute. reflexivity.
  - vm_compute. reflexivity.
  - vm_compute. reflexivity.
  - vm_compute. reflexivity.
  - apply Z.leb_le. vm_compute. reflexivity.
Defined.



(** *** The first revision *)

Definition setFormula (c : xlsxC) (formula : string) : xlsxC :=
  if nonempty formula
  then {| c_XMLSpace := c_XMLSpace c; c_S := c_S c; c_T := c_T c;
          c_F := Some {| Content := formula |}; c_V := c_V c |}
  else c.

Definition errSetColWidth : error :=
  errors_New "must call the SetColWidth function before the SetRow function".

(** A writer of the first revision, as [NewDirectWriter] leaves it, with a
    sink registered. *)
Definition firstFresh (W : Type) (o : option W) : DirectGoWriter.DirectWriter (W := W) :=
  {| DirectGoWriter.locked := false; DirectGoWriter.dwFile := ["Sheet1"%string];
     DirectGoWriter.Sheet := "Sheet1"; DirectGoWriter.SheetID := 1;
     DirectGoWriter.sheetWritten := false; DirectGoWriter.cols := EmptyString;
     DirectGoWriter.worksheet := tt;
     DirectGoWriter.sheetPath := "xl/worksheets/Sheet1.xml";
     DirectGoWriter.maxBufferSize := 8; DirectGoWriter.bytesWritten := 0;
     DirectGoWriter.buf := B (XMLHeader ++ "<worksheet" ++ templateNamespaceIDMap);
     DirectGoWriter.out := o; DirectGoWriter.done := false |}.

Lemma firstFresh_is_new (W : Type) :
  DirectGoWriter.NewDirectWriter ["Sheet1"%string] "Sheet1" 8
    = inl (["Sheet1"%string], firstFresh W None).
Proof. vm_compute. reflexivity. Qed.

Lemma AddRow_drops_flush_error_witness :
  exists dw' : DirectGoWriter.DirectWriter (W := brokenPipe),
    DirectGoWriter.AddRow setFormula (firstFresh brokenPipe (Some BrokenPipe))
      [cell (VString "foo")] [] = Ret None dw'
    /\ DirectGoWriter.out dw' = Some BrokenPipe
    /\ DirectGoWriter.bytesWritten dw' = 0.
Proof.
  set (dw := firstFresh brokenPipe (Some BrokenPipe)).
  set (d := fst (DirectGoWriter.AddRow_cells setFormula
                   (DirectGoWriter.set_buf (DirectGoWriter.openSheetData dw)
                      (DirectGoWriter.buf (DirectGoWriter.openSheetData dw)
                         ++ B ("<row" ++ EmptyString ++ ">")))
                   [cell (VString "foo")])).
  destruct (DirectGoWriter.AddRow_drops_flush_error (env := workbook) setFormula
              dw d [cell (VString "foo")] [] EmptyString BrokenPipe BrokenPipe 0 errPipe
              eq_refl eq_refl eq_refl)
    as (dw' & Hadd & _ & Ho & Hb).
  - vm_compute. reflexivity.
  - apply Z.ltb_lt. vm_compute. reflexivity.
  - reflexivity.
  - exists dw'. split; [exact Hadd|]. split; [exact Ho|]. rewrite Hb. reflexivity.
Defined.

Lemma Flush_leaves_closing_tags_in_buffer_witness :
  exists dw' : DirectGoWriter.DirectWriter (W := bytesBuffer),
    DirectGoWriter.Flush (firstFresh bytesBuffer (Some [])) = Ret None dw'
    /\ DirectGoWriter.done dw' = true
    /\ DirectGoWriter.out dw' = Some ([] ++ B (XMLHeader ++ "<worksheet" ++ templateNamespaceIDMap))
    /\ DirectGoWriter.buf dw' = B "<sheetData></sheetData></worksheet>".
Proof.
  destruct (DirectGoWriter.Flush_leaves_closing_tags_in_buffer (env := workbook)
              (firstFresh bytesBuffer (Some [])) []
              ([] ++ B (XMLHeader ++ "<worksheet" ++ templateNamespaceIDMap))
              (len (B (XMLHeader ++ "<worksheet" ++ templateNamespaceIDMap)))
              eq_refl eq_refl eq_refl eq_refl)
    as (dw' & HF & Hd & Ho & Hb & _).
  exists dw'. split; [exact HF|]. split; [exact Hd|]. split; [exact Ho|].
  rewrite Hb. vm_compute. reflexivity.
Defined.

Lemma WriteTo_after_Flush_writes_nothing_witness :
  exists dw' : DirectGoWriter.DirectWriter (W := bytesBuffer),
    DirectGoWriter.Flush (firstFresh bytesBuffer None) = Ret None dw'
    /\ DirectGoWriter.WriteTo dw' [] = DirectGoWriter.Returned 0 None
                                         (DirectGoWriter.set_out dw' (Some [])).
Proof.
  destruct (DirectGoWriter.WriteTo_after_Flush_writes_nothing (env := workbook)
              (firstFresh bytesBuffer None) [] eq_refl eq_refl eq_refl)
    as (dw' & HF & _ & _ & HW).
  exists dw'. split; [exact HF|exact HW].
Defined.

(** The first revision with one column width registered and no row. *)
Definition firstWithWidth : DirectGoWriter.DirectWriter (W := bytesBuffer) :=
  fst (DirectGoWriter.SetColWidth errSetColWidth (firstFresh bytesBuffer (Some [])) 1 2 20).

Lemma Flush_without_rows_drops_widths_witness :
  DirectGoWriter.cols firstWithWidth <> DirectGoWriter.cols (firstFresh bytesBuffer (Some []))
  /\ DirectGoWriter.buf (DirectGoWriter.stateOf (DirectGoWriter.Flush firstWithWidth))
     = DirectGoWriter.buf
         (DirectGoWriter.stateOf (DirectGoWriter.Flush (firstFresh bytesBuffer (Some []))))
  /\ DirectGoWriter.out (DirectGoWriter.stateOf (DirectGoWriter.Flush firstWithWidth))
     = DirectGoWriter.out
         (DirectGoWriter.stateOf (DirectGoWriter.Flush (firstFresh bytesBuffer (Some [])))).
Proof.
  apply (DirectGoWriter.Flush_without_rows_drops_widths (env := workbook) errSetColWidth
           (firstFresh bytesBuffer (Some [])) firstWithWidth 1 2 20).
  - reflexivity.
  - vm_compute. reflexivity.
Defined.


End MoreScenarios.
